(** * Oblik: the data-ingestion and query core of [Oblik_PySide.py]

    A shallow embedding of the parts of [src/Oblik_PySide.py] that locate
    files, parse the stock sheet, search and display the accounting sheet,
    resolve stock records and keep the search history, followed by the
    properties the specification states about them.

    Layout of the file:
    - Part I    Python values: strings, floats, cells, data frames
    - Part II   FileLocator: the date regex, [extract_date_from_filename],
                [get_latest_file]
    - Part III  HistoryLog: [log_action], [save_history], [load_history]
    - Part IV   QueryEngine: [format_number], [search_items], [show_results]
    - Part V    StockTableParser and StockResolver: [load_stocks_file],
                [update_stocks_display]
    - Part VI   the vocabulary of the properties
    - Part VIa  further methods: import, automatic loading, the dialog of
                the mapping, the stock columns, the panel of a stock record,
                the history panel
    - Part VII  lemmas and the specification's properties
    - Part VIII properties of the further methods. *)

From Stdlib Require Import List ZArith NArith Bool Lia String Ascii.
From Stdlib Require Import Floats DecimalString Permutation Sorted.
Import ListNotations.

(* ================================================================== *)
(** * Part I. Python values *)
(* ================================================================== *)

(** ** Strings

    A Python [str] is a sequence of Unicode code points. *)

Definition pystr : Type := list N.

(** Literals are written as UTF-8 Rocq strings and decoded to code points,
    so that the constants of the source can be read as they are there. *)

Fixpoint utf8_decode (bs : list N) : pystr :=
  match bs with
  | [] => []
  | b1 :: r1 =>
    if (b1 <? 128)%N then b1 :: utf8_decode r1
    else match r1 with
    | [] => [b1]
    | b2 :: r2 =>
      if (b1 <? 224)%N then ((b1 - 192) * 64 + (b2 - 128))%N :: utf8_decode r2
      else match r2 with
      | [] => [b1; b2]
      | b3 :: r3 =>
        if (b1 <? 240)%N
        then ((b1 - 224) * 4096 + (b2 - 128) * 64 + (b3 - 128))%N :: utf8_decode r3
        else match r3 with
        | [] => [b1; b2; b3]
        | b4 :: r4 =>
          ((b1 - 240) * 262144 + (b2 - 128) * 4096 + (b3 - 128) * 64 + (b4 - 128))%N
            :: utf8_decode r4
        end
      end
    end
  end.

Definition u (s : string) : pystr :=
  utf8_decode (map N_of_ascii (list_ascii_of_string s)).

Fixpoint pystr_eqb (a b : pystr) : bool :=
  match a, b with
  | [], [] => true
  | x :: a', y :: b' => (x =? y)%N && pystr_eqb a' b'
  | _, _ => false
  end.

(** [str.isspace] on one code point (the characters [str.strip()] removes). *)
Definition is_space (c : N) : bool :=
  ((9 <=? c) && (c <=? 13) || (28 <=? c) && (c <=? 32)
   || (c =? 133) || (c =? 160) || (c =? 5760)
   || (8192 <=? c) && (c <=? 8202)
   || (c =? 8232) || (c =? 8233) || (c =? 8239) || (c =? 8287) || (c =? 12288))%N.

Fixpoint lstrip (s : pystr) : pystr :=
  match s with
  | c :: s' => if is_space c then lstrip s' else s
  | [] => []
  end.

Definition rstrip (s : pystr) : pystr := rev (lstrip (rev s)).

(** [s.strip()] *)
Definition strip (s : pystr) : pystr := rstrip (lstrip s).

(** [s.startswith(p)] *)
Fixpoint startswith (p s : pystr) : bool :=
  match p, s with
  | [], _ => true
  | x :: p', y :: s' => (x =? y)%N && startswith p' s'
  | _ :: _, [] => false
  end.

(** [s.endswith(p)] *)
Definition endswith (p s : pystr) : bool := startswith (rev p) (rev s).

(** [sub in s], [s.find(sub) != -1], and [Series.str.contains(sub, regex=False)]
    on one element: literal substring search. *)
Fixpoint contains (sub s : pystr) : bool :=
  startswith sub s ||
  match s with
  | [] => false
  | _ :: s' => contains sub s'
  end.

(** [s.replace(old, new)] for a non-empty [old]: left to right, occurrences
    do not overlap.  [skip] counts the characters of the current occurrence
    that are still to be dropped. *)
Fixpoint replace_from (old new : pystr) (skip : nat) (s : pystr) : pystr :=
  match s with
  | [] => []
  | c :: s' =>
    match skip with
    | S k => replace_from old new k s'
    | O =>
      if startswith old s
      then new ++ replace_from old new (List.length old - 1) s'
      else c :: replace_from old new 0 s'
    end
  end.

Definition replace (old new s : pystr) : pystr := replace_from old new 0 s.

(** [str(n)] for a Python [int]. *)
Definition str_of_Z (z : Z) : pystr :=
  map N_of_ascii (list_ascii_of_string (NilZero.string_of_int (Z.to_int z))).

(** [\d] restricted to the ASCII digits, and [int(s)] on such digits. *)
Definition is_digit (c : N) : bool := ((48 <=? c) && (c <=? 57))%N.

Definition int_of_digits (s : pystr) : nat :=
  fold_left (fun acc c => 10 * acc + N.to_nat (c - 48)) s 0.

(** ** Floats

    Python floats are IEEE 754 binary64 values: Rocq's primitive floats.
    Three conversions of the interpreter are not defined here but taken as an
    interface: the text of a finite float, the parsing of a string by
    [float()], and [str.lower]. *)

Class PyBuiltins : Type := {
  (** [str(x)] for a finite float [x] *)
  float_repr : float -> pystr;
  (** [float(s)] for a string; [None] when it raises [ValueError] *)
  float_parse : pystr -> option float;
  (** [s.lower()] *)
  lower : pystr -> pystr
}.

(** [float(n)] for an [int] (round to nearest, ties to even). *)
Definition float_of_Z (z : Z) : float :=
  SF2Prim (binary_normalize prec emax z 0 false).

(** [int(round(x))]: the nearest integer, ties to even; [None] when [round]
    raises ([OverflowError] on an infinity, [ValueError] on a NaN). *)
Definition round_int (x : float) : option Z :=
  match Prim2SF x with
  | S754_zero _ => Some 0%Z
  | S754_finite s m e =>
    let n :=
      if (0 <=? e)%Z then (Z.pos m * 2 ^ e)%Z
      else
        let d := (2 ^ (- e))%Z in
        let q := (Z.pos m / d)%Z in
        let r := (Z.pos m mod d)%Z in
        if (2 * r <? d)%Z then q
        else if (d <? 2 * r)%Z then (q + 1)%Z
        else if Z.even q then q else (q + 1)%Z in
    Some (if s then (- n)%Z else n)
  | S754_infinity _ => None
  | S754_nan => None
  end.

(** ** Cells and data frames

    A cell of a sheet read by [pd.read_excel(..., header=None)] is an integer,
    a float or a text; an empty cell is the float NaN. *)

Inductive cell : Type :=
| Int (z : Z)
| Float (x : float)
| Text (s : pystr).

Definition NaN : cell := Float nan.

(** [pd.isna(c)] *)
Definition isna (c : cell) : bool :=
  match c with
  | Float x => is_nan x
  | _ => false
  end.

(** [str(x)] for a float. *)
Definition str_of_float `{PyBuiltins} (x : float) : pystr :=
  if is_nan x then u "nan"
  else if (x =? infinity)%float then u "inf"
  else if (x =? neg_infinity)%float then u "-inf"
  else float_repr x.

(** [str(c)], which is also what [Series.astype(str)] gives for the cell
    (an empty cell becomes the text "nan"). *)
Definition cell_str `{PyBuiltins} (c : cell) : pystr :=
  match c with
  | Int z => str_of_Z z
  | Float x => str_of_float x
  | Text s => s
  end.

(** [float(c)]; [None] when it raises. *)
Definition float_of_cell `{PyBuiltins} (c : cell) : option float :=
  match c with
  | Int z => Some (float_of_Z z)
  | Float x => Some x
  | Text s => float_parse s
  end.

(** A data frame read with [header=None]: [ncols] columns and a list of rows,
    each of [ncols] cells, addressed by position. *)
Record DataFrame : Type := {
  ncols : nat;
  rows : list (list cell)
}.

(** [row.iloc[i]]: [None] stands for [IndexError]. *)
Definition row_iloc (r : list cell) (i : nat) : option cell := nth_error r i.

(** [df.iloc[:, i]]: the column as a list; [None] stands for [IndexError]. *)
Definition iloc_col (df : DataFrame) (i : nat) : option (list cell) :=
  if i <? ncols df then Some (map (fun r => nth i r NaN) (rows df)) else None.

(** [df.iloc[i]]: the row; [None] stands for [IndexError]. *)
Definition iloc_row (df : DataFrame) (i : nat) : option (list cell) :=
  nth_error (rows df) i.

(** [df[mask]]: the rows whose mask entry is true, in order. *)
Fixpoint select_mask (rs : list (list cell)) (mask : list bool) : list (list cell) :=
  match rs, mask with
  | r :: rs', b :: mask' =>
    if b then r :: select_mask rs' mask' else select_mask rs' mask'
  | _, _ => []
  end.

(* ================================================================== *)
(** * Part II. FileLocator *)
(* ================================================================== *)

(** ** Regular expressions

    The fragment of Python's [re] that the source uses: character classes,
    sequence, greedy bounded repetition, greedy option and capturing groups,
    matched by backtracking.  A matcher takes the rest of the input, the
    groups captured so far and a continuation; it tries its alternatives in
    Python's order and gives the first that lets the continuation succeed. *)

Inductive regex : Type :=
| Chr (p : N -> bool)
| Seq (a b : regex)
| Rep (a : regex) (lo hi : nat)
| Opt (a : regex)
| Grp (i : nat) (a : regex).

Definition captures : Type := list (nat * pystr).

Definition cont : Type := pystr -> captures -> option captures.

Fixpoint rep (ma : pystr -> captures -> cont -> option captures)
    (lo hi : nat) (s : pystr) (cs : captures) (k : cont) : option captures :=
  match hi with
  | O => if lo =? 0 then k s cs else None
  | S hi' =>
    match ma s cs (fun s' cs' => rep ma (pred lo) hi' s' cs' k) with
    | Some r => Some r
    | None => if lo =? 0 then k s cs else None
    end
  end.

Fixpoint rmatch (r : regex) (s : pystr) (cs : captures) (k : cont)
    : option captures :=
  match r with
  | Chr p =>
    match s with
    | c :: s' => if p c then k s' cs else None
    | [] => None
    end
  | Seq a b => rmatch a s cs (fun s' cs' => rmatch b s' cs' k)
  | Rep a lo hi => rep (rmatch a) lo hi s cs k
  | Opt a =>
    match rmatch a s cs k with
    | Some r => Some r
    | None => k s cs
    end
  | Grp i a =>
    rmatch a s cs
      (fun s' cs' => k s' ((i, firstn (List.length s - List.length s') s) :: cs'))
  end.

(** [re.search(r, s)]: the match at the leftmost position that has one. *)
Fixpoint re_search (r : regex) (s : pystr) : option captures :=
  match rmatch r s [] (fun _ cs => Some cs) with
  | Some cs => Some cs
  | None =>
    match s with
    | [] => None
    | _ :: s' => re_search r s'
    end
  end.

(** [match.group(i)]; [None] for a group that took no part in the match. *)
Fixpoint group (cs : captures) (i : nat) : option pystr :=
  match cs with
  | [] => None
  | (j, g) :: cs' => if j =? i then Some g else group cs' i
  end.

(** ** The date in a file name *)

(** [[.,-]] *)
Definition is_sep (c : N) : bool := ((c =? 46) || (c =? 44) || (c =? 45))%N.

(** [(\d{1,2})[.,-](\d{1,2})(?:[.,-](\d{2,4})?)] *)
Definition date_regex : regex :=
  Seq (Grp 1 (Rep (Chr is_digit) 1 2))
 (Seq (Chr is_sep)
 (Seq (Grp 2 (Rep (Chr is_digit) 1 2))
 (Seq (Chr is_sep)
      (Opt (Grp 3 (Rep (Chr is_digit) 2 4)))))).

(** A [datetime] at midnight: only the date matters here. *)
Record datetime : Type := { year : nat; month : nat; day : nat }.

Definition datetime_min : datetime := {| year := 1; month := 1; day := 1 |}.

Definition is_leap (y : nat) : bool :=
  (y mod 4 =? 0) && (negb (y mod 100 =? 0) || (y mod 400 =? 0)).

Definition days_in_month (y m : nat) : nat :=
  match m with
  | 1 | 3 | 5 | 7 | 8 | 10 | 12 => 31
  | 4 | 6 | 9 | 11 => 30
  | 2 => if is_leap y then 29 else 28
  | _ => 0
  end.

Definition valid_date (y m d : nat) : bool :=
  (1 <=? y) && (y <=? 9999) && (1 <=? m) && (m <=? 12)
  && (1 <=? d) && (d <=? days_in_month y m).

(** [datetime(year=y, month=m, day=d)]; [None] stands for [ValueError]. *)
Definition mk_datetime (y m d : nat) : option datetime :=
  if valid_date y m d then Some {| year := y; month := m; day := d |} else None.

(** [a < b] on datetimes. *)
Definition datetime_ltb (a b : datetime) : bool :=
  (year a <? year b)
  || (year a =? year b) && ((month a <? month b)
                            || (month a =? month b) && (day a <? day b)).

(** The year of the third group: [int(year) if year else datetime.now().year],
    then [if year < 100: year += 2000]. *)
Definition year_of_group (now_year : nat) (g : option pystr) : nat :=
  let y := match g with
           | Some ((_ :: _) as ys) => int_of_digits ys
           | _ => now_year
           end in
  if y <? 100 then y + 2000 else y.

(** [extract_date_from_filename(filename)], with [datetime.now().year] as
    [now_year]. *)
Definition extract_date_from_filename (now_year : nat) (filename : pystr)
    : datetime :=
  match re_search date_regex filename with
  | None => datetime_min
  | Some cs =>
    match group cs 1, group cs 2 with
    | Some d, Some m =>
      match mk_datetime (year_of_group now_year (group cs 3))
                        (int_of_digits m) (int_of_digits d) with
      | Some dt => dt
      | None => datetime_min
      end
    | _, _ => datetime_min
    end
  end.

(** ** The latest file *)

(** [os.path.basename] (POSIX): what follows the last slash. *)
Fixpoint until_slash (s : pystr) : pystr :=
  match s with
  | [] => []
  | c :: s' => if (c =? 47)%N then [] else c :: until_slash s'
  end.

Definition basename (p : pystr) : pystr := rev (until_slash (rev p)).

(** [sorted(l, key=key, reverse=True)] on datetime keys.  Python's sort is
    stable, also with [reverse=True]: elements with equal keys keep their
    order.  Insertion from the right gives that order. *)
Fixpoint insert_desc {A : Type} (key : A -> datetime) (x : A) (l : list A)
    : list A :=
  match l with
  | [] => [x]
  | y :: l' =>
    if datetime_ltb (key x) (key y) then y :: insert_desc key x l'
    else x :: y :: l'
  end.

Fixpoint sorted_desc {A : Type} (key : A -> datetime) (l : list A) : list A :=
  match l with
  | [] => []
  | x :: l' => insert_desc key x (sorted_desc key l')
  end.

(** [get_latest_file(files)] *)
Definition get_latest_file (now_year : nat) (files : list pystr)
    : option pystr :=
  let files_with_dates :=
    map (fun f => (f, extract_date_from_filename now_year (basename f))) files in
  let files_sorted := sorted_desc snd files_with_dates in
  match files_sorted with
  | [] => None
  | p :: _ => Some (fst p)
  end.

(* ================================================================== *)
(** * Part III. HistoryLog *)
(* ================================================================== *)

(** An entry of [self.history] is the string ["%Y-%m-%d %H:%M - message"].
    It is kept here as its two parts: the time it shows, which is the time of
    the call cut to the minute, and the message.  Times are seconds on the
    local clock. *)
Record entry : Type := { stamp : Z; message : pystr }.

(** The content of [~/.oblpy_history]. *)
Inductive history_file : Type :=
| NoFile
| Corrupt
| Saved (entries : list entry).

(** [datetime.now().strftime("%Y-%m-%d %H:%M")], read back by [strptime]. *)
Definition minute_of (now : Z) : Z := (60 * (now / 60))%Z.

(** [timedelta(days=2)] *)
Definition two_days : Z := 172800%Z.

(** The test of both filters:
    [strptime(entry.split(" - ")[0], ...) > datetime.now() - timedelta(days=2)] *)
Definition is_recent (now : Z) (e : entry) : bool :=
  (now - two_days <? stamp e)%Z.

(** The columns of the accounting sheet, by their labels in the source:
    "Найменування", "Закуп", "Приб", "Ціна", "Код", "Арт". *)
Inductive field : Type := Name | Purchase | Profit | Price | Code | Article.

(** The fields of [NomenklaturaApp] that the modelled methods read or write,
    and the history file. *)
Record App : Type := {
  df : option DataFrame;
  column_mapping : field -> option nat;
  last_query : option pystr;
  history : list entry;
  file : history_file
}.

Definition set_history (h : list entry) (st : App) : App :=
  {| df := df st; column_mapping := column_mapping st;
     last_query := last_query st; history := h; file := file st |}.

Definition set_last_query (q : option pystr) (st : App) : App :=
  {| df := df st; column_mapping := column_mapping st;
     last_query := q; history := history st; file := file st |}.

Definition set_file (f : history_file) (st : App) : App :=
  {| df := df st; column_mapping := column_mapping st;
     last_query := last_query st; history := history st; file := f |}.

Definition set_table (d : DataFrame) (m : field -> option nat) (st : App) : App :=
  {| df := Some d; column_mapping := m;
     last_query := last_query st; history := history st; file := file st |}.

(** [log_action(message)] *)
Definition log_action (now : Z) (msg : pystr) (st : App) : App :=
  set_history
    (firstn 100 ({| stamp := minute_of now; message := msg |} :: history st)) st.

(** [save_history()]: writes the recent entries; [self.history] is not
    changed. *)
Definition save_history (now : Z) (st : App) : App :=
  set_file (Saved (filter (is_recent now) (history st))) st.

(** [load_history()] *)
Definition load_history (now : Z) (st : App) : App :=
  let st1 :=
    match file st with
    | NoFile => st
    | Saved saved_history => set_history (filter (is_recent now) saved_history) st
    | Corrupt => set_history [] st
    end in
  log_action now (u "Історію завантажено") st1.

(** [clear_history()] *)
Definition clear_history (now : Z) (st : App) : App :=
  log_action now (u "Історію пошуку очищено")
    (save_history now (set_history [] st)).

(** The state that [__init__] sets up before it calls [load_history]. *)
Definition init_mapping (f : field) : option nat :=
  Some match f with
       | Name => 0 | Purchase => 1 | Profit => 4
       | Price => 5 | Code => 7 | Article => 6
       end.

Definition init_app (f : history_file) : App :=
  {| df := None; column_mapping := init_mapping; last_query := None;
     history := []; file := f |}.

(* ================================================================== *)
(** * Part IV. QueryEngine *)
(* ================================================================== *)

(** Python's exceptions are modelled by [option]: [None] is a raise. *)
Notation "x <- e ;; k" :=
  (match e with Some x => k | None => None end)
  (at level 61, e at next level, right associativity).

Section QueryEngine.
Context `{PyBuiltins}.

(** [format_number(val)] *)
Definition format_number (val : cell) : pystr :=
  if isna val then []
  else
    match float_of_cell val with
    | Some num =>
      match round_int num with
      | Some n => str_of_Z n
      | None => cell_str val
      end
    | None => cell_str val
    end.

(** The code with its ".0" removed, as [show_results] and [search_items]
    both do it:
    [if code.endswith(".0"): code = code.replace(".0", "")] *)
Definition strip_code (code : pystr) : pystr :=
  if endswith (u ".0") code then replace (u ".0") [] code else code.

(** The [try] block of [show_results]: price minus profit; [None] is the
    [except] branch, which leaves [purchase = ""]. *)
Definition purchase_of (m : field -> option nat) (row : list cell)
    : option float :=
  price <- match m Price with
           | Some i => c <- row_iloc row i ;; float_of_cell c
           | None => Some 0%float
           end ;;
  profit <- match m Profit with
            | Some i => c <- row_iloc row i ;; float_of_cell c
            | None => Some 0%float
            end ;;
  Some (price - profit)%float.

(** One turn of the loop of [show_results]: the [values] of the tree item, in
    the order Name, Purchase, Profit, Price, Code, Article; [None] when an
    [IndexError] leaves the method. *)
Definition show_row (m : field -> option nat) (row : list cell)
    : option (list pystr) :=
  code_value <- match m Code with
                | Some i => c <- row_iloc row i ;; Some (strip_code (cell_str c))
                | None => Some []
                end ;;
  let purchase := purchase_of m row in
  v_name <- match m Name with
            | Some i => c <- row_iloc row i ;; Some (cell_str c)
            | None => Some []
            end ;;
  let v_purchase := match purchase with
                    | Some p => format_number (Float p)
                    | None => []
                    end in
  v_profit <- match m Profit with
              | Some i => c <- row_iloc row i ;; Some (format_number c)
              | None => Some []
              end ;;
  v_price <- match m Price with
             | Some i => c <- row_iloc row i ;; Some (format_number c)
             | None => Some []
             end ;;
  v_art <- match m Article with
           | Some i => c <- row_iloc row i ;; Some (cell_str c)
           | None => Some []
           end ;;
  Some [v_name; v_purchase; v_profit; v_price; code_value; v_art].

(** [show_results(df)]: the items of the tree after the call.  The loop stops
    at the first row that raises. *)
Fixpoint show_rows (m : field -> option nat) (rs : list (list cell))
    : list (list pystr) :=
  match rs with
  | [] => []
  | r :: rs' =>
    match show_row m r with
    | Some values => values :: show_rows m rs'
    | None => []
    end
  end.

Definition show_results (m : field -> option nat) (d : DataFrame)
    : list (list pystr) :=
  show_rows m (rows d).

(** The loop over ["Найменування", "Код", "Арт"] in [search_items]: one
    boolean series for each mapped column. *)
Definition search_columns : list field := [Name; Code; Article].

Fixpoint build_conds (m : field -> option nat) (d : DataFrame) (query : pystr)
    (cols : list field) : option (list (list bool)) :=
  match cols with
  | [] => Some []
  | col :: cols' =>
    match m col with
    | None => build_conds m d query cols'
    | Some idx =>
      series <- iloc_col d idx ;;
      conds <- build_conds m d query cols' ;;
      Some (map (fun c => contains (lower query) (lower (cell_str c))) series
              :: conds)
    end
  end.

(** [pd.concat(conds, axis=1).any(axis=1)] for series of [n] elements. *)
Definition any_axis1 (conds : list (list bool)) (n : nat) : list bool :=
  map (fun i => existsb (fun cond => nth i cond false) conds) (seq 0 n).

(** The filtering of [search_items]. *)
Definition filter_rows (m : field -> option nat) (d : DataFrame)
    (query : pystr) : option DataFrame :=
  conds <- build_conds m d query search_columns ;;
  match conds with
  | [] => Some d
  | _ :: _ =>
    Some {| ncols := ncols d;
            rows := select_mask (rows d)
                      (any_axis1 conds (List.length (rows d))) |}
  end.

(** [results.iloc[0, idx]] *)
Definition iloc0 (results : DataFrame) (idx : nat) : option cell :=
  match rows results with
  | r :: _ => if idx <? ncols results then Some (nth idx r NaN) else None
  | [] => None
  end.

Definition arrow : pystr := u " ➔ ".

Definition is_some {A : Type} (o : option A) : bool :=
  match o with Some _ => true | None => false end.

(** The text that [search_items] hands to [log_action]. *)
Definition history_message (m : field -> option nat) (results : DataFrame)
    (query : pystr) : option pystr :=
  if is_some (m Code) && (List.length (rows results) =? 1) then
    name <- match m Name with
            | Some i => c <- iloc0 results i ;; Some (cell_str c)
            | None => Some []
            end ;;
    price <- match m Price with
             | Some i => c <- iloc0 results i ;; Some (format_number c)
             | None => Some []
             end ;;
    profit <- match m Profit with
              | Some i => c <- iloc0 results i ;; Some (format_number c)
              | None => Some []
              end ;;
    code_cell <- match m Code with
                 | Some i => c <- iloc0 results i ;; Some (cell_str c)
                 | None => Some []
                 end ;;
    let code := strip_code code_cell in
    if contains (lower query) (lower (replace (u ".0") [] code_cell))
    then Some (query ++ arrow ++ profit ++ arrow ++ price ++ arrow ++ name)
    else Some (query ++ arrow ++ profit ++ arrow ++ price ++ arrow ++ code)
  else Some query.

(** [query != self.last_query] *)
Definition differs (query : pystr) (last : option pystr) : bool :=
  match last with
  | Some q => negb (pystr_eqb query q)
  | None => true
  end.

(** The [try] block of [search_items]; [None] is the [except] branch. *)
Definition search_try (now : Z) (record_history : bool) (query : pystr)
    (d : DataFrame) (st : App) : option (App * DataFrame) :=
  results <- filter_rows (column_mapping st) d query ;;
  st1 <- (if record_history && differs query (last_query st)
          then msg <- history_message (column_mapping st) results query ;;
               Some (log_action now msg st)
          else Some st) ;;
  Some (set_last_query (Some query) st1, results).

(** [not self.column_mapping] *)
Definition mapping_is_empty (m : field -> option nat) : bool :=
  forallb (fun f => negb (is_some (m f)))
          [Name; Purchase; Profit; Price; Code; Article].

(** [search_items(record_history)] with [text] in the search field: the new
    state and the frame handed to [show_results] ([None] when the method
    returns before that). *)
Definition search_items (now : Z) (record_history : bool) (text : pystr)
    (st : App) : App * option DataFrame :=
  match df st with
  | None => (st, None)
  | Some d =>
    if mapping_is_empty (column_mapping st) then (st, None)
    else
      let query := strip text in
      match query with
      | [] => (st, Some d)
      | _ :: _ =>
        match search_try now record_history query d st with
        | Some (st', results) => (st', Some results)
        | None => (st, Some d)
        end
      end
  end.

End QueryEngine.

(** [_find_data_start_column(df)] *)
Definition find_data_start_column (d : DataFrame) : nat :=
  match find (fun col_idx =>
                existsb (fun r => negb (isna (nth col_idx r NaN)))
                        (firstn 10 (rows d)))
             (seq 0 (ncols d)) with
  | Some col_idx => col_idx
  | None => 0
  end.

(** The mapping that [load_file] installs. *)
Definition shifted_mapping (start_col : nat) (f : field) : option nat :=
  Some match f with
       | Name => start_col
       | Purchase => start_col + 1
       | Profit => start_col + 4
       | Price => start_col + 5
       | Code => start_col + 7
       | Article => start_col + 6
       end.

(** [load_file(path)], with the frame that [read_excel_any(path)] gives: the
    fields it sets before it calls [show_all_items]. *)
Definition load_file (d : DataFrame) (st : App) : App :=
  set_table d (shifted_mapping (find_data_start_column d)) st.

(* ================================================================== *)
(** * Part V. StockTableParser and StockResolver *)
(* ================================================================== *)

Section Stocks.
Context `{PyBuiltins}.

(** [row.dropna().values] *)
Definition dropna (row : list cell) : list cell :=
  filter (fun c => negb (isna c)) row.

(** [isinstance(val, str) and (("арсен" in val.lower()) or ("ааа" in val.lower()))] *)
Definition has_marker (val : cell) : bool :=
  match val with
  | Text s => contains (u "арсен") (lower s) || contains (u "ааа") (lower s)
  | _ => false
  end.

(** The test of the scan for the row of store names. *)
Definition is_stores_row (row : list cell) : bool :=
  let row_vals := dropna row in
  (3 <? List.length row_vals) && existsb has_marker row_vals.

(** [for i in range(min(15, len(df)))]: the first row that passes the test,
    counted from [i]. *)
Fixpoint scan_rows (rs : list (list cell)) (i : nat) : option nat :=
  match rs with
  | [] => None
  | r :: rs' => if is_stores_row r then Some i else scan_rows rs' (S i)
  end.

Definition find_stores_row (d : DataFrame) : option nat :=
  scan_rows (firstn 15 (rows d)) 0.

(** [data_row.first_valid_index()] on a row, whose labels are the column
    positions. *)
Fixpoint first_valid_from (row : list cell) (i : nat) : option nat :=
  match row with
  | [] => None
  | c :: row' => if isna c then first_valid_from row' (S i) else Some i
  end.

Definition first_valid_index (row : list cell) : option nat :=
  first_valid_from row 0.

(** The column where the data of the goods begin: [first_valid_index()], and
    the fallback of the [except] branch, which searches again and keeps 0 when
    nothing is found. *)
Definition art_column (data_row : list cell) : nat :=
  match first_valid_index data_row with
  | Some i => i
  | None =>
    match find (fun col_idx => negb (isna (nth col_idx data_row NaN)))
               (seq 0 (List.length data_row)) with
    | Some col_idx => col_idx
    | None => 0
    end
  end.

(** The loop that builds [stores], over the columns [cols] of the header row. *)
Fixpoint build_stores (header : list cell) (stores_start_col : nat)
    (cols : list nat) : list pystr :=
  match cols with
  | [] => []
  | col :: cols' =>
    let store_name := strip (cell_str (nth col header NaN)) in
    let named :=
      if (col =? stores_start_col)
         && (pystr_eqb store_name [] || pystr_eqb (lower store_name) (u "nan"))
      then Some (u "ААА")
      else if pystr_eqb store_name [] then None
      else Some store_name in
    match named with
    | None => build_stores header stores_start_col cols'
    | Some store_name =>
      if pystr_eqb (lower store_name) (u "итог")
      then build_stores header stores_start_col cols'
      else store_name :: build_stores header stores_start_col cols'
    end
  end.

(** What [load_stocks_file] has found when it assigns [self.stores]. *)
Record Layout : Type := {
  stores_row : nat;
  data_start_row : nat;
  art_col_idx : nat;
  name_col_idx : nat;
  stores_start_col : nat;
  store_cols : list nat;
  stores : list pystr
}.

Inductive load_result : Type :=
| NoStoresRow            (* the warning box, then [return] *)
| LoadRaised             (* [IndexError] at [df.iloc[data_start_row]] *)
| Loaded (l : Layout).

(** [load_stocks_file(path)], with the frame that [read_excel_any(path)] gives,
    up to the assignment of [self.stores]. *)
Definition load_stocks_file (d : DataFrame) : load_result :=
  match find_stores_row d with
  | None => NoStoresRow
  | Some sr =>
    let dsr := sr + 2 in
    match iloc_row d dsr with
    | None => LoadRaised
    | Some data_row =>
      let art := art_column data_row in
      let name := art + 1 in
      let start := name + 1 in
      let cols := seq start (ncols d - start) in
      Loaded {| stores_row := sr;
                data_start_row := dsr;
                art_col_idx := art;
                name_col_idx := name;
                stores_start_col := start;
                store_cols := cols;
                stores := build_stores (nth sr (rows d) []) start cols |}
    end
  end.

(** A row of [self.stocks_df]: the cells of the columns "Арт" and
    "Найменування", and the quantity for each store. *)
Record StockRecord : Type := {
  s_art : cell;
  s_name : cell;
  s_qty : list Z
}.

(** [update_stocks_display()] for a loaded stock table and a selected item
    with the texts [name] and [article]: the record handed to
    [display_stock_info], or [None] when the label "not found" is shown. *)
Definition update_stocks_display (stocks_df : list StockRecord)
    (name article : pystr) : option StockRecord :=
  let stock_items :=
    filter (fun r => pystr_eqb (strip (cell_str (s_name r))) (strip name))
           stocks_df in
  let stock_items :=
    match stock_items with
    | [] =>
      if negb (pystr_eqb article []) && negb (pystr_eqb (strip article) [])
      then
        let same_articles :=
          filter (fun r => pystr_eqb (strip (cell_str (s_art r))) (strip article))
                 stocks_df in
        if List.length same_articles =? 1 then same_articles else stock_items
      else stock_items
    | _ :: _ => stock_items
    end in
  match stock_items with
  | stock_item :: _ => Some stock_item
  | [] => None
  end.

End Stocks.

(* ================================================================== *)
(** * A reference instance of the interface

    Used by the examples below.  It follows Python on the inputs the examples
    use: [lower] on the Basic Latin, Latin-1 and Cyrillic letters, the text of
    a float that is an integer below 10^16, and plain decimal literals of at
    most 15 digits. *)
(* ================================================================== *)

Definition lower_char (c : N) : N :=
  (if (65 <=? c) && (c <=? 90) then c + 32
   else if (192 <=? c) && (c <=? 222) && negb (c =? 215) then c + 32
   else if (1024 <=? c) && (c <=? 1039) then c + 80
   else if (1040 <=? c) && (c <=? 1071) then c + 32
   else if (1120 <=? c) && (c <=? 1153) && N.even c then c + 1
   else if (1162 <=? c) && (c <=? 1215) && N.even c then c + 1
   else c)%N.

Definition lower_ref (s : pystr) : pystr := map lower_char s.

Definition float_repr_ref (x : float) : pystr :=
  match Prim2SF x with
  | S754_zero s => (if s then u "-" else []) ++ u "0.0"
  | _ =>
    match round_int x with
    | Some n =>
      if (float_of_Z n =? x)%float && (Z.abs n <? 10 ^ 16)%Z
      then str_of_Z n ++ u ".0"
      else u "?"
    | None => u "?"
    end
  end.

(** Digits, then optionally a point and digits; one optional sign before. *)
Fixpoint digits_value (s : pystr) (acc : Z) : option (Z * pystr) :=
  match s with
  | c :: s' =>
    if is_digit c then digits_value s' (10 * acc + Z.of_N (c - 48))%Z
    else Some (acc, s)
  | [] => Some (acc, [])
  end.

Definition all_digits (s : pystr) : bool := forallb is_digit s.

Definition unsigned_parse_ref (s : pystr) : option float :=
  match digits_value s 0 with
  | Some (n, []) =>
    if (0 <? List.length s) && (List.length s <=? 15)
    then Some (float_of_Z n) else None
  | Some (n, c :: frac) =>
    if (c =? 46)%N && all_digits frac
       && (0 <? List.length s - 1) && (List.length s <=? 16)
    then
      match digits_value frac n with
      | Some (nf, _) =>
        Some (float_of_Z nf / float_of_Z (10 ^ Z.of_nat (List.length frac)))%float
      | None => None
      end
    else None
  | None => None
  end.

Definition float_parse_ref (s : pystr) : option float :=
  match strip s with
  | c :: s' =>
    if (c =? 45)%N then option_map PrimFloat.opp (unsigned_parse_ref s')
    else if (c =? 43)%N then unsigned_parse_ref s'
    else unsigned_parse_ref (c :: s')
  | [] => None
  end.

Definition reference_builtins : PyBuiltins :=
  {| float_repr := float_repr_ref;
     float_parse := float_parse_ref;
     lower := lower_ref |}.

(* ================================================================== *)
(** * Part VI. The vocabulary of the properties

    The predicates in which the properties are stated, the events of a
    session, the readings of the specification that are compared with the
    code, and the sheets of the examples. *)
(* ================================================================== *)

(** ** The order of dates *)

Definition date_lt (a b : datetime) : Prop := datetime_ltb a b = true.
Definition date_le (a b : datetime) : Prop := datetime_ltb b a = false.

(** No element is followed by one with a later date. *)
Definition not_before {A : Type} (key : A -> datetime) (a b : A) : Prop :=
  date_le (key b) (key a).

(** The date by which [get_latest_file] ranks a path. *)
Definition file_date (now_year : nat) (f : pystr) : datetime :=
  extract_date_from_filename now_year (basename f).

(** ** The date in a file name *)


(** The continuation of [re.search]: the match is complete. *)
Definition finish : cont := fun _ cs => Some cs.











(** ** Sessions *)

(** What happens to the application, as far as the history is concerned.
    Every call of [search_items] in the source passes [record_history=True]. *)
Inductive event : Type :=
| Search (text : pystr)
| Log (msg : pystr)
| LoadFile (d : DataFrame)
| SetMapping (m : field -> option nat)
| SaveHistory
| ClearHistory.

(** The state after [__init__] at time [now0], with the history file [f]. *)
Definition started (now0 : Z) (f : history_file) : App :=
  load_history now0 (init_app f).

(** ** The stock sheet *)

(** The substrings that mark the row of store names. *)
Definition store_markers : list pystr := [u "арсен"; u "ааа"].

(** The number of cells of a row that are not empty. *)
Definition filled (row : list cell) : nat :=
  List.length (filter (fun c => negb (isna c)) row).

(** Column [a] holds the first cell of the row that is not empty. *)
Definition first_filled (row : list cell) (a : nat) : Prop :=
  (exists c, nth_error row a = Some c /\ isna c = false)
  /\ forall j c, j < a -> nth_error row j = Some c -> isna c = true.

(** ** The search and the displayed row *)

(** The indices of the mapped columns among [cols]. *)
Fixpoint mapped (m : field -> option nat) (cols : list field) : list nat :=
  match cols with
  | [] => []
  | col :: cols' =>
    match m col with
    | Some idx => idx :: mapped m cols'
    | None => mapped m cols'
    end
  end.

(** The Purchase among the [values] of a displayed row. *)
Definition purchase_field (values : list pystr) : pystr := nth 1 values [].

Section Vocabulary.
Context `{PyBuiltins}.

(** The name of a record, trimmed, is the selected name, trimmed. *)
Definition name_matches (name : pystr) (r : StockRecord) : Prop :=
  strip (cell_str (s_name r)) = strip name.

(** The article of a record, trimmed, is the selected article, trimmed. *)
Definition article_matches (article : pystr) (r : StockRecord) : Prop :=
  strip (cell_str (s_art r)) = strip article.

(** The effect of one event at the time [now]. *)
Definition step (now : Z) (ev : event) (st : App) : App :=
  match ev with
  | Search text => fst (search_items now true text st)
  | Log msg => log_action now msg st
  | LoadFile d => load_file d st
  | SetMapping m =>
    {| df := df st; column_mapping := m; last_query := last_query st;
       history := history st; file := file st |}
  | SaveHistory => save_history now st
  | ClearHistory => clear_history now st
  end.

(** The events of a session, each with its time, from a state on. *)
Fixpoint run (evs : list (Z * event)) (st : App) : App :=
  match evs with
  | [] => st
  | (now, ev) :: evs' => run evs' (step now ev st)
  end.

(** A text cell that holds a marker, whatever the case of its letters. *)
Definition marker_cell (c : cell) : Prop :=
  exists s mk pre post,
    c = Text s /\ In mk store_markers /\ lower s = pre ++ mk ++ post.

(** A row qualifies as the row of store names. *)
Definition qualifies (row : list cell) : Prop :=
  3 < filled row /\ exists c, In c row /\ marker_cell c.

(** The specification's rule for the layout, as it is worded: whenever a row
    qualifies, the layout is found, with the Article column at the first
    non-empty cell of the data-start row. *)
Definition stock_layout_claim (d : DataFrame) : Prop :=
  forall i hdr,
    i < 15 ->
    nth_error (rows d) i = Some hdr ->
    qualifies hdr ->
    (forall j r, j < i -> nth_error (rows d) j = Some r -> ~ qualifies r) ->
    exists L data_row,
      load_stocks_file d = Loaded L
      /\ stores_row L = i
      /\ data_start_row L = i + 2
      /\ nth_error (rows d) (i + 2) = Some data_row
      /\ first_filled data_row (art_col_idx L)
      /\ name_col_idx L = art_col_idx L + 1
      /\ (forall col, In col (store_cols L) <-> name_col_idx L + 1 <= col < ncols d).



(** The same two tests as booleans. *)
Definition cell_containsb (query : pystr) (c : cell) : bool :=
  contains (lower query) (lower (cell_str c)).

Definition row_matchb (m : field -> option nat) (query : pystr)
    (row : list cell) : bool :=
  existsb (fun f => match m f with
                    | Some i => cell_containsb query (nth i row NaN)
                    | None => false
                    end) search_columns.


End Vocabulary.

(** ** The sheets and states of the examples *)

(** A stock record with text cells. *)
Definition stock (art name : string) (qty : list Z) : StockRecord :=
  {| s_art := Text (u art); s_name := Text (u name); s_qty := qty |}.

(** The state of the examples: a sheet of two goods, loaded at start. *)
Definition two_goods : DataFrame :=
  {| ncols := 8;
     rows := [[Text (u "Widget"); NaN; NaN; NaN; Float 30; Float 100.5;
               Text (u "A1"); Float 1234];
              [Text (u "Gadget"); NaN; NaN; NaN; Float 5; Float 20;
               Text (u "B7"); Float 5678]] |}.

(** The specification's example: the header row is row 3, with four
    non-empty cells; the data start at row 5, whose first non-empty cell is in
    column 1. *)
Definition stock_sheet : DataFrame :=
  {| ncols := 7;
     rows :=
       [[Text (u "Залишки товарів"); NaN; NaN; NaN; NaN; NaN; NaN];
        [NaN; NaN; NaN; NaN; NaN; NaN; NaN];
        [NaN; Text (u "Склад"); NaN; NaN; NaN; NaN; NaN];
        [NaN; NaN; NaN; Text (u "Арсенал"); Text (u "Центр"); Text (u "Ринок");
         Text (u "Итог")];
        [NaN; NaN; NaN; Text (u "шт"); Text (u "шт"); Text (u "шт"); Text (u "шт")];
        [NaN; Text (u "A1"); Text (u "Widget A"); Int 3; Int 0; Int 2; Int 5];
        [NaN; Text (u "B7"); Text (u "Gadget"); Int 0; Int 1; Int 0; Int 1]] |}.

(** A sheet with an empty row two below the row of store names. *)
Definition blank_start_sheet : DataFrame :=
  {| ncols := 5;
     rows :=
       [[Text (u "Арт"); Text (u "Назва"); Text (u "Арсенал"); Text (u "Центр");
         Text (u "Итог")];
        [NaN; NaN; Text (u "шт"); Text (u "шт"); Text (u "шт")];
        [NaN; NaN; NaN; NaN; NaN];
        [Text (u "A1"); Text (u "Widget A"); Int 3; Int 0; Int 3]] |}.

(** A sheet whose second store column has an empty header cell. *)
Definition gap_sheet : DataFrame :=
  {| ncols := 6;
     rows :=
       [[Text (u "Арт"); Text (u "Назва"); Text (u "Арсенал"); NaN;
         Text (u "   "); Text (u "Центр")];
        [NaN; NaN; Text (u "шт"); Text (u "шт"); Text (u "шт"); Text (u "шт")];
        [Text (u "A1"); Text (u "Widget A"); Int 3; Int 7; Int 0; Int 2]] |}.

(** The mapping after the dialog has set the column of the Code to 30. *)
Definition code_at_30 (f : field) : option nat :=
  match f with
  | Code => Some 30
  | _ => shifted_mapping 0 f
  end.

(** The sheet of two goods, loaded, and then that mapping. *)
Definition mapped_outside : App :=
  @step reference_builtins 60 (SetMapping code_at_30)
    (load_file two_goods (started 0 NoFile)).

(* ================================================================== *)
(** * Part VIa. Further methods

    The methods around the ones above: the import of a sheet and the
    automatic loading, the dialog of the mapping, the columns that
    [load_stocks_file] takes, the panel of one stock record, the import of
    the stock sheet as a whole, and the lines of the history panel with the
    two ways to copy from them. *)
(* ================================================================== *)

(** Every row of the frame has [ncols] cells, as in a frame that pandas has
    read. *)
Definition rectangular (d : DataFrame) : Prop :=
  Forall (fun r => List.length r = ncols d) (rows d).

(** The columns that [show_results] reads for a row. *)
Definition display_columns : list field := [Name; Profit; Price; Code; Article].

(** [list(dict.fromkeys(candidates))]: the first occurrence of every path, in
    order; [seen] holds the keys met so far. *)
Fixpoint fromkeys (seen : list pystr) (l : list pystr) : list pystr :=
  match l with
  | [] => []
  | x :: l' =>
    if existsb (pystr_eqb x) seen then fromkeys seen l'
    else x :: fromkeys (x :: seen) l'
  end.

(** [l[a:b]] for [a <= b]. *)
Definition slice {A : Type} (l : list A) (a b : nat) : list A :=
  firstn (b - a) (skipn a l).

(** The entries of the history are in the order of their times, the newest
    first. *)
Definition newest_first (h : list entry) : Prop :=
  Sorted (fun a b => (stamp b <= stamp a)%Z) h.

Section Loading.
Context `{PyBuiltins}.

(** [show_results(df)] gets through all rows: no row raises. *)
Definition show_completes (m : field -> option nat) (d : DataFrame) : bool :=
  forallb (fun r => is_some (show_row m r)) (rows d).

(** [f"Імпортовано {len(self.df)} товарів"] *)
Definition imported_message (d : DataFrame) : pystr :=
  u "Імпортовано " ++ str_of_Z (Z.of_nat (List.length (rows d))) ++ u " товарів".

(** [import_excel()] once a path is chosen; [read] is what
    [read_excel_any(path)] gives, [None] when it raises.  [load_file] sets the
    frame and the mapping and then calls [show_all_items]; when that raises,
    the [except] branch shows a message box and nothing is logged. *)
Definition import_excel (now : Z) (read : option DataFrame) (st : App) : App :=
  match read with
  | None => st
  | Some d =>
    let st1 := load_file d st in
    if show_completes (column_mapping st1) d
    then log_action now (imported_message d) st1
    else st1
  end.

(** [show_column_mapping_dialog()] when the dialog is accepted with the
    mapping [m]. *)
Definition show_column_mapping_dialog (now : Z) (m : field -> option nat)
    (st : App) : App :=
  let st1 := {| df := df st; column_mapping := m; last_query := last_query st;
                history := history st; file := file st |} in
  match df st with
  | Some d =>
    if show_completes m d
    then log_action now (u "Оновлено відображення стовпців") st1
    else st1
  | None => log_action now (u "Оновлено відображення стовпців") st1
  end.

(** [auto_load_accounting_file()]: [found] are the paths that the four calls
    of [find_accounting_files] give, in order; [read_excel_any] reads a path
    ([None] when it raises); [now_year] is the year of [datetime.now()]. *)
Definition auto_load_accounting_file (read_excel_any : pystr -> option DataFrame)
    (now : Z) (now_year : nat) (found : list pystr) (st : App) : App :=
  let candidates := fromkeys [] found in
  match candidates with
  | [] => log_action now (u "Файли Облік не знайдено") st
  | _ :: _ =>
    match get_latest_file now_year candidates with
    | None => st
    | Some latest =>
      match read_excel_any latest with
      | None =>
        log_action now (u "Помилка завантаження файлу: " ++ basename latest) st
      | Some d =>
        let st1 := load_file d st in
        if show_completes (column_mapping st1) d
        then log_action now (u "Автоматично завантажено: " ++ basename latest) st1
        else log_action now (u "Помилка завантаження файлу: " ++ basename latest) st1
      end
    end
  end.

(** One turn of the loop that builds [stores]: the name that the column gives
    to the list, [None] when the column is passed over. *)
Definition store_name_at (header : list cell) (stores_start_col col : nat)
    : option pystr :=
  let store_name := strip (cell_str (nth col header NaN)) in
  let named :=
    if (col =? stores_start_col)
       && (pystr_eqb store_name [] || pystr_eqb (lower store_name) (u "nan"))
    then Some (u "ААА")
    else if pystr_eqb store_name [] then None
    else Some store_name in
  match named with
  | None => None
  | Some store_name =>
    if pystr_eqb (lower store_name) (u "итог") then None else Some store_name
  end.

(** The columns of the header row that give a store. *)
Definition store_columns_kept (header : list cell) (stores_start_col : nat)
    (cols : list nat) : list nat :=
  filter (fun col => is_some (store_name_at header stores_start_col col)) cols.

(** [columns_to_take] *)
Definition columns_to_take (L : Layout) : list nat :=
  art_col_idx L :: name_col_idx L
    :: seq (stores_start_col L) (List.length (stores L)).

(** The labels that [load_stocks_file] gives to the columns it has taken. *)
Definition table_labels (L : Layout) : list pystr :=
  u "Арт" :: u "Найменування" :: stores L.

Section Panel.

(** [int(stock_item[store])]; [None] when it raises. *)
Variable qty_of : pystr -> option Z.

(** The loop of [display_stock_info] over [self.stores]. *)
Fixpoint available (stores : list pystr) : list (pystr * Z) :=
  match stores with
  | [] => []
  | store :: stores' =>
    let qty := match qty_of store with
               | Some q => q
               | None => 0%Z
               end in
    if (0 <? qty)%Z then (store, qty) :: available stores'
    else available stores'
  end.

(** [per_col] and [cols] for three columns. *)
Definition per_col (n : nat) : nat := (n + 3 - 1) / 3.

Definition panel_columns (av : list (pystr * Z)) : list (list (pystr * Z)) :=
  map (fun i => slice av (i * per_col (List.length av))
                         ((i + 1) * per_col (List.length av)))
      (seq 0 3).

(** [display_stock_info(stock_item)]: [None] when the label "not in stock" is
    shown; else the number of rows of the grid and its three columns. *)
Definition display_stock_info (stores : list pystr)
    : option (nat * list (list (pystr * Z))) :=
  match available stores with
  | [] => None
  | av =>
    let cols := panel_columns av in
    Some (fold_right max 0 (map (@List.length _) cols), cols)
  end.

End Panel.

End Loading.

(** ** The import of the stock sheet *)

(** The fields that the import of a stock sheet reads or writes:
    [self.stores], [self.stocks_df] (a table of type [T], [None] before the
    first import) and the fields of the history. *)
Record StocksState (T : Type) : Type := {
  window : App;
  stores_of : list pystr;
  stocks_df_of : option T
}.
Arguments window {T} _.
Arguments stores_of {T} _.
Arguments stocks_df_of {T} _.

Section StockImport.
Context `{PyBuiltins}.

(** The type of [stocks_df], and the last part of [load_stocks_file], from
    [columns_to_take] to the conversion of the quantities: the table, or
    [None] when that part raises. *)
Variable T : Type.
Variable make_table : DataFrame -> Layout -> option T.

(** [f"{prefix}{n} магазинів"] *)
Definition stores_message (prefix : pystr) (n : nat) : pystr :=
  prefix ++ str_of_Z (Z.of_nat n) ++ u " магазинів".

(** The method [load_stocks_file(path)] as a whole; [read] is what
    [read_excel_any(path)] gives.  The second component tells whether the
    method raises.  When no row of store names is found the method shows a
    warning and returns; [self.stores] is assigned before the table is
    built. *)
Definition load_stocks_file_run (now : Z) (read : option DataFrame)
    (s : StocksState T) : StocksState T * bool :=
  match read with
  | None => (s, true)
  | Some d =>
    match load_stocks_file d with
    | NoStoresRow => (s, false)
    | LoadRaised => (s, true)
    | Loaded L =>
      match make_table d L with
      | None =>
        ({| window := window s; stores_of := stores L;
            stocks_df_of := stocks_df_of s |}, true)
      | Some stocks_df =>
        ({| window := log_action now
                     (stores_message (u "Завантажено залишки для ")
                                     (List.length (stores L))) (window s);
            stores_of := stores L;
            stocks_df_of := Some stocks_df |}, false)
      end
    end
  end.

(** [import_stocks()] once a path is chosen.  The [except] branch shows a
    message box. *)
Definition import_stocks (now : Z) (read : option DataFrame)
    (s : StocksState T) : StocksState T :=
  let (s1, raised) := load_stocks_file_run now read s in
  if raised then s1
  else {| window := log_action now
                   (stores_message (u "Імпортовано залишки для ")
                                   (List.length (stores_of s1))) (window s1);
          stores_of := stores_of s1;
          stocks_df_of := stocks_df_of s1 |}.

(** [auto_load_stocks_file()]: [found] are the paths that the four calls of
    [find_stocks_files] give; [error_text] is the text of the exception, when
    one is raised. *)
Definition auto_load_stocks_file (read_excel_any : pystr -> option DataFrame)
    (error_text : pystr) (now : Z) (now_year : nat) (found : list pystr)
    (s : StocksState T) : StocksState T :=
  let candidates := fromkeys [] found in
  match candidates with
  | [] => s
  | _ :: _ =>
    match get_latest_file now_year candidates with
    | None => s
    | Some latest =>
      let (s1, raised) := load_stocks_file_run now (read_excel_any latest) s in
      let message :=
        if raised then u "Помилка завантаження файлу залишків: " ++ error_text
        else u "Автоматично завантажено залишки: " ++ basename latest in
      {| window := log_action now message (window s1);
         stores_of := stores_of s1;
         stocks_df_of := stocks_df_of s1 |}
    end
  end.

End StockImport.

(** ** The history panel *)

(** [text.split(c)] for a separator of one character: the pieces between the
    occurrences of [c]; always at least one piece. *)
Fixpoint split_char (c : N) (s : pystr) : list pystr :=
  match s with
  | [] => [[]]
  | x :: s' =>
    if (x =? c)%N then [] :: split_char c s'
    else match split_char c s' with
         | piece :: pieces => (x :: piece) :: pieces
         | [] => [[x]]
         end
  end.

(** [text.split(sep, 1)[1]] when [sep in text]: what follows the first
    occurrence of [sep]; [None] when there is none. *)
Fixpoint after_first (sep s : pystr) : option pystr :=
  if startswith sep s then Some (skipn (List.length sep) s)
  else match s with
       | [] => None
       | _ :: s' => after_first sep s'
       end.

(** The pieces written one after the other with " ➔ " between them, as
    [update_history_display] inserts them. *)
Fixpoint join_arrows (segs : list pystr) : pystr :=
  match segs with
  | [] => []
  | [seg] => seg
  | seg :: segs' => seg ++ arrow ++ join_arrows segs'
  end.

(** [strftime("%H:%M")] of a time in seconds on the local clock. *)
Definition two_digits (n : Z) : pystr :=
  [(48 + Z.to_N (n / 10))%N; (48 + Z.to_N (n mod 10))%N].

Definition time_part (t : Z) : pystr :=
  two_digits ((t / 3600) mod 24) ++ u ":" ++ two_digits ((t / 60) mod 60).

(** The line that [update_history_display] writes for an entry, without the
    line break at its end. *)
Definition history_line (e : entry) : pystr :=
  let info := message e in
  time_part (stamp e) ++ u " - "
    ++ (if contains (u "➔") info
        then join_arrows (map strip (split_char 10132 info))
        else info).

(** [copy_from_history_selection()] with the selected [text]: what is put on
    the clipboard; [None] when the method returns before that. *)
Definition copy_from_history_selection (text : pystr) : option pystr :=
  match text with
  | [] => None
  | _ :: _ =>
    let text1 := match after_first (u " - ") text with
                 | Some rest => rest
                 | None => text
                 end in
    Some (if contains (u "➔") text1
          then strip (hd [] (split_char 10132 text1))
          else text1)
  end.

(** [copy_from_history_click(pos)]: [block] is the text of the paragraph at
    the position and [under_cursor] the text that [WordUnderCursor] selects
    there. *)
Definition copy_from_history_click (block under_cursor : pystr)
    : option pystr :=
  let line := strip (replace [8233%N] (u " ") block) in
  match line with
  | [] => None
  | _ :: _ =>
    let segments := map strip (split_char 10132 line) in
    let segment0 := hd [] segments in
    Some (if 1 <? List.length segments then
            let word := strip under_cursor in
            if negb (pystr_eqb word []) && contains word segment0
            then strip (match after_first (u " - ") segment0 with
                        | Some rest => rest
                        | None => segment0
                        end)
            else strip (last segments [])
          else
            match after_first (u " - ") segment0 with
            | Some rest => strip rest
            | None => segment0
            end)
  end.

(** ** The vocabulary of the further properties *)

(** Column [c] holds a cell that is not empty in one of the first ten rows. *)
Definition has_data (d : DataFrame) (c : nat) : Prop :=
  exists k row,
    k < 10 /\ nth_error (rows d) k = Some row /\ isna (nth c row NaN) = false.

(** The entries of [h] are in the order of their times and none is later
    than the minute of [t]. *)
Definition ordered_until (t : Z) (h : list entry) : Prop :=
  newest_first h /\ Forall (fun e => (stamp e <= minute_of t)%Z) h.

(** The same for the entries of a history file that can be read. *)
Definition file_ordered_until (t : Z) (f : history_file) : Prop :=
  match f with
  | Saved h => ordered_until t h
  | NoFile | Corrupt => True
  end.

(** The stores of the list that have a quantity above zero for the record,
    with that quantity, in the order of the list. *)
Definition in_stock (qty_of : pystr -> option Z) (stores : list pystr)
    : list (pystr * Z) :=
  flat_map (fun store =>
              match qty_of store with
              | Some q => if (0 <? q)%Z then [(store, q)] else []
              | None => []
              end) stores.

(** The text holds neither the arrow of the history nor a paragraph
    separator. *)
Definition plain (s : pystr) : Prop := ~ In 10132%N s /\ ~ In 8233%N s.

(** The entry that a search logs for a result of one row. *)
Definition search_entry (t : Z) (query profit price last_part : pystr) : entry :=
  {| stamp := t;
     message := query ++ arrow ++ profit ++ arrow ++ price ++ arrow ++ last_part |}.

(* ================================================================== *)
(** * Part VII. Properties *)
(* ================================================================== *)

(** ** Strings *)

Lemma pystr_eqb_eq (a b : pystr) : pystr_eqb a b = true <-> a = b.
Proof.
  revert b; induction a as [|x a IH]; intros [|y b]; simpl;
    try (split; [discriminate | discriminate]); try tauto.
  rewrite andb_true_iff, N.eqb_eq, IH.
  split; [intros [-> ->]; reflexivity | intros E; inversion E; auto].
Qed.

Lemma pystr_eqb_refl (a : pystr) : pystr_eqb a a = true.
Proof. apply pystr_eqb_eq; reflexivity. Qed.

Lemma pystr_eqb_neq (a b : pystr) : pystr_eqb a b = false <-> a <> b.
Proof.
  rewrite <- pystr_eqb_eq. destruct (pystr_eqb a b); split; congruence.
Qed.

Lemma startswith_spec (p s : pystr) :
  startswith p s = true <-> exists t, s = p ++ t.
Proof.
  revert s; induction p as [|x p IH]; intros s; simpl.
  - split; [intros _; exists s; reflexivity | reflexivity].
  - destruct s as [|y s].
    + split; [discriminate | intros [t E]; discriminate].
    + rewrite andb_true_iff, N.eqb_eq, IH. split.
      * intros [-> [t ->]]. exists t; reflexivity.
      * intros [t E]. inversion E; subst. split; [reflexivity | exists t; reflexivity].
Qed.

(** [contains] is literal substring search. *)
Lemma contains_spec (sub s : pystr) :
  contains sub s = true <-> exists pre post, s = pre ++ sub ++ post.
Proof.
  induction s as [|c s IH].
  - simpl. rewrite orb_false_r, startswith_spec. split.
    + intros [t E]. exists [], t. exact E.
    + intros [pre [post E]]. destruct pre; simpl in E.
      * exists post; exact E.
      * discriminate.
  - cbn [contains]. rewrite orb_true_iff, startswith_spec, IH. split.
    + intros [[t E] | [pre [post E]]].
      * exists [], t. exact E.
      * exists (c :: pre), post. simpl. rewrite E. reflexivity.
    + intros [pre [post E]]. destruct pre as [|c' pre]; simpl in E.
      * left. exists post. exact E.
      * right. inversion E. exists pre, post. reflexivity.
Qed.

(** ** StockResolver *)

Section Resolver.
Context `{PyBuiltins}.

Lemma filter_nil_iff {A : Type} (f : A -> bool) (l : list A) :
  filter f l = [] <-> forall x, In x l -> f x = false.
Proof.
  induction l as [|a l IH]; simpl.
  - split; [intros _ x [] | reflexivity].
  - destruct (f a) eqn:E.
    + split; [discriminate | intros Hx; specialize (Hx a (or_introl eq_refl)); congruence].
    + rewrite IH. split.
      * intros Hl x [<- | Hx]; auto.
      * intros Hl x Hx. apply Hl. right; exact Hx.
Qed.

Lemma filter_first {A : Type} (f : A -> bool) (l1 l2 : list A) (x : A) :
  (forall y, In y l1 -> f y = false) -> f x = true ->
  filter f (l1 ++ x :: l2) = x :: filter f l2.
Proof.
  intros H1 Hx. rewrite filter_app. simpl. rewrite Hx.
  replace (filter f l1) with (@nil A); [reflexivity|].
  symmetry. apply filter_nil_iff. exact H1.
Qed.

Lemma filter_two {A : Type} (f : A -> bool) (l1 l2 l3 : list A) (x y : A) :
  f x = true -> f y = true ->
  2 <= List.length (filter f (l1 ++ x :: l2 ++ y :: l3)).
Proof.
  intros Hx Hy. rewrite filter_app, length_app. simpl. rewrite Hx. simpl.
  rewrite filter_app, length_app. simpl. rewrite Hy. simpl. lia.
Qed.

Lemma name_matches_true (name : pystr) (r : StockRecord) :
  pystr_eqb (strip (cell_str (s_name r))) (strip name) = true <-> name_matches name r.
Proof. apply pystr_eqb_eq. Qed.

Lemma article_matches_true (article : pystr) (r : StockRecord) :
  pystr_eqb (strip (cell_str (s_art r))) (strip article) = true
  <-> article_matches article r.
Proof. apply pystr_eqb_eq. Qed.

Lemma not_true_false (b : bool) (P : Prop) : (b = true <-> P) -> ~ P -> b = false.
Proof. destruct b; intuition. Qed.

(** When no record matches by name, the resolver is the article fallback. *)
Lemma resolver_fallback (stocks_df : list StockRecord) (name article : pystr) :
  (forall r, In r stocks_df -> ~ name_matches name r) ->
  update_stocks_display stocks_df name article =
    if negb (pystr_eqb article []) && negb (pystr_eqb (strip article) [])
    then
      match filter (fun r => pystr_eqb (strip (cell_str (s_art r))) (strip article))
                   stocks_df with
      | [r] => Some r
      | _ => None
      end
    else None.
Proof.
  intros Hno. unfold update_stocks_display.
  replace (filter (fun r => pystr_eqb (strip (cell_str (s_name r))) (strip name))
                  stocks_df) with (@nil StockRecord).
  2:{ symmetry. apply filter_nil_iff. intros r Hr.
      apply (not_true_false _ _ (name_matches_true name r)). auto. }
  destruct (negb (pystr_eqb article []) && negb (pystr_eqb (strip article) []));
    [|reflexivity].
  destruct (filter _ stocks_df) as [|a [|b l]]; reflexivity.
Qed.

(** C10: when records have a trimmed Name equal to the selected Name, the
    resolver returns the first of them in table order, however many follow:
    a duplicate name is not treated as ambiguous. *)
Theorem resolver_first_name_match (stocks_df l1 l2 : list StockRecord)
    (r : StockRecord) (name article : pystr) :
  stocks_df = l1 ++ r :: l2 ->
  name_matches name r ->
  (forall x, In x l1 -> ~ name_matches name x) ->
  update_stocks_display stocks_df name article = Some r.
Proof.
  intros -> Hr Hl1. unfold update_stocks_display.
  rewrite filter_first.
  - reflexivity.
  - intros y Hy. apply (not_true_false _ _ (name_matches_true name y)). auto.
  - apply name_matches_true. exact Hr.
Qed.

(** C8: the resolver first looks for the records whose trimmed Name is the
    selected Name; a record is found by Article only when no record matches
    by Name and the Article is not empty, and then only when exactly one
    record has that Article: with two or more, or with none, nothing is
    found. *)
Theorem resolver_name_then_unique_article (stocks_df : list StockRecord)
    (name article : pystr) :
  (* a name match wins, whatever the article *)
  ((exists r, In r stocks_df /\ name_matches name r) ->
   exists r, update_stocks_display stocks_df name article = Some r
             /\ In r stocks_df /\ name_matches name r)
  /\
  ((forall r, In r stocks_df -> ~ name_matches name r) ->
   (* no fallback on an empty article *)
   (article = [] -> update_stocks_display stocks_df name article = None)
   /\
   (* whatever the fallback finds has that article, and the article is not
      empty *)
   (forall r, update_stocks_display stocks_df name article = Some r ->
              article <> [] /\ In r stocks_df /\ article_matches article r)
   /\
   (* exactly one record with the article: it is the result *)
   (forall l1 r l2,
      strip article <> [] ->
      stocks_df = l1 ++ r :: l2 ->
      article_matches article r ->
      (forall x, In x (l1 ++ l2) -> ~ article_matches article x) ->
      update_stocks_display stocks_df name article = Some r)
   /\
   (* two or more records with the article: no match *)
   (forall l1 r1 l2 r2 l3,
      stocks_df = l1 ++ r1 :: l2 ++ r2 :: l3 ->
      article_matches article r1 -> article_matches article r2 ->
      update_stocks_display stocks_df name article = None)).
Proof.
  split.
  - intros [r [Hin Hr]].
    destruct (filter (fun r => pystr_eqb (strip (cell_str (s_name r))) (strip name))
                     stocks_df) as [|a l] eqn:E.
    + exfalso. rewrite filter_nil_iff in E. specialize (E r Hin).
      apply name_matches_true in Hr. congruence.
    + exists a. unfold update_stocks_display. rewrite E. split; [reflexivity|].
      assert (Ha : In a (filter (fun r => pystr_eqb (strip (cell_str (s_name r)))
                                                     (strip name)) stocks_df))
        by (rewrite E; left; reflexivity).
      apply filter_In in Ha. destruct Ha as [Ha1 Ha2].
      split; [exact Ha1 | apply name_matches_true; exact Ha2].
  - intros Hno. rewrite (resolver_fallback stocks_df name article Hno).
    set (fa := fun r => pystr_eqb (strip (cell_str (s_art r))) (strip article)).
    split; [|split; [|split]].
    + intros ->. reflexivity.
    + intros r Hres.
      destruct (pystr_eqb article []) eqn:Ea; simpl in Hres; [discriminate|].
      apply pystr_eqb_neq in Ea. split; [exact Ea|].
      destruct (negb (pystr_eqb (strip article) [])); [|discriminate].
      destruct (filter fa stocks_df) as [|a [|b l]] eqn:E; try discriminate.
      inversion Hres; subst a.
      assert (Ha : In r (filter fa stocks_df)) by (rewrite E; left; reflexivity).
      apply filter_In in Ha. destruct Ha as [Ha1 Ha2].
      split; [exact Ha1 | apply article_matches_true; exact Ha2].
    + intros l1 r l2 Hart -> Hr Hothers.
      assert (Ea : article <> []) by (intros ->; apply Hart; reflexivity).
      apply pystr_eqb_neq in Ea. apply pystr_eqb_neq in Hart.
      rewrite Ea, Hart. simpl.
      rewrite filter_first.
      * replace (filter fa l2) with (@nil StockRecord); [reflexivity|].
        symmetry. apply filter_nil_iff. intros x Hx.
        apply (not_true_false _ _ (article_matches_true article x)).
        apply Hothers. apply in_or_app. right; exact Hx.
      * intros x Hx. apply (not_true_false _ _ (article_matches_true article x)).
        apply Hothers. apply in_or_app. left; exact Hx.
      * apply article_matches_true. exact Hr.
    + intros l1 r1 l2 r2 l3 -> H1 H2.
      destruct (negb (pystr_eqb article []) && negb (pystr_eqb (strip article) []));
        [|reflexivity].
      pose proof (filter_two fa l1 l2 l3 r1 r2) as Hlen.
      destruct (filter fa (l1 ++ r1 :: l2 ++ r2 :: l3)) as [|a [|b l]];
        try reflexivity.
      simpl in Hlen. specialize (Hlen (proj2 (article_matches_true _ _) H1)
                                      (proj2 (article_matches_true _ _) H2)). lia.
Qed.

End Resolver.

(** Two records named "Widget A": the first one is shown. *)
Lemma resolver_first_name_match_witness :
  @update_stocks_display reference_builtins
    [stock "A1" "Gadget" [1%Z]; stock "A2" "Widget A " [2%Z];
     stock "A3" "Widget A" [3%Z]]
    (u "Widget A") (u "")
  = Some (stock "A2" "Widget A " [2%Z]).
Proof.
  apply (@resolver_first_name_match reference_builtins _
           [stock "A1" "Gadget" [1%Z]] [stock "A3" "Widget A" [3%Z]]).
  - reflexivity.
  - reflexivity.
  - intros x [<- | []]. vm_compute. discriminate.
Defined.

(** No record is named "NoMatch" and exactly one has the article "A123". *)
Lemma resolver_name_then_unique_article_witness :
  @update_stocks_display reference_builtins
    [stock "A100" "Gadget" [1%Z]; stock "A123" "Widget A" [2%Z]]
    (u "NoMatch") (u "A123")
  = Some (stock "A123" "Widget A" [2%Z]).
Proof.
  refine (proj1 (proj2 (proj2 (proj2
    (@resolver_name_then_unique_article reference_builtins
       [stock "A100" "Gadget" [1%Z]; stock "A123" "Widget A" [2%Z]]
       (u "NoMatch") (u "A123")) _)))
    [stock "A100" "Gadget" [1%Z]] _ [] _ eq_refl eq_refl _).
  - intros r [<- | [<- | []]]; vm_compute; discriminate.
  - vm_compute. discriminate.
  - intros x [<- | []]. vm_compute. discriminate.
Defined.

(** With two records of the article "A123", nothing is found. *)
Example resolver_ambiguous_article :
  @update_stocks_display reference_builtins
    [stock "A123" "Gadget" [1%Z]; stock "A123" "Widget A" [2%Z]]
    (u "NoMatch") (u "A123")
  = None.
Proof. reflexivity. Qed.

(** ** FileLocator: the order of dates and the stable sort *)

Lemma datetime_ltb_lt (a b : datetime) :
  datetime_ltb a b = true <->
  (year a < year b
   \/ year a = year b /\ (month a < month b
                          \/ month a = month b /\ day a < day b)).
Proof.
  unfold datetime_ltb.
  rewrite !orb_true_iff, !andb_true_iff, orb_true_iff, andb_true_iff.
  rewrite !Nat.ltb_lt, !Nat.eqb_eq. reflexivity.
Qed.

Lemma datetime_ltb_ge (a b : datetime) :
  datetime_ltb a b = false <->
  ~ (year a < year b
     \/ year a = year b /\ (month a < month b
                            \/ month a = month b /\ day a < day b)).
Proof.
  rewrite <- datetime_ltb_lt. destruct (datetime_ltb a b); split; congruence.
Qed.

Ltac date_order :=
  unfold date_lt, date_le in *;
  repeat match goal with
         | H : datetime_ltb _ _ = true |- _ => apply datetime_ltb_lt in H
         | H : datetime_ltb _ _ = false |- _ => apply datetime_ltb_ge in H
         | |- datetime_ltb _ _ = true => apply datetime_ltb_lt
         | |- datetime_ltb _ _ = false => apply datetime_ltb_ge
         end;
  lia.

Lemma date_lt_irrefl (a : datetime) : datetime_ltb a a = false.
Proof. date_order. Qed.

Lemma date_lt_le (a b : datetime) : date_lt a b -> date_le a b.
Proof. intros. date_order. Qed.

Lemma date_le_trans (a b c : datetime) : date_le a b -> date_le b c -> date_le a c.
Proof. intros. date_order. Qed.

Lemma date_lt_le_trans (a b c : datetime) : date_lt a b -> date_le b c -> date_lt a c.
Proof. intros. date_order. Qed.

Lemma date_le_antisym (a b : datetime) : date_le a b -> date_le b a -> a = b.
Proof.
  intros Hab Hba. destruct a as [ya ma da], b as [yb mb db].
  unfold date_le in *. apply datetime_ltb_ge in Hab, Hba. simpl in *.
  assert (ya = yb) by lia. assert (ma = mb) by lia. assert (da = db) by lia.
  subst. reflexivity.
Qed.

Section StableSort.
Variable A : Type.
Variable key : A -> datetime.

Lemma insert_desc_perm (x : A) (l : list A) :
  Permutation (x :: l) (insert_desc key x l).
Proof.
  induction l as [|y l IH]; simpl.
  - apply Permutation_refl.
  - destruct (datetime_ltb (key x) (key y)).
    + eapply Permutation_trans; [apply perm_swap|]. apply perm_skip. exact IH.
    + apply Permutation_refl.
Qed.

(** The result holds the elements of the input. *)
Lemma sorted_desc_perm (l : list A) : Permutation l (sorted_desc key l).
Proof.
  induction l as [|x l IH]; simpl.
  - apply perm_nil.
  - eapply Permutation_trans; [apply perm_skip; exact IH|].
    apply insert_desc_perm.
Qed.

Lemma insert_desc_sorted (x : A) (l : list A) :
  Sorted (not_before key) l -> Sorted (not_before key) (insert_desc key x l).
Proof.
  induction l as [|y l IH]; simpl; intros Hs.
  - constructor; constructor.
  - destruct (datetime_ltb (key x) (key y)) eqn:E.
    + inversion Hs as [|? ? Hl Hhd]; subst.
      constructor; [apply IH; exact Hl|].
      destruct l as [|z l]; simpl.
      * constructor. unfold not_before. date_order.
      * destruct (datetime_ltb (key x) (key z)) eqn:E2.
        -- inversion Hhd; subst. constructor. assumption.
        -- constructor. unfold not_before. date_order.
    + constructor; [exact Hs|]. constructor. exact E.
Qed.

Lemma sorted_desc_sorted (l : list A) : Sorted (not_before key) (sorted_desc key l).
Proof.
  induction l as [|x l IH]; simpl.
  - constructor.
  - apply insert_desc_sorted. exact IH.
Qed.

(** The sort is stable: the elements of one date keep their order. *)
Lemma insert_desc_stable (P : A -> bool) (x : A) (l : list A) :
  (forall a b, P a = true -> P b = true -> key a = key b) ->
  filter P (insert_desc key x l) = filter P (x :: l).
Proof.
  intros HP. induction l as [|y l IH]; [reflexivity|].
  cbn [insert_desc]. destruct (datetime_ltb (key x) (key y)) eqn:E; [|reflexivity].
  cbn [filter] in *. rewrite IH.
  destruct (P x) eqn:Px, (P y) eqn:Py; try reflexivity.
  rewrite (HP x y Px Py), date_lt_irrefl in E. discriminate.
Qed.

Lemma sorted_desc_stable (P : A -> bool) (l : list A) :
  (forall a b, P a = true -> P b = true -> key a = key b) ->
  filter P (sorted_desc key l) = filter P l.
Proof.
  intros HP. induction l as [|x l IH]; [reflexivity|].
  cbn [sorted_desc]. rewrite (insert_desc_stable P x _ HP).
  cbn [filter]. rewrite IH. reflexivity.
Qed.

(** The head of the sorted list is the first element of the input that has
    the latest date. *)
Lemma sorted_desc_head (l : list A) :
  l <> [] ->
  exists l1 x l2 rest,
    l = l1 ++ x :: l2
    /\ sorted_desc key l = x :: rest
    /\ (forall y, In y l1 -> date_lt (key y) (key x))
    /\ (forall y, In y l2 -> date_le (key y) (key x)).
Proof.
  induction l as [|a l IH]; [congruence|]. intros _.
  destruct l as [|b l].
  - exists [], a, [], []. simpl. repeat split; intros y [].
  - destruct IH as (l1 & x & l2 & rest & El & Es & H1 & H2); [discriminate|].
    cbn [sorted_desc] in *. rewrite Es. cbn [insert_desc].
    destruct (datetime_ltb (key a) (key x)) eqn:E.
    + exists (a :: l1), x, l2, (insert_desc key a rest).
      rewrite El. repeat split; auto.
      intros y [<- | Hy]; [exact E | auto].
    + exists [], a, (b :: l), (x :: rest). repeat split.
      * intros y [].
      * rewrite El. intros y Hy. apply in_app_or in Hy.
        destruct Hy as [Hy | [<- | Hy]].
        -- apply date_lt_le. apply (date_lt_le_trans _ _ _ (H1 y Hy) E).
        -- exact E.
        -- apply (date_le_trans _ _ _ (H2 y Hy) E).
Qed.

End StableSort.

(** C5: [get_latest_file] gives no path for an empty list; for any other list
    it gives a path of the list whose file-name date is the latest, and among
    the paths of that date the one that comes first in the list. *)
Theorem get_latest_file_first_latest (now_year : nat) (files : list pystr) :
  (files = [] -> get_latest_file now_year files = None)
  /\
  (files <> [] ->
   exists l1 p l2,
     files = l1 ++ p :: l2
     /\ get_latest_file now_year files = Some p
     /\ (forall q, In q files -> date_le (file_date now_year q) (file_date now_year p))
     /\ (forall q, In q l1 -> date_lt (file_date now_year q) (file_date now_year p))).
Proof.
  split; [intros ->; reflexivity|]. intros Hne.
  unfold get_latest_file.
  set (fwd := map (fun f => (f, extract_date_from_filename now_year (basename f))) files).
  assert (Hfwd : fwd <> []) by (destruct files; [congruence | discriminate]).
  destruct (sorted_desc_head _ snd fwd Hfwd) as (m1 & x & m2 & rest & El & Es & H1 & H2).
  rewrite Es. unfold fwd in El.
  apply map_eq_app in El. destruct El as (l1 & l2' & Ef & E1 & E2).
  destruct l2' as [|p l2]; [discriminate|]. simpl in E2. inversion E2; subst.
  exists l1, p, l2. simpl. split; [reflexivity|]. split; [reflexivity|]. split.
  - intros q Hq. apply in_app_or in Hq. destruct Hq as [Hq | [<- | Hq]].
    + apply date_lt_le.
      apply (H1 (q, extract_date_from_filename now_year (basename q))).
      apply in_map_iff. exists q. split; [reflexivity | exact Hq].
    + unfold date_le. apply date_lt_irrefl.
    + apply (H2 (q, extract_date_from_filename now_year (basename q))).
      apply in_map_iff. exists q. split; [reflexivity | exact Hq].
  - intros q Hq.
    apply (H1 (q, extract_date_from_filename now_year (basename q))).
    apply in_map_iff. exists q. split; [reflexivity | exact Hq].
Qed.

(** The specification's example: the file of 2024-03-01 is chosen before the
    file of 2024-02-15. *)
Lemma get_latest_file_first_latest_witness :
  [u "Облік 01.03.24.xlsx"; u "Облік 15.02.24.xlsx"] <> []
  /\ exists l1 p l2,
       [u "Облік 01.03.24.xlsx"; u "Облік 15.02.24.xlsx"] = l1 ++ p :: l2
       /\ get_latest_file 2026 [u "Облік 01.03.24.xlsx"; u "Облік 15.02.24.xlsx"]
          = Some p
       /\ (forall q, In q [u "Облік 01.03.24.xlsx"; u "Облік 15.02.24.xlsx"] ->
                     date_le (file_date 2026 q) (file_date 2026 p))
       /\ (forall q, In q l1 -> date_lt (file_date 2026 q) (file_date 2026 p)).
Proof.
  split; [discriminate|].
  apply (proj2 (get_latest_file_first_latest 2026
                  [u "Облік 01.03.24.xlsx"; u "Облік 15.02.24.xlsx"])).
  discriminate.
Defined.

(** The same by evaluation. *)
Example get_latest_file_example :
  get_latest_file 2026 [u "Облік 01.03.24.xlsx"; u "Облік 15.02.24.xlsx"]
  = Some (u "Облік 01.03.24.xlsx").
Proof. reflexivity. Qed.

(** Equal dates: the earlier path of the input is returned. *)
Example get_latest_file_tie :
  get_latest_file 2026 [u "/a/Облік 15.02.24.xlsx"; u "/b/Облік 01.03.24.xlsx";
                        u "/c/Облік 1.3.24.xls"]
  = Some (u "/b/Облік 01.03.24.xlsx").
Proof. reflexivity. Qed.

(** ** FileLocator: the date regex *)


(** The equations of [rmatch]. *)
Lemma rmatch_seq (a b : regex) (s : pystr) (cs : captures) (k : cont) :
  rmatch (Seq a b) s cs k = rmatch a s cs (fun s' cs' => rmatch b s' cs' k).
Proof. reflexivity. Qed.

Lemma rmatch_chr_cons (p : N -> bool) (c : N) (s : pystr) (cs : captures)
    (k : cont) :
  rmatch (Chr p) (c :: s) cs k = if p c then k s cs else None.
Proof. reflexivity. Qed.



Lemma rmatch_grp_rep (i : nat) (a : regex) (lo hi : nat) (s : pystr)
    (cs : captures) (k : cont) :
  rmatch (Grp i (Rep a lo hi)) s cs k
  = rep (rmatch a) lo hi s cs
      (fun s' cs' => k s' ((i, firstn (List.length s - List.length s') s) :: cs')).
Proof. reflexivity. Qed.

Section Repetition.
Variable p : N -> bool.



Variable i : nat.




End Repetition.









Lemma date_regex_needs_digit (c : N) (s : pystr) :
  is_digit c = false -> rmatch date_regex (c :: s) [] finish = None.
Proof.
  intros Hc. unfold date_regex.
  rewrite rmatch_seq, rmatch_grp_rep. cbn [rep].
  rewrite rmatch_chr_cons, Hc. reflexivity.
Qed.

Lemma re_search_skip (pre s : pystr) :
  forallb (fun c => negb (is_digit c)) pre = true ->
  re_search date_regex (pre ++ s) = re_search date_regex s.
Proof.
  induction pre as [|c pre IH]; simpl app; [reflexivity|].
  cbn [forallb]. rewrite andb_true_iff, negb_true_iff. intros [Hc Hpre].
  cbn [re_search]. fold finish. rewrite (date_regex_needs_digit c (pre ++ s) Hc).
  apply IH. exact Hpre.
Qed.








(** Day and month with no separator after the month are not found at all:
    the second separator of the pattern is outside the optional year. *)
Example extract_date_no_second_separator :
  extract_date_from_filename 2026 (u "Облік 1.3 final") = datetime_min.
Proof. reflexivity. Qed.

(** Month 13: the sentinel, no error. *)
Example extract_date_month_13 :
  extract_date_from_filename 2026 (u "Облік 01.13.2024.xlsx") = datetime_min.
Proof. reflexivity. Qed.

(** No year digits after the second separator: the current year. *)
Example extract_date_year_missing :
  extract_date_from_filename 2026 (u "Облік 1.3.xlsx")
  = {| year := 2026; month := 3; day := 1 |}.
Proof. reflexivity. Qed.

(** ** HistoryLog *)

Section Session.
Context `{PyBuiltins}.

Lemma In_firstn {A : Type} (n : nat) (l : list A) (x : A) :
  In x (firstn n l) -> In x l.
Proof.
  revert l. induction n as [|n IH]; intros [|a l]; simpl; try tauto.
  intros [-> | Hx]; auto.
Qed.

Lemma log_action_history (now : Z) (msg : pystr) (st : App) :
  history (log_action now msg st)
  = firstn 100 ({| stamp := minute_of now; message := msg |} :: history st).
Proof. reflexivity. Qed.



(** What a search that gets through its [try] block leaves behind. *)
Lemma search_try_state (now : Z) (rec : bool) (q : pystr) (d : DataFrame)
    (st st1 : App) (results : DataFrame) :
  search_try now rec q d st = Some (st1, results) ->
  filter_rows (column_mapping st) d q = Some results
  /\ df st1 = df st /\ column_mapping st1 = column_mapping st
  /\ file st1 = file st /\ last_query st1 = Some q
  /\ ((rec && differs q (last_query st) = false /\ history st1 = history st)
      \/ (rec && differs q (last_query st) = true
          /\ exists msg,
               history st1
               = firstn 100 ({| stamp := minute_of now; message := msg |}
                               :: history st))).
Proof.
  unfold search_try.
  destruct (filter_rows (column_mapping st) d q) as [res|]; [|discriminate].
  destruct (rec && differs q (last_query st)).
  - destruct (history_message (column_mapping st) res q) as [msg|]; [|discriminate].
    intros E; inversion E; subst; clear E. cbn.
    repeat split. right. split; [reflexivity|]. exists msg. reflexivity.
  - intros E; inversion E; subst; clear E. cbn.
    repeat split. left. split; reflexivity.
Qed.

Lemma differs_same (q : pystr) : differs q (Some q) = false.
Proof. simpl. rewrite pystr_eqb_refl. reflexivity. Qed.

Lemma differs_false (q : pystr) (last : option pystr) :
  differs q last = false <-> last = Some q.
Proof.
  destruct last as [q'|]; simpl.
  - rewrite negb_false_iff, pystr_eqb_eq. split; congruence.
  - split; discriminate.
Qed.

(** The outcome of [search_items]: nothing changes, or the [try] block was
    completed for the trimmed text. *)
Lemma search_items_cases (now : Z) (rec : bool) (text : pystr) (st : App) :
  fst (search_items now rec text st) = st
  \/ exists d results,
       df st = Some d
       /\ mapping_is_empty (column_mapping st) = false
       /\ strip text <> []
       /\ search_try now rec (strip text) d st
          = Some (fst (search_items now rec text st), results).
Proof.
  unfold search_items. destruct (df st) as [d|]; [|left; reflexivity].
  destruct (mapping_is_empty (column_mapping st)); [left; reflexivity|].
  destruct (strip text) as [|c q] eqn:Eq; [left; reflexivity|].
  destruct (search_try now rec (c :: q) d st) as [[st1 results]|] eqn:Et;
    [|left; reflexivity].
  right. exists d, results. repeat split; auto. discriminate.
Qed.

(** A search for the query that [last_query] holds adds no entry. *)
Lemma search_same_query (now : Z) (text : pystr) (st : App) :
  last_query st = Some (strip text) ->
  history (fst (search_items now true text st)) = history st.
Proof.
  intros Hlast.
  destruct (search_items_cases now true text st)
    as [-> | (d & results & _ & _ & _ & Ht)]; [reflexivity|].
  apply search_try_state in Ht.
  destruct Ht as (_ & _ & _ & _ & _ & [[_ Hh] | [Hd _]]); [exact Hh|].
  rewrite Hlast, differs_same in Hd. discriminate.
Qed.




(** Only a search changes [last_query]. *)
Lemma step_last_query (now : Z) (ev : event) (st : App) :
  (forall text, ev <> Search text) ->
  last_query (step now ev st) = last_query st.
Proof.
  intros Hev. destruct ev; try reflexivity. exfalso. exact (Hev text eq_refl).
Qed.






End Session.


(** The messages of the history after the two searches. *)
Example history_record_twice :
  let st0 := load_file two_goods (started 0 NoFile) in
  let st1 := fst (@search_items reference_builtins 120 true (u "wid") st0) in
  let st2 := fst (@search_items reference_builtins 180 true (u "wid") st1) in
  map message (history st2)
  = [u "wid ➔ 30 ➔ 100 ➔ 1234"; u "Історію завантажено"].
Proof. vm_compute. reflexivity. Qed.

(** ** StockTableParser *)

Section StockLayout.
Context `{PyBuiltins}.

Lemma has_marker_spec (c : cell) : has_marker c = true <-> marker_cell c.
Proof.
  unfold marker_cell, store_markers. destruct c as [z|x|s]; simpl.
  - split; [discriminate | intros (s & mk & pre & post & E & _); discriminate].
  - split; [discriminate | intros (s & mk & pre & post & E & _); discriminate].
  - rewrite orb_true_iff, !contains_spec. split.
    + intros [(pre & post & E) | (pre & post & E)].
      * exists s, (u "арсен"), pre, post. simpl. auto.
      * exists s, (u "ааа"), pre, post. simpl. auto.
    + intros (s' & mk & pre & post & E & Hmk & El). inversion E; subst s'.
      destruct Hmk as [<- | [<- | []]]; [left | right]; exists pre, post; exact El.
Qed.

Lemma marker_cell_filled (c : cell) : marker_cell c -> isna c = false.
Proof. intros (s & mk & pre & post & -> & _). reflexivity. Qed.

Lemma is_stores_row_spec (row : list cell) :
  is_stores_row row = true <-> qualifies row.
Proof.
  unfold is_stores_row, qualifies, filled, dropna.
  rewrite andb_true_iff, Nat.ltb_lt, existsb_exists. split.
  - intros [Hn (c & Hc & Hm)]. split; [exact Hn|]. exists c.
    apply filter_In in Hc. split; [tauto | apply has_marker_spec; exact Hm].
  - intros [Hn (c & Hc & Hm)]. split; [exact Hn|]. exists c.
    split; [|apply has_marker_spec; exact Hm].
    apply filter_In. split; [exact Hc|]. rewrite (marker_cell_filled c Hm). reflexivity.
Qed.

Lemma scan_rows_first (rs : list (list cell)) (k i : nat) (hdr : list cell) :
  nth_error rs i = Some hdr ->
  is_stores_row hdr = true ->
  (forall j r, j < i -> nth_error rs j = Some r -> is_stores_row r = false) ->
  scan_rows rs k = Some (k + i).
Proof.
  revert k i. induction rs as [|r rs IH]; intros k i Hi Hh Hbefore.
  - destruct i; discriminate.
  - destruct i as [|i]; simpl in Hi |- *.
    + inversion Hi; subst r. rewrite Hh. f_equal. lia.
    + rewrite (Hbefore 0 r); [|lia|reflexivity].
      rewrite (IH (S k) i Hi Hh).
      * f_equal. lia.
      * intros j r' Hj Hr'. apply (Hbefore (S j) r'); [lia | exact Hr'].
Qed.

Lemma find_stores_row_first (d : DataFrame) (i : nat) (hdr : list cell) :
  i < 15 ->
  nth_error (rows d) i = Some hdr ->
  qualifies hdr ->
  (forall j r, j < i -> nth_error (rows d) j = Some r -> ~ qualifies r) ->
  find_stores_row d = Some i.
Proof.
  intros Hi Hrow Hq Hbefore. unfold find_stores_row.
  rewrite (scan_rows_first (firstn 15 (rows d)) 0 i hdr); [reflexivity | | | ].
  - rewrite nth_error_firstn. apply Nat.ltb_lt in Hi. rewrite Hi. exact Hrow.
  - apply is_stores_row_spec. exact Hq.
  - intros j r Hj Hr. rewrite nth_error_firstn in Hr.
    destruct (j <? 15); [|discriminate].
    specialize (Hbefore j r Hj Hr). rewrite <- is_stores_row_spec in Hbefore.
    destruct (is_stores_row r); congruence.
Qed.

Lemma first_valid_from_some (row : list cell) (k a : nat) :
  first_valid_from row k = Some a ->
  k <= a /\ first_filled row (a - k).
Proof.
  revert k. induction row as [|c row IH]; intros k; simpl; [discriminate|].
  destruct (isna c) eqn:Ec.
  - intros E. apply IH in E. destruct E as [Hk [(c' & Hc' & Hn) Hfirst]].
    split; [lia|]. replace (a - k) with (S (a - S k)) by lia. split.
    + exists c'. simpl. auto.
    + intros j c0 Hj Hc0. destruct j as [|j]; simpl in Hc0.
      * inversion Hc0; subst; exact Ec.
      * apply (Hfirst j c0); [lia | exact Hc0].
  - intros E; inversion E; subst. split; [lia|].
    replace (a - a) with 0 by lia. split.
    + exists c. simpl. auto.
    + intros j c0 Hj. lia.
Qed.

Lemma first_valid_from_none (row : list cell) (k : nat) :
  first_valid_from row k = None -> forall c, In c row -> isna c = true.
Proof.
  revert k. induction row as [|c row IH]; intros k; simpl.
  - intros _ c [].
  - destruct (isna c) eqn:Ec; [|discriminate].
    intros E c0 [<- | Hc0]; [exact Ec | exact (IH (S k) E c0 Hc0)].
Qed.

Lemma find_all_false {A : Type} (f : A -> bool) (l : list A) :
  (forall x, In x l -> f x = false) -> find f l = None.
Proof.
  induction l as [|a l IH]; simpl; [reflexivity|]. intros Hl.
  rewrite (Hl a (or_introl eq_refl)). apply IH. intros x Hx. apply Hl. right; exact Hx.
Qed.

(** The article column is the column of the first cell that is not empty, and
    column 0 for a row of empty cells. *)
Lemma art_column_spec (data_row : list cell) :
  first_filled data_row (art_column data_row)
  \/ ((forall c, In c data_row -> isna c = true) /\ art_column data_row = 0).
Proof.
  unfold art_column, first_valid_index.
  destruct (first_valid_from data_row 0) as [a|] eqn:E.
  - left. apply first_valid_from_some in E. destruct E as [_ E].
    rewrite Nat.sub_0_r in E. exact E.
  - right. pose proof (first_valid_from_none data_row 0 E) as Hall.
    split; [exact Hall|].
    rewrite find_all_false; [reflexivity|].
    intros col_idx Hc. apply in_seq in Hc.
    rewrite (Hall (nth col_idx data_row NaN)); [reflexivity|].
    apply nth_In. lia.
Qed.

(** C6, amended for the grids that have no row two below the header row and
    for a data-start row of empty cells.  The first row among the rows 0..14
    with more than 3 non-empty cells and a cell that holds a store marker is
    taken as the header row.  When the grid has a row two rows below it, that
    row is the data-start row, the Article column is the column of its first
    non-empty cell, or column 0 when all its cells are empty, the Name column
    is the next one, and the store columns run from the one after the Name
    column to the last column of the grid.  When the grid has no such row,
    the load raises. *)
Theorem stores_row_and_columns (d : DataFrame) (i : nat) (hdr : list cell) :
  i < 15 ->
  nth_error (rows d) i = Some hdr ->
  qualifies hdr ->
  (forall j r, j < i -> nth_error (rows d) j = Some r -> ~ qualifies r) ->
  find_stores_row d = Some i
  /\ (forall data_row,
        nth_error (rows d) (i + 2) = Some data_row ->
        exists L,
          load_stocks_file d = Loaded L
          /\ stores_row L = i
          /\ data_start_row L = i + 2
          /\ (first_filled data_row (art_col_idx L)
              \/ ((forall c, In c data_row -> isna c = true) /\ art_col_idx L = 0))
          /\ name_col_idx L = art_col_idx L + 1
          /\ stores_start_col L = name_col_idx L + 1
          /\ (forall col, In col (store_cols L) <->
                          name_col_idx L + 1 <= col < ncols d)
          /\ store_cols L = seq (name_col_idx L + 1) (ncols d - (name_col_idx L + 1)))
  /\ (nth_error (rows d) (i + 2) = None -> load_stocks_file d = LoadRaised).
Proof.
  intros Hi Hrow Hq Hbefore.
  pose proof (find_stores_row_first d i hdr Hi Hrow Hq Hbefore) as Hf.
  split; [exact Hf|]. unfold load_stocks_file, iloc_row. rewrite Hf. split.
  - intros data_row Hd. rewrite Hd. eexists. split; [reflexivity|]. cbn.
    split; [reflexivity|]. split; [reflexivity|].
    split; [apply art_column_spec|].
    split; [reflexivity|]. split; [reflexivity|]. split; [|reflexivity].
    intros col. rewrite in_seq. lia.
  - intros Hd. rewrite Hd. reflexivity.
Qed.

End StockLayout.

(** The specification's example, on [stock_sheet]: the header row is row 3,
    the data start at row 5, and the store columns begin two columns after the
    first non-empty cell of row 5. *)
Lemma stores_row_and_columns_witness :
  @find_stores_row reference_builtins stock_sheet = Some 3
  /\ exists L,
       @load_stocks_file reference_builtins stock_sheet = Loaded L
       /\ stores_row L = 3 /\ data_start_row L = 5
       /\ art_col_idx L = 1 /\ name_col_idx L = 2 /\ stores_start_col L = 3
       /\ store_cols L = [3; 4; 5; 6].
Proof.
  destruct (@stores_row_and_columns reference_builtins stock_sheet 3
              [NaN; NaN; NaN; Text (u "Арсенал"); Text (u "Центр");
               Text (u "Ринок"); Text (u "Итог")])
    as (Hrow & Hload & _).
  - lia.
  - reflexivity.
  - apply (@is_stores_row_spec reference_builtins). reflexivity.
  - intros j r Hj Hr Hq.
    apply (@is_stores_row_spec reference_builtins) in Hq.
    destruct j as [|[|[|j]]]; [| | |lia]; inversion Hr; subst r;
      vm_compute in Hq; discriminate.
  - split; [exact Hrow|].
    destruct (Hload [NaN; Text (u "A1"); Text (u "Widget A"); Int 3; Int 0; Int 2; Int 5]
                    eq_refl)
      as (L & HL & Hs & Hd & _ & Hn & Hst & _ & Hc).
    exists L. vm_compute in HL. inversion HL; subst L. cbn.
    repeat split; reflexivity.
Defined.

(** C6 as stated fails on it: the load succeeds with the Article column 0,
    where the data-start row has no non-empty cell at all. *)
Lemma stock_layout_blank_start_row :
  ~ @stock_layout_claim reference_builtins blank_start_sheet.
Proof.
  intros Hclaim.
  destruct (Hclaim 0 [Text (u "Арт"); Text (u "Назва"); Text (u "Арсенал");
                      Text (u "Центр"); Text (u "Итог")])
    as (L & data_row & HL & _ & _ & Hd & [(c & Hc & Hna) _] & _).
  - lia.
  - reflexivity.
  - apply (@is_stores_row_spec reference_builtins). reflexivity.
  - intros j r Hj. lia.
  - vm_compute in HL. inversion HL; subst L. cbn in Hc.
    inversion Hd; subst data_row. inversion Hc; subst c.
    vm_compute in Hna. discriminate.
Qed.

(** What the load gives on that sheet. *)
Example blank_start_row_is_loaded :
  exists L, @load_stocks_file reference_builtins blank_start_sheet = Loaded L
            /\ art_col_idx L = 0 /\ stores_start_col L = 2.
Proof. eexists. split; [reflexivity|]. split; reflexivity. Qed.

(** The row of store names is the last row: the load raises. *)
Example header_in_last_row_raises :
  @load_stocks_file reference_builtins
    {| ncols := 4;
       rows := [[Text (u "Арт"); Text (u "Назва"); Text (u "Арсенал");
                 Text (u "Центр")]] |}
  = LoadRaised.
Proof. reflexivity. Qed.

(** ** The list of stores *)

Section Stores.
Context `{PyBuiltins}.

Lemma isna_str (c : cell) : isna c = true -> strip (cell_str c) = u "nan".
Proof.
  destruct c as [z|x|s]; simpl; try discriminate.
  unfold str_of_float. intros ->. reflexivity.
Qed.

(** An empty header cell in a store column other than the first is not
    skipped: its name is the text "nan". *)
Lemma build_stores_empty_cell (header : list cell) (start col : nat)
    (cols : list nat) :
  col <> start ->
  isna (nth col header NaN) = true ->
  build_stores header start (col :: cols)
  = if pystr_eqb (lower (u "nan")) (u "итог")
    then build_stores header start cols
    else u "nan" :: build_stores header start cols.
Proof.
  intros Hcol Hna. cbn [build_stores]. rewrite (isna_str _ Hna).
  apply Nat.eqb_neq in Hcol. rewrite Hcol. reflexivity.
Qed.

End Stores.

(** C7 fails on the code: the column with the empty header cell is kept as a
    store named "nan", while the column whose header is made of spaces is
    skipped. *)
Theorem stores_keep_empty_header_cell :
  exists L,
    @load_stocks_file reference_builtins gap_sheet = Loaded L
    /\ store_cols L = [2; 3; 4; 5]
    /\ stores L = [u "Арсенал"; u "nan"; u "Центр"].
Proof. eexists. split; [reflexivity|]. split; reflexivity. Qed.

(** The parts of the rule that the code does follow. *)
Example stores_first_blank_total_skipped :
  @build_stores reference_builtins
    [Text (u "Арт"); Text (u "Назва"); NaN; Text (u " Центр "); Text (u "  ");
     Text (u "Итог")]
    2 [2; 3; 4; 5]
  = [u "ААА"; u "Центр"].
Proof. reflexivity. Qed.

(** ** QueryEngine: the search *)

Section Search.
Context `{PyBuiltins}.


Lemma build_conds_in_range (m : field -> option nat) (d : DataFrame)
    (query : pystr) (cols : list field) :
  (forall idx, In idx (mapped m cols) -> idx < ncols d) ->
  build_conds m d query cols
  = Some (map (fun idx => map (fun r => cell_containsb query (nth idx r NaN))
                              (rows d))
              (mapped m cols)).
Proof.
  induction cols as [|col cols IH]; intros Hr; cbn [build_conds mapped].
  - reflexivity.
  - destruct (m col) as [idx|] eqn:E.
    + unfold iloc_col.
      assert (Hlt : idx < ncols d) by (apply Hr; cbn [mapped]; rewrite E; left; reflexivity).
      apply Nat.ltb_lt in Hlt. rewrite Hlt.
      rewrite IH.
      * cbn [map]. rewrite map_map. reflexivity.
      * intros i Hi. apply Hr. cbn [mapped]. rewrite E. right; exact Hi.
    + apply IH. intros i Hi. apply Hr. cbn [mapped]. rewrite E. exact Hi.
Qed.

Lemma build_conds_out_of_range (m : field -> option nat) (d : DataFrame)
    (query : pystr) (cols : list field) (idx : nat) :
  In idx (mapped m cols) -> ncols d <= idx ->
  build_conds m d query cols = None.
Proof.
  induction cols as [|col cols IH]; cbn [build_conds mapped]; [intros []|].
  destruct (m col) as [i|] eqn:E; [|exact IH].
  intros [<- | Hin] Hge.
  - unfold iloc_col. replace (i <? ncols d) with false; [reflexivity|].
    symmetry. apply Nat.ltb_ge. exact Hge.
  - destruct (iloc_col d i); [|reflexivity]. rewrite (IH Hin Hge). reflexivity.
Qed.

Lemma map_nth_seq {A B : Type} (P : A -> B) (l : list A) (a0 : A) :
  map (fun k => P (nth k l a0)) (seq 0 (List.length l)) = map P l.
Proof.
  induction l as [|a l IH]; [reflexivity|].
  cbn [List.length seq map nth]. f_equal.
  rewrite <- seq_shift, map_map. exact IH.
Qed.

(** The mask of the rows is the row-wise test. *)
Lemma any_axis1_rows (g : nat -> list cell -> bool) (idxs : list nat)
    (rs : list (list cell)) :
  any_axis1 (map (fun idx => map (g idx) rs) idxs) (List.length rs)
  = map (fun r => existsb (fun idx => g idx r) idxs) rs.
Proof.
  unfold any_axis1.
  rewrite <- (map_nth_seq (fun r => existsb (fun idx => g idx r) idxs) rs []).
  apply map_ext_in. intros k Hk. apply in_seq in Hk.
  induction idxs as [|idx idxs IH]; [reflexivity|].
  cbn [map existsb]. rewrite IH. f_equal.
  rewrite (nth_indep _ false (g idx [])) by (rewrite length_map; lia).
  apply map_nth.
Qed.

Lemma select_mask_filter (P : list cell -> bool) (rs : list (list cell)) :
  select_mask rs (map P rs) = filter P rs.
Proof.
  induction rs as [|r rs IH]; [reflexivity|].
  cbn [map select_mask filter]. rewrite IH. reflexivity.
Qed.

Lemma existsb_mapped (m : field -> option nat) (g : nat -> bool)
    (cols : list field) :
  existsb g (mapped m cols)
  = existsb (fun f => match m f with Some i => g i | None => false end) cols.
Proof.
  induction cols as [|col cols IH]; [reflexivity|].
  cbn [mapped existsb]. destruct (m col); cbn [existsb]; rewrite IH; reflexivity.
Qed.

Lemma mapped_nonempty (m : field -> option nat) (cols : list field) :
  (exists f i, In f cols /\ m f = Some i) -> mapped m cols <> [].
Proof.
  induction cols as [|col cols IH]; intros (f & i & Hf & E); [destruct Hf|].
  cbn [mapped]. destruct (m col) as [j|] eqn:Ec; [discriminate|].
  apply IH. destruct Hf as [<- | Hf]; [congruence|]. exists f, i. auto.
Qed.

Lemma mapped_in_range (m : field -> option nat) (cols : list field) (n : nat) :
  (forall f i, In f cols -> m f = Some i -> i < n) ->
  forall idx, In idx (mapped m cols) -> idx < n.
Proof.
  induction cols as [|col cols IH]; cbn [mapped]; [intros _ idx []|].
  intros Hc idx. destruct (m col) as [i|] eqn:E.
  - intros [<- | Hin]; [apply (Hc col i); [left; reflexivity | exact E]|].
    apply IH; [|exact Hin]. intros f i' Hf. apply Hc. right; exact Hf.
  - apply IH. intros f i' Hf. apply Hc. right; exact Hf.
Qed.

(** With the searched columns inside the frame, the filter keeps the rows
    that match, in their order; it keeps all rows when no column is searched. *)
Lemma filter_rows_mapped (m : field -> option nat) (d : DataFrame)
    (query : pystr) :
  (forall idx, In idx (mapped m search_columns) -> idx < ncols d) ->
  filter_rows m d query
  = Some match mapped m search_columns with
         | [] => d
         | _ :: _ => {| ncols := ncols d;
                        rows := filter (row_matchb m query) (rows d) |}
         end.
Proof.
  intros Hr. unfold filter_rows.
  rewrite build_conds_in_range by exact Hr.
  assert (Hrow : forall r, row_matchb m query r
                           = existsb (fun idx => cell_containsb query (nth idx r NaN))
                                     (mapped m search_columns)).
  { intros r. unfold row_matchb. symmetry.
    apply (existsb_mapped m (fun i => cell_containsb query (nth i r NaN))). }
  destruct (mapped m search_columns) as [|idx idxs]; [reflexivity|].
  rewrite (filter_ext _ _ Hrow).
  change (map (fun idx0 => map (fun r => cell_containsb query (nth idx0 r NaN)) (rows d))
              (idx :: idxs))
    with (map (fun idx0 => map ((fun i r => cell_containsb query (nth i r NaN)) idx0)
                               (rows d))
              (idx :: idxs)).
  set (conds := map _ (idx :: idxs)).
  assert (Ec : any_axis1 conds (List.length (rows d))
               = map (fun r => existsb (fun i => cell_containsb query (nth i r NaN))
                                       (idx :: idxs)) (rows d))
    by apply any_axis1_rows.
  unfold conds in *. cbn [map] in *. rewrite Ec, select_mask_filter. reflexivity.
Qed.

Lemma filter_rows_in_range (m : field -> option nat) (d : DataFrame)
    (query : pystr) :
  (forall f i, In f search_columns -> m f = Some i -> i < ncols d) ->
  (exists f i, In f search_columns /\ m f = Some i) ->
  filter_rows m d query
  = Some {| ncols := ncols d; rows := filter (row_matchb m query) (rows d) |}.
Proof.
  intros Hr Hex.
  rewrite filter_rows_mapped by (apply mapped_in_range; exact Hr).
  pose proof (mapped_nonempty m search_columns Hex) as Hne.
  destruct (mapped m search_columns); [congruence | reflexivity].
Qed.

(** A searched column outside the frame: [IndexError]. *)
Lemma filter_rows_out_of_range (m : field -> option nat) (d : DataFrame)
    (query : pystr) (f : field) (i : nat) :
  In f search_columns -> m f = Some i -> ncols d <= i ->
  filter_rows m d query = None.
Proof.
  intros Hf E Hge. unfold filter_rows.
  rewrite (build_conds_out_of_range m d query search_columns i); [reflexivity| |exact Hge].
  clear Hge. induction search_columns as [|col cols IH]; [destruct Hf|].
  cbn [mapped]. destruct Hf as [-> | Hf].
  - rewrite E. left; reflexivity.
  - destruct (m col); [right|]; apply IH; exact Hf.
Qed.


Lemma history_message_in_range (m : field -> option nat) (results : DataFrame)
    (query : pystr) :
  (forall f i, m f = Some i -> i < ncols results) ->
  exists msg, history_message m results query = Some msg.
Proof.
  intros Hr. unfold history_message.
  destruct (is_some (m Code) && (List.length (rows results) =? 1)) eqn:Eb;
    [|eexists; reflexivity].
  apply andb_true_iff in Eb. destruct Eb as [_ El]. apply Nat.eqb_eq in El.
  unfold iloc0. destruct (rows results) as [|r rs]; [discriminate|].
  assert (Hlt : forall f i, m f = Some i -> (i <? ncols results) = true)
    by (intros f i E; apply Nat.ltb_lt; exact (Hr f i E)).
  destruct (m Name) as [i1|] eqn:E1; [rewrite (Hlt Name i1 E1)|];
  destruct (m Price) as [i2|] eqn:E2; try rewrite (Hlt Price i2 E2);
  destruct (m Profit) as [i3|] eqn:E3; try rewrite (Hlt Profit i3 E3);
  destruct (m Code) as [i4|] eqn:E4; try rewrite (Hlt Code i4 E4);
  match goal with
  | |- context [if ?b then _ else _] => destruct b
  end; eexists; reflexivity.
Qed.

Lemma all_mapped_not_empty (m : field -> option nat) :
  (forall f, exists i, m f = Some i) -> mapping_is_empty m = false.
Proof.
  intros Hm. unfold mapping_is_empty. cbn [forallb].
  destruct (Hm Name) as [i ->]. reflexivity.
Qed.


End Search.



Example outside_frame_gives_all_rows :
  snd (@search_items reference_builtins 120 true (u "wid") mapped_outside)
  = Some two_goods.
Proof. vm_compute. reflexivity. Qed.

(** The same on a sheet narrower than the offsets of [load_file]. *)
Example search_narrow_sheet :
  let narrow := {| ncols := 2;
                   rows := [[Text (u "Widget"); Float 10];
                            [Text (u "Gadget"); Float 20]] |} in
  snd (@search_items reference_builtins 120 true (u "wid")
         (load_file narrow (started 0 NoFile)))
  = Some narrow.
Proof. vm_compute. reflexivity. Qed.

(** ** QueryEngine: the displayed row *)

Section Display.
Context `{PyBuiltins}.

Lemma show_rows_nth (m : field -> option nat) (rs : list (list cell)) (k : nat)
    (values : list pystr) :
  nth_error (show_rows m rs) k = Some values ->
  exists row, nth_error rs k = Some row /\ show_row m row = Some values.
Proof.
  revert k. induction rs as [|r rs IH]; intros k; cbn [show_rows].
  - destruct k; discriminate.
  - destruct (show_row m r) as [v|] eqn:E; [|destruct k; discriminate].
    destruct k as [|k]; simpl.
    + intros Ev; inversion Ev; subst. exists r. auto.
    + apply IH.
Qed.

Ltac case_matches E :=
  repeat match type of E with
         | context [match ?x with _ => _ end] =>
           destruct x eqn:?; try discriminate E
         end.

(** The second value of a displayed row is made from [purchase_of] alone. *)
Lemma show_row_purchase (m : field -> option nat) (row : list cell)
    (values : list pystr) :
  show_row m row = Some values ->
  purchase_field values
  = match purchase_of m row with
    | Some p => format_number (Float p)
    | None => []
    end.
Proof.
  unfold show_row. intros E.
  destruct (purchase_of m row) as [p|]; case_matches E;
    inversion E; reflexivity.
Qed.

(** The mapping of the Purchase column is not read. *)
Lemma show_row_ignores_purchase_slot (m m' : field -> option nat)
    (row : list cell) :
  (forall f, f <> Purchase -> m' f = m f) ->
  show_row m' row = show_row m row.
Proof.
  intros Hm. unfold show_row, purchase_of.
  rewrite (Hm Code), (Hm Name), (Hm Profit), (Hm Price), (Hm Article)
    by discriminate.
  reflexivity.
Qed.

(** C1: in every displayed row the Purchase value is the formatted
    difference of the floats of the row's Price and Profit cells, and blank
    when one of the two conversions fails; the column that the mapping gives
    for Purchase is not read, so that the value is the same for any mapping of
    Purchase and for any row with these Price and Profit cells. *)
Theorem purchase_is_price_minus_profit (m : field -> option nat)
    (d : DataFrame) (k ip ir : nat) (values : list pystr) :
  m Price = Some ip ->
  m Profit = Some ir ->
  nth_error (show_results m d) k = Some values ->
  exists row cp cr,
    nth_error (rows d) k = Some row
    /\ nth_error row ip = Some cp
    /\ nth_error row ir = Some cr
    /\ purchase_field values
       = match float_of_cell cp, float_of_cell cr with
         | Some price, Some profit => format_number (Float (price - profit))
         | _, _ => []
         end
    /\ (forall m', (forall f, f <> Purchase -> m' f = m f) ->
                   show_row m' row = Some values)
    /\ (forall row' values',
          nth_error row' ip = Some cp ->
          nth_error row' ir = Some cr ->
          show_row m row' = Some values' ->
          purchase_field values' = purchase_field values).
Proof.
  intros Ep Er Hk. unfold show_results in Hk.
  apply show_rows_nth in Hk. destruct Hk as (row & Hrow & Hs).
  assert (Hcells : exists cp cr, nth_error row ip = Some cp
                                 /\ nth_error row ir = Some cr).
  { pose proof Hs as E. unfold show_row in E. rewrite Ep, Er in E.
    unfold row_iloc in E.
    destruct (nth_error row ip) as [cp|]; [|case_matches E].
    destruct (nth_error row ir) as [cr|]; [|case_matches E].
    exists cp, cr. auto. }
  destruct Hcells as (cp & cr & Hcp & Hcr).
  assert (Hpur : forall r, nth_error r ip = Some cp -> nth_error r ir = Some cr ->
                           purchase_of m r
                           = match float_of_cell cp, float_of_cell cr with
                             | Some price, Some profit => Some (price - profit)%float
                             | _, _ => None
                             end).
  { intros r H1 H2. unfold purchase_of, row_iloc. rewrite Ep, Er, H1, H2.
    destruct (float_of_cell cp), (float_of_cell cr); reflexivity. }
  exists row, cp, cr. split; [exact Hrow|]. split; [exact Hcp|]. split; [exact Hcr|].
  split; [|split].
  - rewrite (show_row_purchase m row values Hs), (Hpur row Hcp Hcr).
    destruct (float_of_cell cp), (float_of_cell cr); reflexivity.
  - intros m' Hm'. rewrite (show_row_ignores_purchase_slot m m' row Hm'). exact Hs.
  - intros row' values' H1 H2 Hs'.
    rewrite (show_row_purchase m row' values' Hs'), (show_row_purchase m row values Hs).
    rewrite (Hpur row' H1 H2), (Hpur row Hcp Hcr). reflexivity.
Qed.

End Display.

(** The price 100.5 and the profit 30 give the purchase "70"; the column 1,
    where the mapping has Purchase, holds 999 and is not shown. *)
Lemma purchase_is_price_minus_profit_witness :
  exists row cp cr,
    nth_error [[Text (u "Widget"); Float 999; NaN; NaN; Float 30; Float 100.5;
                Text (u "A1"); Float 1234]] 0 = Some row
    /\ nth_error row 5 = Some cp /\ nth_error row 4 = Some cr
    /\ u "70" = match @float_of_cell reference_builtins cp,
                      @float_of_cell reference_builtins cr with
                | Some price, Some profit =>
                  @format_number reference_builtins (Float (price - profit))
                | _, _ => []
                end.
Proof.
  destruct (@purchase_is_price_minus_profit reference_builtins init_mapping
              {| ncols := 8;
                 rows := [[Text (u "Widget"); Float 999; NaN; NaN; Float 30;
                           Float 100.5; Text (u "A1"); Float 1234]] |}
              0 5 4
              [u "Widget"; u "70"; u "30"; u "100"; u "1234"; u "A1"]
              eq_refl eq_refl eq_refl)
    as (row & cp & cr & Hrow & Hcp & Hcr & Hp & _).
  exists row, cp, cr. auto.
Defined.

(** A Profit cell that is no number: the purchase is blank. *)
Example purchase_blank :
  @show_row reference_builtins init_mapping
    [Text (u "Gadget"); Float 999; NaN; NaN; Text (u "n/a"); Float 20;
     Text (u "B7"); Float 5678]
  = Some [u "Gadget"; []; u "n/a"; u "20"; u "5678"; u "B7"].
Proof. vm_compute. reflexivity. Qed.

(** An empty Price cell: the purchase is blank. *)
Example purchase_blank_empty_cell :
  @show_row reference_builtins init_mapping
    [Text (u "Gadget"); Float 999; NaN; NaN; Float 5; NaN;
     Text (u "B7"); Float 5678]
  = Some [u "Gadget"; []; u "5"; []; u "5678"; u "B7"].
Proof. vm_compute. reflexivity. Qed.

(** ** QueryEngine: the ".0" of the code *)

Lemma endswith_app (p s : pystr) : endswith p (s ++ p) = true.
Proof.
  unfold endswith. rewrite rev_app_distr. apply startswith_spec.
  exists (rev s). reflexivity.
Qed.

(** Where ".0" occurs only at its end, the code loses these two characters
    and nothing else. *)
Lemma strip_code_trailing_only (s : pystr) :
  contains (u ".0") s = false -> strip_code (s ++ u ".0") = s.
Proof.
  intros Hs. unfold strip_code. rewrite endswith_app. unfold replace.
  induction s as [|c s IH]; [reflexivity|].
  cbn [contains] in Hs. apply orb_false_iff in Hs. destruct Hs as [Hhead Htail].
  cbn [app replace_from].
  replace (startswith (u ".0") (c :: s ++ u ".0")) with false.
  - rewrite (IH Htail). reflexivity.
  - symmetry. destruct s as [|c' s].
    + cbn. apply andb_false_r.
    + exact Hhead.
Qed.

(** A code that does not end with ".0" is shown as it is. *)
Lemma strip_code_verbatim (s : pystr) :
  endswith (u ".0") s = false -> strip_code s = s.
Proof. unfold strip_code. intros ->. reflexivity. Qed.

(** C3 fails on the code: a code that ends with ".0" loses every ".0" it
    holds, in the displayed row and in the entry of the history.  The code
    "10.05.0" is shown and logged as "105", not as "10.05". *)
Theorem code_loses_every_dot0 :
  @show_row reference_builtins init_mapping
    [Text (u "Gadget"); NaN; NaN; NaN; Float 5; Float 20; Text (u "B7");
     Text (u "10.05.0")]
  = Some [u "Gadget"; u "15"; u "5"; u "20"; u "105"; u "B7"]
  /\
  map message
    (history (fst (@search_items reference_builtins 120 true (u "B7")
       (load_file
          {| ncols := 8;
             rows := [[Text (u "Gadget"); NaN; NaN; NaN; Float 5; Float 20;
                       Text (u "B7"); Text (u "10.05.0")]] |}
          (init_app NoFile)))))
  = [u "B7 ➔ 5 ➔ 20 ➔ 105"].
Proof. split; vm_compute; reflexivity. Qed.

(** A float code: 1234.0 is shown as "1234". *)
Example code_float_suffix :
  @show_row reference_builtins init_mapping
    [Text (u "Widget"); NaN; NaN; NaN; Float 30; Float 100.5; Text (u "A1");
     Float 1234]
  = Some [u "Widget"; u "70"; u "30"; u "100"; u "1234"; u "A1"].
Proof. vm_compute. reflexivity. Qed.

(* ================================================================== *)
(** * Part VIII. Properties of the further methods *)
(* ================================================================== *)

(** ** The start column of the accounting sheet *)

Lemma find_seq_first (f : nat -> bool) (a n c : nat) :
  a <= c < a + n -> f c = true ->
  (forall c', a <= c' < c -> f c' = false) ->
  find f (seq a n) = Some c.
Proof.
  revert a. induction n as [|n IH]; intros a Hc Hf Hbefore; [lia|].
  cbn [seq find]. destruct (Nat.eq_dec a c) as [-> | Hne].
  - rewrite Hf. reflexivity.
  - rewrite (Hbefore a) by lia. apply IH; [lia | exact Hf |].
    intros c' Hc'. apply Hbefore. lia.
Qed.

Lemma find_seq_bound (f : nat -> bool) (a n c : nat) :
  find f (seq a n) = Some c -> a <= c < a + n /\ f c = true.
Proof.
  intros E. apply find_some in E. destruct E as [Hin Hf].
  apply in_seq in Hin. auto.
Qed.

Lemma has_data_spec (d : DataFrame) (c : nat) :
  existsb (fun r => negb (isna (nth c r NaN))) (firstn 10 (rows d)) = true
  <-> has_data d c.
Proof.
  unfold has_data. rewrite existsb_exists. split.
  - intros (row & Hin & Hna). apply In_nth_error in Hin. destruct Hin as [k Hk].
    exists k, row. rewrite nth_error_firstn in Hk.
    destruct (k <? 10) eqn:E; [|discriminate]. apply Nat.ltb_lt in E.
    apply negb_true_iff in Hna. auto.
  - intros (k & row & Hk & Hrow & Hna). exists row. split.
    + apply (nth_error_In _ k). rewrite nth_error_firstn.
      apply Nat.ltb_lt in Hk. rewrite Hk. exact Hrow.
    + rewrite Hna. reflexivity.
Qed.

(** X1: [_find_data_start_column] gives the leftmost column that holds a
    non-empty cell in one of the first ten rows; it gives 0 when no column
    does, and with that also for a frame with no columns or no rows. *)
Theorem find_data_start_column_leftmost (d : DataFrame) :
  (forall c,
     c < ncols d -> has_data d c ->
     (forall c', c' < c -> ~ has_data d c') ->
     find_data_start_column d = c)
  /\ ((forall c, c < ncols d -> ~ has_data d c) -> find_data_start_column d = 0)
  /\ (find_data_start_column d <> 0 ->
      find_data_start_column d < ncols d
      /\ has_data d (find_data_start_column d)).
Proof.
  unfold find_data_start_column. split; [|split].
  - intros c Hc Hd Hbefore.
    rewrite (find_seq_first _ 0 (ncols d) c); [reflexivity | lia | |].
    + apply has_data_spec. exact Hd.
    + intros c' Hc'. specialize (Hbefore c' (proj2 Hc')).
      rewrite <- has_data_spec in Hbefore.
      destruct (existsb _ _); congruence.
  - intros Hnone. rewrite find_all_false; [reflexivity|].
    intros c Hc. apply in_seq in Hc. specialize (Hnone c (proj2 Hc)).
    rewrite <- has_data_spec in Hnone. destruct (existsb _ _); congruence.
  - destruct (find _ (seq 0 (ncols d))) as [c|] eqn:E; [|congruence].
    intros _. apply find_seq_bound in E. destruct E as [Hc Hf].
    split; [lia | apply has_data_spec; exact Hf].
Qed.

(** A sheet whose first two columns are empty starts at column 2. *)
Lemma find_data_start_column_leftmost_witness :
  find_data_start_column
    {| ncols := 4;
       rows := [[NaN; NaN; NaN; NaN];
                [NaN; NaN; Text (u "Widget"); Float 3];
                [NaN; NaN; Text (u "Gadget"); Float 5]] |} = 2.
Proof.
  apply (proj1 (find_data_start_column_leftmost _)).
  - simpl; lia.
  - exists 1, [NaN; NaN; Text (u "Widget"); Float 3].
    split; [lia | split; reflexivity].
  - intros c' Hc' (k & row & Hk & Hrow & Hna).
    destruct c' as [|[|c']]; [| |lia];
      (destruct k as [|[|[|k]]]; simpl in Hrow;
       [ | | | destruct k; discriminate Hrow];
       inversion Hrow; subst row; vm_compute in Hna; discriminate).
Defined.

(** ** The displayed rows and the import of a sheet *)

Section Importing.
Context `{PyBuiltins}.

Lemma nth_error_inside {A : Type} (l : list A) (i : nat) :
  i < List.length l -> exists x, nth_error l i = Some x.
Proof.
  intros Hi. destruct (nth_error l i) as [x|] eqn:E; [exists x; reflexivity|].
  apply nth_error_None in E. lia.
Qed.

Lemma nth_error_outside {A : Type} (l : list A) (i : nat) :
  List.length l <= i -> nth_error l i = None.
Proof. apply nth_error_None. Qed.

(** A row whose displayed columns are all inside it is displayed. *)
Lemma show_row_inside (m : field -> option nat) (row : list cell) :
  (forall f i, In f display_columns -> m f = Some i -> i < List.length row) ->
  exists values, show_row m row = Some values.
Proof.
  intros Hin. unfold show_row, row_iloc.
  assert (Hcell : forall f i, In f display_columns -> m f = Some i ->
                              exists c, nth_error row i = Some c).
  { intros f i Hf E. apply nth_error_inside. exact (Hin f i Hf E). }
  unfold display_columns in Hcell.
  assert (Hfield : forall f (g : cell -> pystr) (k : pystr -> option (list pystr)),
            In f [Name; Profit; Price; Code; Article] ->
            (forall v, exists values, k v = Some values) ->
            exists values,
              (v <- match m f with
                    | Some i => c <- nth_error row i ;; Some (g c)
                    | None => Some []
                    end ;; k v) = Some values).
  { intros f g k Hf Hk. destruct (m f) as [i|] eqn:E; [|apply Hk].
    destruct (Hcell f i Hf E) as [c ->]. apply Hk. }
  apply (Hfield Code); [simpl; tauto|]. intros code_value.
  apply (Hfield Name); [simpl; tauto|]. intros v_name.
  apply (Hfield Profit); [simpl; tauto|]. intros v_profit.
  apply (Hfield Price); [simpl; tauto|]. intros v_price.
  apply (Hfield Article); [simpl; tauto|]. intros v_art.
  eexists; reflexivity.
Qed.

(** A row with a displayed column outside it raises. *)
Lemma show_row_outside (m : field -> option nat) (row : list cell)
    (f : field) (i : nat) :
  In f display_columns -> m f = Some i -> List.length row <= i ->
  show_row m row = None.
Proof.
  intros Hf E Hout. apply nth_error_outside in Hout.
  unfold show_row, row_iloc, display_columns in *.
  destruct Hf as [<- | [<- | [<- | [<- | [<- | []]]]]]; rewrite E, Hout;
    repeat match goal with
           | |- context [match m ?g with _ => _ end] => destruct (m g)
           | |- context [match nth_error ?l ?k with _ => _ end] =>
             destruct (nth_error l k)
           end; reflexivity.
Qed.

Lemma show_rows_all (m : field -> option nat) (rs : list (list cell)) :
  (forall r, In r rs -> exists values, show_row m r = Some values) ->
  List.length (show_rows m rs) = List.length rs
  /\ forallb (fun r => is_some (show_row m r)) rs = true.
Proof.
  induction rs as [|r rs IH]; intros Hall; [split; reflexivity|].
  cbn [show_rows forallb]. destruct (Hall r (or_introl eq_refl)) as [v ->].
  destruct IH as [Hl Hf]; [intros r' Hr'; apply Hall; right; exact Hr'|].
  cbn. rewrite Hl, Hf. split; reflexivity.
Qed.

Lemma show_completes_rect (m : field -> option nat) (d : DataFrame) :
  rectangular d ->
  ((forall f i, In f display_columns -> m f = Some i -> i < ncols d) ->
   show_completes m d = true)
  /\ (forall f i, In f display_columns -> m f = Some i -> ncols d <= i ->
      rows d <> [] -> show_completes m d = false).
Proof.
  intros Hrect. unfold rectangular in Hrect. rewrite Forall_forall in Hrect.
  unfold show_completes. split.
  - intros Hin. apply (show_rows_all m (rows d)).
    intros r Hr. apply show_row_inside. intros f i Hf E.
    rewrite (Hrect r Hr). exact (Hin f i Hf E).
  - intros f i Hf E Hout Hrows.
    destruct (rows d) as [|r rs] eqn:Er; [congruence|].
    cbn [forallb]. rewrite (show_row_outside m r f i Hf E); [reflexivity|].
    rewrite (Hrect r (or_introl eq_refl)). exact Hout.
Qed.

(** X2: on a frame whose rows all have [ncols] cells, [show_results] shows
    either every row or none: every row, in order, when the columns of Name,
    Profit, Price, Code and Article are mapped inside the frame, and none
    (the method raises at the first row) when one of them is mapped outside.
    The column mapped for Purchase does not matter. *)
Theorem show_results_all_or_nothing (m : field -> option nat) (d : DataFrame) :
  rectangular d ->
  ((forall f i, In f display_columns -> m f = Some i -> i < ncols d) ->
   List.length (show_results m d) = List.length (rows d)
   /\ show_completes m d = true
   /\ forall k values,
        nth_error (show_results m d) k = Some values ->
        exists row, nth_error (rows d) k = Some row
                    /\ show_row m row = Some values)
  /\
  (forall f i, In f display_columns -> m f = Some i -> ncols d <= i ->
     show_results m d = []
     /\ (rows d <> [] -> show_completes m d = false)).
Proof.
  intros Hrect. unfold rectangular in Hrect. rewrite Forall_forall in Hrect.
  unfold show_results, show_completes. split.
  - intros Hin.
    destruct (show_rows_all m (rows d)) as [Hl Hf].
    + intros r Hr. apply show_row_inside. intros f i Hf E.
      rewrite (Hrect r Hr). exact (Hin f i Hf E).
    + split; [exact Hl|]. split; [exact Hf|]. apply show_rows_nth.
  - intros f i Hf E Hout. destruct (rows d) as [|r rs] eqn:Er.
    + split; [reflexivity | congruence].
    + assert (Hr : show_row m r = None).
      { apply (show_row_outside m r f i Hf E).
        rewrite (Hrect r (or_introl eq_refl)). exact Hout. }
      cbn [show_rows forallb]. rewrite Hr. split; reflexivity.
Qed.

(** A search with the six columns mapped inside the frame gives the matching
    rows. *)
Lemma search_items_exact (now : Z) (rec : bool) (text : pystr) (st : App)
    (d : DataFrame) :
  df st = Some d ->
  (forall f, exists i, column_mapping st f = Some i /\ i < ncols d) ->
  strip text <> [] ->
  snd (search_items now rec text st)
  = Some {| ncols := ncols d;
            rows := filter (row_matchb (column_mapping st) (strip text)) (rows d) |}.
Proof.
  intros Hd Hin Hq.
  assert (Hm : mapping_is_empty (column_mapping st) = false).
  { apply all_mapped_not_empty. intros f. destruct (Hin f) as (i & E & _).
    exists i. exact E. }
  assert (Hf : filter_rows (column_mapping st) d (strip text)
               = Some {| ncols := ncols d;
                         rows := filter (row_matchb (column_mapping st) (strip text))
                                        (rows d) |}).
  { apply filter_rows_in_range.
    - intros f i _ E. destruct (Hin f) as (j & Ej & Hj). congruence.
    - destruct (Hin Name) as (j & Ej & _). exists Name, j.
      split; [left; reflexivity | exact Ej]. }
  unfold search_items. rewrite Hd, Hm.
  destruct (strip text) as [|c q] eqn:Eq; [congruence|].
  unfold search_try. rewrite Hf.
  destruct (rec && differs (c :: q) (last_query st)); [|reflexivity].
  destruct (history_message_in_range (column_mapping st)
              {| ncols := ncols d;
                 rows := filter (row_matchb (column_mapping st) (c :: q)) (rows d) |}
              (c :: q)) as [msg ->]; [|reflexivity].
  intros f i E. destruct (Hin f) as (j & Ej & Hj). cbn. congruence.
Qed.

(** A search with a searched column mapped outside the frame gives all
    rows. *)
Lemma search_items_fallback (now : Z) (rec : bool) (text : pystr) (st : App)
    (d : DataFrame) (f : field) (i : nat) :
  df st = Some d ->
  In f search_columns -> column_mapping st f = Some i -> ncols d <= i ->
  snd (search_items now rec text st) = Some d.
Proof.
  intros Hd Hf E Hout. unfold search_items. rewrite Hd.
  assert (Hm : mapping_is_empty (column_mapping st) = false).
  { unfold mapping_is_empty. cbn [forallb].
    unfold search_columns in Hf.
    destruct Hf as [<- | [<- | [<- | []]]]; rewrite E; cbn;
      repeat rewrite andb_false_r; reflexivity. }
  rewrite Hm. destruct (strip text) as [|c q]; [reflexivity|].
  unfold search_try.
  rewrite (filter_rows_out_of_range (column_mapping st) d (c :: q) f i Hf E Hout).
  reflexivity.
Qed.

(** X3: what [import_excel] leaves behind depends on the width of the sheet.
    With eight columns from the start column on, the sheet is installed, one
    entry "Імпортовано n товарів" is logged, and every search with a
    non-empty query gives exactly the matching rows.  With fewer columns (and
    at least one row) the import is reported as failed and nothing is logged,
    but the sheet and its mapping are installed all the same, and from then
    on every search gives all rows.  When the file cannot be read nothing
    changes. *)
Theorem import_excel_by_width (now : Z) (d : DataFrame) (st : App) :
  rectangular d ->
  import_excel now None st = st
  /\
  (find_data_start_column d + 8 <= ncols d ->
   df (import_excel now (Some d) st) = Some d
   /\ history (import_excel now (Some d) st)
      = firstn 100 ({| stamp := minute_of now; message := imported_message d |}
                      :: history st)
   /\ forall now' rec text,
        strip text <> [] ->
        snd (search_items now' rec text (import_excel now (Some d) st))
        = Some {| ncols := ncols d;
                  rows := filter (row_matchb
                                    (shifted_mapping (find_data_start_column d))
                                    (strip text)) (rows d) |})
  /\
  (ncols d < find_data_start_column d + 8 ->
   rows d <> [] ->
   df (import_excel now (Some d) st) = Some d
   /\ column_mapping (import_excel now (Some d) st)
      = shifted_mapping (find_data_start_column d)
   /\ history (import_excel now (Some d) st) = history st
   /\ forall now' rec text,
        snd (search_items now' rec text (import_excel now (Some d) st)) = Some d).
Proof.
  intros Hrect. split; [reflexivity|].
  set (start := find_data_start_column d).
  destruct (show_completes_rect (shifted_mapping start) d Hrect)
    as [Hall Hnone].
  split.
  - intros Hwide.
    assert (Hin : forall f, exists i, shifted_mapping start f = Some i /\ i < ncols d).
    { intros f. destruct f; eexists; (split; [reflexivity|]); lia. }
    assert (Hc : show_completes (shifted_mapping start) d = true).
    { apply Hall. intros f i _ E. destruct (Hin f) as (j & Ej & Hj). congruence. }
    unfold import_excel, load_file. cbn [column_mapping set_table].
    fold start. rewrite Hc.
    split; [reflexivity|]. split; [reflexivity|].
    intros now' rec text Hq.
    exact (search_items_exact now' rec text
             (log_action now (imported_message d)
                (set_table d (shifted_mapping start) st)) d eq_refl Hin Hq).
  - intros Hnarrow Hrows.
    assert (Hc : show_completes (shifted_mapping start) d = false).
    { apply (Hnone Code (start + 7)); [simpl; tauto | reflexivity | lia |].
      exact Hrows. }
    unfold import_excel, load_file. cbn [column_mapping set_table].
    fold start. rewrite Hc.
    split; [reflexivity|]. split; [reflexivity|]. split; [reflexivity|].
    intros now' rec text.
    apply (search_items_fallback now' rec text
             (set_table d (shifted_mapping start) st) d Code (start + 7));
      [reflexivity | simpl; tauto | reflexivity | lia].
Qed.

End Importing.

(** The sheet of two goods is rectangular and eight columns wide: its import
    is logged. *)
Lemma import_excel_by_width_witness :
  history (@import_excel reference_builtins 120 (Some two_goods) (init_app NoFile))
  = firstn 100 [{| stamp := minute_of 120;
                   message := @imported_message two_goods |}].
Proof.
  refine (proj1 (proj2 (proj1 (proj2
    (@import_excel_by_width reference_builtins 120 two_goods (init_app NoFile) _))
    _))).
  - repeat constructor.
  - vm_compute. lia.
Defined.

Lemma show_results_all_or_nothing_witness :
  List.length (@show_results reference_builtins init_mapping two_goods) = 2.
Proof.
  refine (proj1 (proj1
    (@show_results_all_or_nothing reference_builtins init_mapping two_goods _) _)).
  - repeat constructor.
  - intros f i Hf E. destruct f; inversion E; subst; cbn; lia.
Defined.

(** ** More on the search *)

Section Searching.
Context `{PyBuiltins}.

Lemma contains_trans (a b c : pystr) :
  contains a b = true -> contains b c = true -> contains a c = true.
Proof.
  rewrite !contains_spec. intros (p1 & q1 & ->) (p2 & q2 & ->).
  exists (p2 ++ p1), (q1 ++ q2). rewrite <- !app_assoc. reflexivity.
Qed.

Lemma row_matchb_narrows (m : field -> option nat) (q1 q2 : pystr)
    (row : list cell) :
  contains (lower q1) (lower q2) = true ->
  row_matchb m q2 row = true -> row_matchb m q1 row = true.
Proof.
  intros Hq. unfold row_matchb. rewrite !existsb_exists.
  intros (f & Hf & Hm). exists f. split; [exact Hf|].
  destruct (m f) as [i|]; [|discriminate].
  unfold cell_containsb in *. exact (contains_trans _ _ _ Hq Hm).
Qed.

Lemma filter_narrows {A : Type} (p1 p2 : A -> bool) (l : list A) :
  (forall x, p2 x = true -> p1 x = true) ->
  filter p2 (filter p1 l) = filter p2 l.
Proof.
  intros Himp. induction l as [|x l IH]; [reflexivity|]. cbn [filter].
  destruct (p1 x) eqn:E1; cbn [filter]; rewrite IH; [reflexivity|].
  destruct (p2 x) eqn:E2; [|reflexivity].
  rewrite (Himp x E2) in E1. discriminate.
Qed.

(** X4: a longer query narrows the result.  With the six columns mapped
    inside the frame, when the query of one search occurs, lower-cased, in
    the lower-cased query of another, the second search gives what it would
    give on the result of the first: the rows of that result that match, in
    their order.  So every row that the second search gives is also given by
    the first. *)
Theorem search_narrows (now1 now2 : Z) (rec1 rec2 : bool) (text1 text2 : pystr)
    (st : App) (d r1 r2 : DataFrame) :
  df st = Some d ->
  (forall f, exists i, column_mapping st f = Some i /\ i < ncols d) ->
  strip text1 <> [] ->
  strip text2 <> [] ->
  contains (lower (strip text1)) (lower (strip text2)) = true ->
  snd (search_items now1 rec1 text1 st) = Some r1 ->
  snd (search_items now2 rec2 text2 st) = Some r2 ->
  rows r2 = filter (row_matchb (column_mapping st) (strip text2)) (rows r1)
  /\ incl (rows r2) (rows r1).
Proof.
  intros Hd Hin Hq1 Hq2 Hsub E1 E2.
  rewrite (search_items_exact now1 rec1 text1 st d Hd Hin Hq1) in E1.
  rewrite (search_items_exact now2 rec2 text2 st d Hd Hin Hq2) in E2.
  inversion E1; subst r1; clear E1. inversion E2; subst r2; clear E2.
  cbn [rows].
  assert (Himp : forall row,
            row_matchb (column_mapping st) (strip text2) row = true ->
            row_matchb (column_mapping st) (strip text1) row = true)
    by (intros row; apply row_matchb_narrows; exact Hsub).
  split.
  - symmetry. apply filter_narrows. exact Himp.
  - intros row Hrow. apply filter_In in Hrow. destruct Hrow as [Hr Hm].
    apply filter_In. split; [exact Hr | exact (Himp row Hm)].
Qed.

End Searching.

(** Searching "widget" after "wid" in the sheet of two goods. *)
Lemma search_narrows_witness :
  incl [[Text (u "Widget"); NaN; NaN; NaN; Float 30; Float 100.5;
         Text (u "A1"); Float 1234]]
       [[Text (u "Widget"); NaN; NaN; NaN; Float 30; Float 100.5;
         Text (u "A1"); Float 1234]].
Proof.
  refine (proj2 (@search_narrows reference_builtins 120 180 true true
            (u "wid") (u " Widget") (load_file two_goods (started 0 NoFile))
            two_goods
            {| ncols := 8;
               rows := [[Text (u "Widget"); NaN; NaN; NaN; Float 30; Float 100.5;
                         Text (u "A1"); Float 1234]] |}
            {| ncols := 8;
               rows := [[Text (u "Widget"); NaN; NaN; NaN; Float 30; Float 100.5;
                         Text (u "A1"); Float 1234]] |}
            eq_refl _ _ _ _ _ _)).
  - intros f. destruct f; eexists; (split; [reflexivity | cbn; lia]).
  - vm_compute. discriminate.
  - vm_compute. discriminate.
  - vm_compute. reflexivity.
  - vm_compute. reflexivity.
  - vm_compute. reflexivity.
Defined.

Section Logging.
Context `{PyBuiltins}.

Lemma search_items_history (now : Z) (text : pystr) (st : App) :
  file (fst (search_items now true text st)) = file st
  /\ (history (fst (search_items now true text st)) = history st
      \/ exists msg,
           history (fst (search_items now true text st))
           = firstn 100 ({| stamp := minute_of now; message := msg |}
                           :: history st)).
Proof.
  destruct (search_items_cases now true text st)
    as [-> | (d & results & _ & _ & _ & Ht)]; [split; [reflexivity | left; reflexivity]|].
  apply search_try_state in Ht.
  destruct Ht as (_ & _ & _ & E3 & _ & [[_ Hh] | [_ Hh]]).
  - split; [exact E3 | left; exact Hh].
  - split; [exact E3 | right; exact Hh].
Qed.

(** X5: a search changes neither the frame, nor the mapping, nor the history
    file; [last_query] stays or becomes the trimmed text; and the history
    stays or gets one entry at its front, which it only gets with
    [record_history] and a query other than [last_query]. *)
Theorem search_items_changes (now : Z) (rec : bool) (text : pystr) (st : App) :
  df (fst (search_items now rec text st)) = df st
  /\ column_mapping (fst (search_items now rec text st)) = column_mapping st
  /\ file (fst (search_items now rec text st)) = file st
  /\ (last_query (fst (search_items now rec text st)) = last_query st
      \/ last_query (fst (search_items now rec text st)) = Some (strip text))
  /\ (history (fst (search_items now rec text st)) = history st
      \/ (rec = true /\ last_query st <> Some (strip text)
          /\ exists msg,
               history (fst (search_items now rec text st))
               = firstn 100 ({| stamp := minute_of now; message := msg |}
                               :: history st))).
Proof.
  destruct (search_items_cases now rec text st)
    as [-> | (d & results & _ & _ & _ & Ht)].
  - repeat split; auto.
  - apply search_try_state in Ht.
    destruct Ht as (_ & E1 & E2 & E3 & E4 & Hh).
    split; [exact E1|]. split; [exact E2|]. split; [exact E3|].
    split; [right; exact E4|].
    destruct Hh as [[_ Hh] | [Hb Hh]]; [left; exact Hh|].
    right. apply andb_true_iff in Hb. destruct Hb as [-> Hdif].
    split; [reflexivity|]. split; [|exact Hh].
    intros Hlast. rewrite Hlast, differs_same in Hdif. discriminate.
Qed.

Lemma startswith_app (p s : pystr) : startswith p (p ++ s) = true.
Proof. apply startswith_spec. exists s. reflexivity. Qed.

(** X6: what a recorded search logs.  When the search gives no row or
    several rows, the entry is the trimmed query alone; when it gives one row
    and the Code is mapped, the entry begins with the query and an arrow. *)
Theorem search_logs_query (now : Z) (text : pystr) (st : App) (res : DataFrame) :
  last_query st <> Some (strip text) ->
  last_query (fst (search_items now true text st)) = Some (strip text) ->
  snd (search_items now true text st) = Some res ->
  exists msg,
    history (fst (search_items now true text st))
    = firstn 100 ({| stamp := minute_of now; message := msg |} :: history st)
    /\ (List.length (rows res) <> 1 -> msg = strip text)
    /\ (List.length (rows res) = 1 -> column_mapping st Code <> None ->
        startswith (strip text ++ arrow) msg = true).
Proof.
  intros Hold Hnew Hres. unfold search_items in *.
  destruct (df st) as [d|]; [|simpl in Hnew; congruence].
  destruct (mapping_is_empty (column_mapping st)); [simpl in Hnew; congruence|].
  destruct (strip text) as [|c q] eqn:Eq; [simpl in Hnew; congruence|].
  destruct (search_try now true (c :: q) d st) as [[st1 results]|] eqn:Et;
    [|simpl in Hnew; congruence].
  cbn [fst snd] in *. inversion Hres; subst results; clear Hres.
  unfold search_try in Et.
  destruct (filter_rows (column_mapping st) d (c :: q)) as [r|]; [|discriminate].
  assert (Hdif : differs (c :: q) (last_query st) = true).
  { destruct (differs (c :: q) (last_query st)) eqn:E; [reflexivity|].
    apply differs_false in E. congruence. }
  rewrite Hdif in Et. cbn [andb] in Et.
  destruct (history_message (column_mapping st) r (c :: q)) as [msg|] eqn:Em;
    [|discriminate].
  inversion Et; subst st1 r; clear Et.
  exists msg. split; [reflexivity|].
  unfold history_message in Em. split.
  - intros Hlen. apply Nat.eqb_neq in Hlen. rewrite Hlen, andb_false_r in Em.
    inversion Em. reflexivity.
  - intros Hlen Hcode. apply Nat.eqb_eq in Hlen. rewrite Hlen in Em.
    destruct (column_mapping st Code) as [ic|]; [|congruence].
    cbn [is_some andb] in Em.
    repeat match type of Em with
           | context [match ?x with _ => _ end] =>
             destruct x; try discriminate Em
           end;
      inversion Em; apply startswith_spec; eexists;
      rewrite <- app_assoc; reflexivity.
Qed.

End Logging.

(** The search for "wid" gives one row: the entry begins with "wid ➔ ". *)
Lemma search_logs_query_witness :
  exists msg,
    history (fst (@search_items reference_builtins 120 true (u "wid")
                    (load_file two_goods (init_app NoFile))))
    = firstn 100 [{| stamp := minute_of 120; message := msg |}]
    /\ startswith (u "wid ➔ ") msg = true.
Proof.
  destruct (@search_logs_query reference_builtins 120 (u "wid")
              (load_file two_goods (init_app NoFile))
              {| ncols := 8;
                 rows := [[Text (u "Widget"); NaN; NaN; NaN; Float 30; Float 100.5;
                           Text (u "A1"); Float 1234]] |})
    as (msg & Hh & _ & Hone).
  - vm_compute. discriminate.
  - vm_compute. reflexivity.
  - vm_compute. reflexivity.
  - exists msg. split; [exact Hh|]. apply Hone; [reflexivity | vm_compute; discriminate].
Defined.

(** ** The order of the history *)

Lemma minute_of_mono (t t' : Z) : (t <= t')%Z -> (minute_of t <= minute_of t')%Z.
Proof.
  intros Ht. unfold minute_of.
  pose proof (Z.div_le_mono t t' 60 ltac:(lia) Ht). lia.
Qed.

Lemma ordered_until_mono (t t' : Z) (h : list entry) :
  (t <= t')%Z -> ordered_until t h -> ordered_until t' h.
Proof.
  intros Ht [Hs Hb]. split; [exact Hs|].
  pose proof (minute_of_mono t t' Ht) as Hm.
  eapply Forall_impl; [|exact Hb]. intros e He. cbv beta in *. lia.
Qed.

Lemma ordered_until_nil (t : Z) : ordered_until t [].
Proof. split; constructor. Qed.

Lemma ordered_until_cons (t : Z) (msg : pystr) (h : list entry) :
  ordered_until t h ->
  ordered_until t ({| stamp := minute_of t; message := msg |} :: h).
Proof.
  intros [Hs Hb]. split.
  - constructor; [exact Hs|].
    destruct h as [|e h]; constructor. cbn [stamp].
    inversion Hb; subst. assumption.
  - constructor; [cbn [stamp]; lia | exact Hb].
Qed.

Lemma ordered_until_firstn (t : Z) (n : nat) (h : list entry) :
  ordered_until t h -> ordered_until t (firstn n h).
Proof.
  intros [Hs Hb]. split.
  - clear Hb. revert n. induction Hs as [|e h Hs IH Hhd]; intros n.
    + rewrite firstn_nil. constructor.
    + destruct n as [|n]; cbn [firstn]; constructor; [apply IH|].
      destruct Hhd as [|e' h' He']; [rewrite firstn_nil; constructor|].
      destruct n; cbn [firstn]; constructor. exact He'.
  - apply Forall_forall. intros e He.
    apply (proj1 (Forall_forall _ _) Hb). apply In_firstn in He. exact He.
Qed.

Lemma ordered_until_filter (t : Z) (P : entry -> bool) (h : list entry) :
  ordered_until t h -> ordered_until t (filter P h).
Proof.
  intros [Hs Hb]. split.
  - clear Hb. apply Sorted_StronglySorted in Hs; [|intros a b c; cbn; lia].
    apply StronglySorted_Sorted.
    induction Hs as [|e h Hs IH Hall]; cbn [filter]; [constructor|].
    destruct (P e); [|exact IH]. constructor; [exact IH|].
    apply Forall_forall. intros x Hx. apply filter_In in Hx.
    apply (proj1 (Forall_forall _ _) Hall). tauto.
  - apply Forall_forall. intros e He. apply filter_In in He.
    apply (proj1 (Forall_forall _ _) Hb). tauto.
Qed.

Lemma log_action_ordered (t now : Z) (msg : pystr) (st : App) :
  (t <= now)%Z -> ordered_until t (history st) ->
  ordered_until now (history (log_action now msg st)).
Proof.
  intros Ht Ho. rewrite log_action_history.
  apply ordered_until_firstn, ordered_until_cons.
  apply (ordered_until_mono t now _ Ht Ho).
Qed.

Lemma last_cons_default (a d : Z) (l : list Z) : last (a :: l) d = last l a.
Proof.
  revert a d. induction l as [|b l IH]; intros a d; [reflexivity|].
  change (last (a :: b :: l) d) with (last (b :: l) d).
  rewrite (IH b d), (IH b a). reflexivity.
Qed.

Section Sessions.
Context `{PyBuiltins}.

Lemma step_ordered (t now : Z) (ev : event) (st : App) :
  (t <= now)%Z ->
  ordered_until t (history st) /\ file_ordered_until t (file st) ->
  ordered_until now (history (step now ev st))
  /\ file_ordered_until now (file (step now ev st)).
Proof.
  intros Ht [Hh Hf].
  assert (Hh' : ordered_until now (history st))
    by (apply (ordered_until_mono t now _ Ht Hh)).
  assert (Hf' : file_ordered_until now (file st)).
  { destruct (file st); cbn in *; auto.
    apply (ordered_until_mono t now _ Ht Hf). }
  destruct ev as [text|msg|d|m| |]; cbn [step].
  - destruct (search_items_history now text st) as (Efile & [Eh | (msg & Eh)]);
      rewrite Efile, Eh; split; auto.
    apply ordered_until_firstn, ordered_until_cons. exact Hh'.
  - split; [|exact Hf']. apply (log_action_ordered t now msg st Ht Hh).
  - split; assumption.
  - split; assumption.
  - split; [exact Hh'|]. cbn. apply ordered_until_filter. exact Hh'.
  - split.
    + unfold clear_history. rewrite log_action_history.
      apply ordered_until_firstn, ordered_until_cons. apply ordered_until_nil.
    + cbn. apply ordered_until_nil.
Qed.

Lemma run_ordered (evs : list (Z * event)) (t : Z) (st : App) :
  Sorted Z.le (t :: map fst evs) ->
  ordered_until t (history st) /\ file_ordered_until t (file st) ->
  ordered_until (last (map fst evs) t) (history (run evs st))
  /\ file_ordered_until (last (map fst evs) t) (file (run evs st)).
Proof.
  revert t st. induction evs as [|[now ev] evs IH]; intros t st Hs Hinv.
  - exact Hinv.
  - cbn [map fst] in Hs. inversion Hs as [|? ? Hs' Hhd]; subst.
    inversion Hhd as [|? ? Hle]; subst.
    cbn [run map fst].
    rewrite last_cons_default.
    apply IH; [exact Hs'|]. apply (step_ordered t now ev st Hle Hinv).
Qed.

Lemma started_ordered (t0 : Z) (f : history_file) :
  file_ordered_until t0 f ->
  ordered_until t0 (history (started t0 f))
  /\ file_ordered_until t0 (file (started t0 f)).
Proof.
  intros Hf. unfold started, load_history. rewrite log_action_history.
  split.
  - apply ordered_until_firstn, ordered_until_cons.
    destruct f as [| |h]; cbn; try apply ordered_until_nil.
    apply ordered_until_filter. exact Hf.
  - destruct f; cbn; auto.
Qed.

(** X7: the history is in the order of time.  When the clock does not go
    back during a session and the history file, if it can be read, holds
    entries in the order of their times and none from later than the start,
    then after any events the entries of the history are in that order, the
    newest first, and the history file is again such a file. *)
Theorem history_stays_newest_first (t0 : Z) (f : history_file)
    (evs : list (Z * event)) :
  file_ordered_until t0 f ->
  Sorted Z.le (t0 :: map fst evs) ->
  newest_first (history (run evs (started t0 f)))
  /\ file_ordered_until (last (map fst evs) t0) (file (run evs (started t0 f))).
Proof.
  intros Hf Hs.
  destruct (run_ordered evs t0 (started t0 f) Hs (started_ordered t0 f Hf))
    as [[Hn _] Hfile].
  split; assumption.
Qed.

End Sessions.

Lemma filter_recent_twice (now now' : Z) (h : list entry) :
  (now <= now')%Z ->
  filter (is_recent now') (filter (is_recent now) h) = filter (is_recent now') h.
Proof.
  intros Ht. induction h as [|e h IH]; [reflexivity|]. cbn [filter].
  destruct (is_recent now e) eqn:E1; cbn [filter]; rewrite IH; [reflexivity|].
  replace (is_recent now' e) with false; [reflexivity|].
  symmetry. unfold is_recent in *. apply Z.ltb_ge. apply Z.ltb_ge in E1. lia.
Qed.

(** X8: closing and starting again.  The window saves the history when it
    is closed at [now]; started at a later time [now'], the application shows
    the entry of the loading and under it the entries of the old history that
    are younger than two days at [now'], in their order, cut to a hundred. *)
Theorem restart_keeps_recent (now now' : Z) (st : App) :
  (now <= now')%Z ->
  history (started now' (file (save_history now st)))
  = firstn 100 ({| stamp := minute_of now'; message := u "Історію завантажено" |}
                  :: filter (is_recent now') (history st)).
Proof.
  intros Ht. unfold started, load_history. rewrite log_action_history.
  cbn [save_history set_file file init_app set_history history].
  rewrite (filter_recent_twice now now' _ Ht). reflexivity.
Qed.

Section Clearing.
Context `{PyBuiltins}.

(** X9: clearing the history.  [clear_history] leaves one entry, the one
    that reports the clearing, and an empty history file; it leaves
    [last_query] as it is, so that a search for the query recorded last
    before the clearing is not recorded after it. *)
Theorem clear_history_keeps_last_query (now now' : Z) (text : pystr) (st : App) :
  last_query st = Some (strip text) ->
  history (clear_history now st)
  = [{| stamp := minute_of now; message := u "Історію пошуку очищено" |}]
  /\ file (clear_history now st) = Saved []
  /\ history (fst (search_items now' true text (clear_history now st)))
     = [{| stamp := minute_of now; message := u "Історію пошуку очищено" |}].
Proof.
  intros Hlast.
  assert (Hh : history (clear_history now st)
               = [{| stamp := minute_of now;
                     message := u "Історію пошуку очищено" |}]) by reflexivity.
  split; [exact Hh|]. split; [reflexivity|].
  rewrite (search_same_query now' text (clear_history now st)); [exact Hh|].
  exact Hlast.
Qed.

End Clearing.

(** A session that starts from a file with one entry, searches and clears. *)
Lemma history_stays_newest_first_witness :
  newest_first
    (history (@run reference_builtins
                [(180, Search (u "wid")); (240, ClearHistory)]%Z
                (started 120 (Saved [{| stamp := 60; message := u "wid" |}]))))
  /\ file_ordered_until 240
       (file (@run reference_builtins
                [(180, Search (u "wid")); (240, ClearHistory)]%Z
                (started 120 (Saved [{| stamp := 60; message := u "wid" |}])))).
Proof.
  apply (@history_stays_newest_first reference_builtins 120
           (Saved [{| stamp := 60; message := u "wid" |}])
           [(180, Search (u "wid")); (240, ClearHistory)]%Z).
  - split; repeat constructor. vm_compute. discriminate.
  - repeat constructor; vm_compute; discriminate.
Defined.

(** Closed at the second 0 and started again one minute later. *)
Lemma restart_keeps_recent_witness :
  history (started 60 (file (save_history 0 (started 0 NoFile))))
  = firstn 100 ({| stamp := minute_of 60; message := u "Історію завантажено" |}
                  :: filter (is_recent 60) (history (started 0 NoFile))).
Proof. apply (restart_keeps_recent 0 60 (started 0 NoFile)). lia. Defined.

(** The query "wid" is searched, the history is cleared, and "wid" is
    searched again. *)
Lemma clear_history_keeps_last_query_witness :
  history (fst (@search_items reference_builtins 180 true (u "wid")
                  (clear_history 120
                     (fst (@search_items reference_builtins 60 true (u "wid")
                             (load_file two_goods (started 0 NoFile)))))))
  = [{| stamp := minute_of 120; message := u "Історію пошуку очищено" |}].
Proof.
  apply (@clear_history_keeps_last_query reference_builtins 120 180 (u "wid")
           (fst (@search_items reference_builtins 60 true (u "wid")
                   (load_file two_goods (started 0 NoFile))))).
  vm_compute. reflexivity.
Defined.

(** ** The panel of one stock record *)

Lemma available_in_stock (qty_of : pystr -> option Z) (stores : list pystr) :
  available qty_of stores = in_stock qty_of stores.
Proof.
  induction stores as [|store stores IH]; [reflexivity|].
  cbn [available in_stock flat_map]. fold (in_stock qty_of stores).
  rewrite IH. destruct (qty_of store) as [q|]; [|reflexivity].
  destruct (0 <? q)%Z; reflexivity.
Qed.

Lemma per_col_bounds (n : nat) :
  n <= 3 * per_col n /\ (0 < n -> 0 < per_col n /\ per_col n <= n
                                  /\ 3 * (per_col n - 1) < n).
Proof.
  unfold per_col.
  pose proof (Nat.div_mod_eq (n + 3 - 1) 3) as E.
  pose proof (Nat.mod_upper_bound (n + 3 - 1) 3 ltac:(lia)) as B.
  lia.
Qed.

Lemma panel_columns_spec {A : Type} (av : list A) (p : nat) :
  List.length av <= 3 * p ->
  slice av (0 * p) ((0 + 1) * p) ++ slice av (1 * p) ((1 + 1) * p)
    ++ slice av (2 * p) ((2 + 1) * p) = av.
Proof.
  intros Hn. unfold slice.
  replace ((0 + 1) * p - 0 * p) with p by lia.
  replace ((1 + 1) * p - 1 * p) with p by lia.
  replace ((2 + 1) * p - 2 * p) with p by lia.
  replace (0 * p) with 0 by lia. replace (1 * p) with p by lia.
  replace (2 * p) with (p + p) by lia. cbn [skipn].
  rewrite (firstn_all2 (n := p) (skipn (p + p) av))
    by (rewrite length_skipn; lia).
  rewrite <- (skipn_skipn p p av).
  rewrite (firstn_skipn p (skipn p av)). apply firstn_skipn.
Qed.

(** X10: the grid of [display_stock_info].  With no store in stock the
    method shows the label and no grid.  Otherwise the grid has three columns
    that, read one after the other, hold every store in stock once and in the
    order of [self.stores]; the first column is full, no column is longer
    than the number of rows, and that number is the third of the number of
    these stores, rounded up. *)
Theorem display_stock_info_grid (qty_of : pystr -> option Z)
    (stores : list pystr) :
  match display_stock_info qty_of stores with
  | None => in_stock qty_of stores = []
  | Some (nrows, cols) =>
    in_stock qty_of stores <> []
    /\ List.concat cols = in_stock qty_of stores
    /\ (exists c0 c1 c2,
          cols = [c0; c1; c2] /\ List.length c0 = nrows
          /\ List.length c1 <= nrows /\ List.length c2 <= nrows)
    /\ List.length (in_stock qty_of stores) <= 3 * nrows
    /\ 3 * (nrows - 1) < List.length (in_stock qty_of stores)
  end.
Proof.
  unfold display_stock_info. rewrite available_in_stock.
  destruct (in_stock qty_of stores) as [|a av] eqn:Eav; [reflexivity|].
  set (l := a :: av). set (p := per_col (List.length l)).
  destruct (per_col_bounds (List.length l)) as [H3 Hpos].
  destruct Hpos as (Hp & Hpn & Hceil); [cbn; lia|]. fold p in H3, Hp, Hpn, Hceil.
  assert (L0 : List.length (slice l (0 * p) ((0 + 1) * p)) = p)
    by (unfold slice; rewrite length_firstn, length_skipn; lia).
  assert (L1 : List.length (slice l (1 * p) ((1 + 1) * p)) <= p)
    by (unfold slice; rewrite length_firstn; lia).
  assert (L2 : List.length (slice l (2 * p) ((2 + 1) * p)) <= p)
    by (unfold slice; rewrite length_firstn; lia).
  unfold panel_columns. fold p. cbn [seq map fold_right List.concat].
  split; [discriminate|]. split.
  - rewrite app_nil_r. apply (panel_columns_spec l p H3).
  - rewrite L0. replace (Nat.max p _) with p by lia.
    split; [|split; assumption].
    eexists _, _, _. split; [reflexivity|]. auto.
Qed.

(** ** The candidates of the automatic loading *)

Section FirstLatest.
Variable A : Type.
Variable key : A -> datetime.

(** The converse of [sorted_desc_head]: an element with strictly earlier
    elements before it and none later after it is the head of the sorted
    list. *)
Lemma sorted_desc_head_is (l1 : list A) (x : A) (l2 : list A) :
  (forall y, In y l1 -> date_lt (key y) (key x)) ->
  (forall y, In y l2 -> date_le (key y) (key x)) ->
  exists rest, sorted_desc key (l1 ++ x :: l2) = x :: rest.
Proof.
  intros H1 H2. induction l1 as [|q l1 IH]; cbn [app sorted_desc].
  - destruct (sorted_desc key l2) as [|y s] eqn:Es; cbn [insert_desc].
    + exists []. reflexivity.
    + assert (Hy : In y l2).
      { apply (Permutation_in y (Permutation_sym (sorted_desc_perm _ key l2))).
        rewrite Es. left. reflexivity. }
      rewrite (H2 y Hy). exists (y :: s). reflexivity.
  - destruct IH as [rest Er]; [intros y Hy; apply H1; right; exact Hy|].
    rewrite Er. cbn [insert_desc].
    rewrite (H1 q (or_introl eq_refl)). eexists. reflexivity.
Qed.

Lemma insert_desc_pairs (x : A) (s : list A) :
  insert_desc snd (x, key x) (map (fun f => (f, key f)) s)
  = map (fun f => (f, key f)) (insert_desc key x s).
Proof.
  induction s as [|y s IHs]; [reflexivity|].
  cbn [map insert_desc snd].
  destruct (datetime_ltb (key x) (key y)); [|reflexivity].
  rewrite IHs. reflexivity.
Qed.

Lemma sorted_desc_pairs (l : list A) :
  sorted_desc snd (map (fun f => (f, key f)) l)
  = map (fun f => (f, key f)) (sorted_desc key l).
Proof.
  induction l as [|x l IH]; [reflexivity|].
  cbn [map sorted_desc]. rewrite IH. apply insert_desc_pairs.
Qed.

End FirstLatest.

Lemma get_latest_file_hd (now_year : nat) (files : list pystr) :
  get_latest_file now_year files
  = hd_error (sorted_desc (file_date now_year) files).
Proof.
  unfold get_latest_file.
  change (map (fun f => (f, extract_date_from_filename now_year (basename f))) files)
    with (map (fun f => (f, file_date now_year f)) files).
  rewrite (sorted_desc_pairs pystr (file_date now_year) files).
  destruct (sorted_desc (file_date now_year) files); reflexivity.
Qed.

Lemma fromkeys_incl (seen l : list pystr) (x : pystr) :
  In x (fromkeys seen l) -> In x l.
Proof.
  revert seen. induction l as [|y l IH]; intros seen; cbn [fromkeys]; [tauto|].
  destruct (existsb (pystr_eqb y) seen).
  - intros Hx. right. apply (IH seen Hx).
  - intros [<- | Hx]; [left; reflexivity | right; apply (IH _ Hx)].
Qed.

Lemma fromkeys_split (seen l1 : list pystr) (x : pystr) (l2 : list pystr) :
  existsb (pystr_eqb x) seen = false -> ~ In x l1 ->
  exists seen',
    fromkeys seen (l1 ++ x :: l2) = fromkeys seen l1 ++ x :: fromkeys seen' l2.
Proof.
  revert seen. induction l1 as [|y l1 IH]; intros seen Hseen Hx; cbn [app fromkeys].
  - rewrite Hseen. exists (x :: seen). reflexivity.
  - assert (Hxy : x <> y) by (intros ->; apply Hx; left; reflexivity).
    assert (Hx' : ~ In x l1) by (intros Hin; apply Hx; right; exact Hin).
    destruct (existsb (pystr_eqb y) seen).
    + apply (IH seen Hseen Hx').
    + destruct (IH (y :: seen)) as [seen' E]; [|exact Hx'|].
      * cbn [existsb]. rewrite Hseen, orb_false_r. apply pystr_eqb_neq. exact Hxy.
      * exists seen'. rewrite E. reflexivity.
Qed.

(** The paths that occur twice among the candidates do not matter for the
    choice of [get_latest_file]. *)
Lemma get_latest_file_fromkeys (now_year : nat) (found : list pystr) :
  get_latest_file now_year (fromkeys [] found) = get_latest_file now_year found.
Proof.
  rewrite !get_latest_file_hd.
  destruct found as [|f found']; [reflexivity|].
  destruct (sorted_desc_head _ (file_date now_year) (f :: found'))
    as (l1 & x & l2 & rest & El & Es & H1 & H2); [discriminate|].
  rewrite Es, El.
  assert (Hx : ~ In x l1).
  { intros Hin. specialize (H1 x Hin). unfold date_lt in H1.
    rewrite date_lt_irrefl in H1. discriminate. }
  destruct (fromkeys_split [] l1 x l2 eq_refl Hx) as [seen' E]. rewrite E.
  destruct (sorted_desc_head_is _ (file_date now_year)
              (fromkeys [] l1) x (fromkeys seen' l2)) as [rest' Er].
  - intros y Hy. apply H1. apply (fromkeys_incl _ _ _ Hy).
  - intros y Hy. apply H2. apply (fromkeys_incl _ _ _ Hy).
  - rewrite Er. reflexivity.
Qed.

Section AutoLoading.
Context `{PyBuiltins}.

(** X11: the automatic loading of the accounting sheet adds one entry to
    the history, whatever happens.  With no path found it reports that; else
    the path it reads is the first among the found ones with the latest date
    in its name, and the entry names that file: as loaded when the sheet was
    read and shown, as failed otherwise.  The frame of a sheet that was read
    stays installed also when showing it failed. *)
Theorem auto_load_accounting_file_logs
    (read_excel_any : pystr -> option DataFrame) (now : Z) (now_year : nat)
    (found : list pystr) (st : App) :
  exists msg,
    history (auto_load_accounting_file read_excel_any now now_year found st)
    = firstn 100 ({| stamp := minute_of now; message := msg |} :: history st)
    /\ match found with
       | [] =>
         msg = u "Файли Облік не знайдено"
         /\ df (auto_load_accounting_file read_excel_any now now_year found st)
            = df st
       | _ :: _ =>
         exists l1 latest l2,
           found = l1 ++ latest :: l2
           /\ (forall q, In q l1 ->
               date_lt (file_date now_year q) (file_date now_year latest))
           /\ (forall q, In q found ->
               date_le (file_date now_year q) (file_date now_year latest))
           /\ match read_excel_any latest with
              | None =>
                msg = u "Помилка завантаження файлу: " ++ basename latest
                /\ df (auto_load_accounting_file read_excel_any now now_year
                         found st) = df st
              | Some d =>
                msg = (if show_completes
                            (shifted_mapping (find_data_start_column d)) d
                       then u "Автоматично завантажено: "
                       else u "Помилка завантаження файлу: ") ++ basename latest
                /\ df (auto_load_accounting_file read_excel_any now now_year
                         found st) = Some d
              end
       end.
Proof.
  unfold auto_load_accounting_file.
  destruct found as [|f found']; [eexists; split; [reflexivity | split; reflexivity]|].
  rewrite (get_latest_file_fromkeys now_year (f :: found')), get_latest_file_hd.
  cbn [fromkeys existsb]. set (found := f :: found').
  destruct (sorted_desc_head _ (file_date now_year) found)
    as (l1 & latest & l2 & rest & El & Es & H1 & H2); [discriminate|].
  rewrite Es. cbn [hd_error].
  assert (Hfirst : exists l1 latest0 l2,
             found = l1 ++ latest0 :: l2 /\ latest0 = latest
             /\ (forall q, In q l1 ->
                 date_lt (file_date now_year q) (file_date now_year latest))
             /\ (forall q, In q found ->
                 date_le (file_date now_year q) (file_date now_year latest))).
  { exists l1, latest, l2. split; [exact El|]. split; [reflexivity|].
    split; [exact H1|]. intros q Hq. rewrite El in Hq.
    apply in_app_or in Hq. destruct Hq as [Hq | [<- | Hq]].
    - apply date_lt_le, H1, Hq.
    - unfold date_le. apply date_lt_irrefl.
    - apply H2, Hq. }
  destruct Hfirst as (k1 & latest0 & k2 & Ek & -> & K1 & K2).
  destruct (read_excel_any latest) as [d|] eqn:Er.
  - unfold load_file. cbn [column_mapping set_table].
    destruct (show_completes (shifted_mapping (find_data_start_column d)) d)
      eqn:Eshow;
      (eexists; split; [reflexivity|]);
      exists k1, latest, k2; rewrite Er, Eshow; repeat split; auto.
  - eexists; split; [reflexivity|].
    exists k1, latest, k2. rewrite Er. repeat split; auto.
Qed.

End AutoLoading.

(** ** The columns of the stock table *)

Lemma filter_seq_nth (f : nat -> bool) (n a k c : nat) :
  nth_error (filter f (seq a n)) k = Some c ->
  a + k <= c /\ c < a + n /\ f c = true
  /\ (c = a + k <-> forall j, a <= j < c -> f j = true).
Proof.
  revert a k. induction n as [|n IH]; intros a k; cbn [seq filter].
  - destruct k; discriminate.
  - destruct (f a) eqn:Ea.
    + destruct k as [|k]; cbn [nth_error].
      * intros E. inversion E; subst c.
        split; [lia|]. split; [lia|]. split; [exact Ea|].
        split; [intros _ j Hj; lia | intros _; lia].
      * intros E. destruct (IH (S a) k E) as (H1 & H2 & H3 & H4).
        split; [lia|]. split; [lia|]. split; [exact H3|]. split.
        -- intros Ec j Hj. destruct (Nat.eq_dec j a) as [-> | Hne]; [exact Ea|].
           apply (proj1 H4); lia.
        -- intros Hall. assert (c = S a + k); [|lia].
           apply (proj2 H4). intros j Hj. apply Hall. lia.
    + intros E. destruct (IH (S a) k E) as (H1 & H2 & H3 & H4).
      split; [lia|]. split; [lia|]. split; [exact H3|]. split; [lia|].
      intros Hall. assert (f a = true) by (apply Hall; lia). congruence.
Qed.

Section StoreColumns.
Context `{PyBuiltins}.

Lemma build_stores_cons (header : list cell) (start col : nat)
    (cols : list nat) :
  build_stores header start (col :: cols)
  = match store_name_at header start col with
    | Some name => name :: build_stores header start cols
    | None => build_stores header start cols
    end.
Proof.
  cbn [build_stores]. unfold store_name_at.
  destruct ((col =? start)
            && (pystr_eqb (strip (cell_str (nth col header NaN))) []
                || pystr_eqb (lower (strip (cell_str (nth col header NaN))))
                             (u "nan"))).
  - destruct (pystr_eqb (lower (u "ААА")) (u "итог")); reflexivity.
  - destruct (pystr_eqb (strip (cell_str (nth col header NaN))) []);
      [reflexivity|].
    destruct (pystr_eqb (lower (strip (cell_str (nth col header NaN))))
                        (u "итог")); reflexivity.
Qed.

Lemma build_stores_kept (header : list cell) (start : nat) (cols : list nat) :
  map Some (build_stores header start cols)
  = map (store_name_at header start) (store_columns_kept header start cols).
Proof.
  unfold store_columns_kept.
  induction cols as [|col cols IH]; [reflexivity|].
  rewrite build_stores_cons. cbn [filter].
  destruct (store_name_at header start col) as [name|] eqn:E; cbn [is_some map].
  - rewrite E, IH. reflexivity.
  - exact IH.
Qed.

Lemma nth_error_seq (a n k : nat) : k < n -> nth_error (seq a n) k = Some (a + k).
Proof.
  revert a k. induction n as [|n IH]; intros a k Hk; [lia|].
  destruct k as [|k]; cbn [seq nth_error]; [f_equal; lia|].
  rewrite IH by lia. f_equal. lia.
Qed.

(** X12: which column of the sheet gets which store name.  The store names
    are read from the header cells of the columns that the loop keeps; the
    quantities under the k-th name are taken from the k-th column after the
    column of the names of the goods.  The header column [c] of the k-th name
    lies at that column or to the right of it, and is that column exactly
    when the loop has kept every store column before [c]. *)
Theorem store_columns_shift (d : DataFrame) (L : Layout) (k c : nat) :
  load_stocks_file d = Loaded L ->
  nth_error (store_columns_kept (nth (stores_row L) (rows d) [])
                                (stores_start_col L) (store_cols L)) k = Some c ->
  exists name,
    nth_error (stores L) k = Some name
    /\ store_name_at (nth (stores_row L) (rows d) []) (stores_start_col L) c
       = Some name
    /\ nth_error (table_labels L) (2 + k) = Some name
    /\ nth_error (columns_to_take L) (2 + k) = Some (stores_start_col L + k)
    /\ stores_start_col L + k <= c < ncols d
    /\ (c = stores_start_col L + k <->
        forall j, stores_start_col L <= j < c ->
                  is_some (store_name_at (nth (stores_row L) (rows d) [])
                                         (stores_start_col L) j) = true).
Proof.
  unfold load_stocks_file.
  destruct (find_stores_row d) as [sr|]; [|discriminate].
  destruct (iloc_row d (sr + 2)) as [data_row|]; [|discriminate].
  intros E. inversion E; subst L; clear E.
  cbn [stores_row stores_start_col store_cols stores columns_to_take table_labels
       art_col_idx name_col_idx].
  set (start := art_column data_row + 1 + 1).
  set (header := nth sr (rows d) []).
  intros Hk.
  pose proof (build_stores_kept header start (seq start (ncols d - start))) as Hb.
  assert (Hname : nth_error (map Some (build_stores header start
                                         (seq start (ncols d - start)))) k
                  = Some (store_name_at header start c)).
  { rewrite Hb. rewrite nth_error_map, Hk. reflexivity. }
  rewrite nth_error_map in Hname.
  destruct (nth_error (build_stores header start (seq start (ncols d - start))) k)
    as [name|] eqn:En; [|discriminate].
  cbn [option_map] in Hname. inversion Hname as [Hsn].
  unfold store_columns_kept in Hk.
  destruct (filter_seq_nth _ _ _ _ _ Hk) as (H1 & H2 & _ & H4).
  exists name. split; [reflexivity|]. split; [reflexivity|].
  split; [exact En|]. split.
  - unfold columns_to_take.
    cbn [stores stores_start_col art_col_idx name_col_idx plus nth_error].
    apply nth_error_seq.
    apply (proj1 (nth_error_Some _ _)). rewrite En. discriminate.
  - split; [lia | exact H4].
Qed.

End StoreColumns.

(** In the sheet with an empty header cell in its third store column, the
    name of the third store is read from column 5, and its quantities from
    column 4. *)
Lemma store_columns_shift_witness :
  exists L,
    @load_stocks_file reference_builtins gap_sheet = Loaded L
    /\ nth_error (stores L) 2 = Some (u "Центр")
    /\ @store_name_at reference_builtins (nth (stores_row L) (rows gap_sheet) [])
         (stores_start_col L) 5 = Some (u "Центр")
    /\ nth_error (columns_to_take L) 4 = Some 4.
Proof.
  eexists. split; [reflexivity|].
  destruct (@store_columns_shift reference_builtins gap_sheet _ 2 5
              eq_refl eq_refl)
    as (name & Hs & Hn & _ & Hc & _).
  assert (En : name = u "Центр").
  { vm_compute in Hn. inversion Hn. reflexivity. }
  rewrite En in Hs, Hn. split; [exact Hs|]. split; [exact Hn | exact Hc].
Defined.

(** ** The import of the stock sheet *)

Section StockImporting.
Context `{PyBuiltins}.
Variable T : Type.
Variable make_table : DataFrame -> Layout -> option T.

Lemma scan_rows_none (rs : list (list cell)) (k : nat) :
  (forall r, In r rs -> is_stores_row r = false) -> scan_rows rs k = None.
Proof.
  revert k. induction rs as [|r rs IH]; intros k Hall; [reflexivity|].
  cbn [scan_rows]. rewrite (Hall r (or_introl eq_refl)).
  apply IH. intros r' Hr'. apply Hall. right. exact Hr'.
Qed.

Lemma find_stores_row_none (d : DataFrame) :
  (forall i row, i < 15 -> nth_error (rows d) i = Some row -> ~ qualifies row) ->
  find_stores_row d = None.
Proof.
  intros Hno. unfold find_stores_row. apply scan_rows_none.
  intros r Hr. apply In_nth_error in Hr. destruct Hr as [i Hi].
  assert (Hlt : i < 15).
  { assert (Hsome : nth_error (firstn 15 (rows d)) i <> None) by congruence.
    apply nth_error_Some in Hsome. rewrite length_firstn in Hsome. lia. }
  rewrite nth_error_firstn in Hi.
  destruct (i <? 15) eqn:E; [|discriminate].
  specialize (Hno i r Hlt Hi). rewrite <- is_stores_row_spec in Hno.
  destruct (is_stores_row r); congruence.
Qed.

(** X13: what an import of a stock sheet leaves behind.  When none of the
    first fifteen rows qualifies as the row of store names, the stores and
    the table stay as they were, and yet the history gets the entry
    "Імпортовано залишки для n магазинів", with n the number of the stores
    from before.  When the layout is found but the table cannot be built, the
    new stores are kept beside the old table and nothing is logged.  When the
    table is built, the stores and the table are replaced and two entries are
    logged, both with the number of the new stores. *)
Theorem import_stocks_outcomes (now : Z) (d : DataFrame) (s : StocksState T) :
  ((forall i row, i < 15 -> nth_error (rows d) i = Some row -> ~ qualifies row) ->
   stores_of (import_stocks T make_table now (Some d) s) = stores_of s
   /\ stocks_df_of (import_stocks T make_table now (Some d) s) = stocks_df_of s
   /\ history (window (import_stocks T make_table now (Some d) s))
      = firstn 100
          ({| stamp := minute_of now;
              message := stores_message (u "Імпортовано залишки для ")
                                        (List.length (stores_of s)) |}
             :: history (window s)))
  /\
  (forall L,
     load_stocks_file d = Loaded L ->
     stores_of (import_stocks T make_table now (Some d) s) = stores L
     /\ match make_table d L with
        | None =>
          stocks_df_of (import_stocks T make_table now (Some d) s)
          = stocks_df_of s
          /\ history (window (import_stocks T make_table now (Some d) s))
             = history (window s)
        | Some stocks_df =>
          stocks_df_of (import_stocks T make_table now (Some d) s)
          = Some stocks_df
          /\ history (window (import_stocks T make_table now (Some d) s))
             = firstn 100
                 ({| stamp := minute_of now;
                     message := stores_message (u "Імпортовано залишки для ")
                                               (List.length (stores L)) |}
                    :: firstn 100
                         ({| stamp := minute_of now;
                             message :=
                               stores_message (u "Завантажено залишки для ")
                                              (List.length (stores L)) |}
                            :: history (window s)))
        end).
Proof.
  unfold import_stocks, load_stocks_file_run. split.
  - intros Hno. unfold load_stocks_file.
    rewrite (find_stores_row_none d Hno). cbn.
    split; [reflexivity|]. split; reflexivity.
  - intros L EL. rewrite EL.
    destruct (make_table d L) as [t|]; cbn; repeat split; reflexivity.
Qed.

(** X14: the automatic loading of the stock sheet.  With no path found it
    changes nothing and logs nothing.  When the sheet of the chosen path,
    which is the one that [get_latest_file] gives for the found paths, has
    none among its first fifteen rows that qualifies as the row of store
    names, the stores and the table stay as they were and the history gets
    the entry "Автоматично завантажено залишки: " with the name of the
    file. *)
Theorem auto_load_stocks_file_reports
    (read_excel_any : pystr -> option DataFrame) (error_text : pystr)
    (now : Z) (now_year : nat) (found : list pystr) (s : StocksState T) :
  (found = [] ->
   auto_load_stocks_file T make_table read_excel_any error_text now now_year
     found s = s)
  /\
  (forall latest d,
     get_latest_file now_year found = Some latest ->
     read_excel_any latest = Some d ->
     (forall i row, i < 15 -> nth_error (rows d) i = Some row ->
                    ~ qualifies row) ->
     stores_of (auto_load_stocks_file T make_table read_excel_any error_text
                  now now_year found s) = stores_of s
     /\ stocks_df_of (auto_load_stocks_file T make_table read_excel_any
                        error_text now now_year found s) = stocks_df_of s
     /\ history (window (auto_load_stocks_file T make_table read_excel_any
                           error_text now now_year found s))
        = firstn 100
            ({| stamp := minute_of now;
                message := u "Автоматично завантажено залишки: "
                             ++ basename latest |}
               :: history (window s))).
Proof.
  split; [intros ->; reflexivity|].
  intros latest d Hlatest Hread Hno. unfold auto_load_stocks_file.
  rewrite (get_latest_file_fromkeys now_year found), Hlatest.
  destruct found as [|f found']; [discriminate Hlatest|].
  cbn [fromkeys existsb].
  unfold load_stocks_file_run. rewrite Hread. unfold load_stocks_file.
  rewrite (find_stores_row_none d Hno). cbn.
  split; [reflexivity|]. split; reflexivity.
Qed.

End StockImporting.

(** The accounting sheet taken for a stock sheet: no row of store names is
    found, and the import of three stores is reported. *)
Example import_stocks_reports_old_stores :
  map message
    (history (window
       (@import_stocks reference_builtins unit (fun _ _ => Some tt) 120
          (Some two_goods)
          {| window := init_app NoFile;
             stores_of := [u "Арсенал"; u "Центр"; u "Ринок"];
             stocks_df_of := Some tt |})))
  = [u "Імпортовано залишки для 3 магазинів"].
Proof. vm_compute. reflexivity. Qed.

(** ** The dialog of the mapping *)

Section Dialog.
Context `{PyBuiltins}.

(** X15: the dialog of the mapping, accepted with the column [sel f] for
    every field [f], on a loaded sheet with at least one row.  The chosen
    mapping is installed in every case.  The entry "Оновлено відображення
    стовпців" is logged when the columns of Name, Profit, Price, Code and
    Article all lie inside the sheet, and it is not when one of them lies
    outside: then the error box is shown, and the mapping stays.  The column
    chosen for Purchase does not matter. *)
Theorem show_column_mapping_dialog_installs (now : Z) (sel : field -> nat)
    (st : App) (d : DataFrame) :
  df st = Some d -> rectangular d -> rows d <> [] ->
  column_mapping (show_column_mapping_dialog now (fun f => Some (sel f)) st)
  = (fun f => Some (sel f))
  /\ df (show_column_mapping_dialog now (fun f => Some (sel f)) st) = Some d
  /\ ((forall f, In f display_columns -> sel f < ncols d) ->
      history (show_column_mapping_dialog now (fun f => Some (sel f)) st)
      = firstn 100 ({| stamp := minute_of now;
                       message := u "Оновлено відображення стовпців" |}
                      :: history st))
  /\ (forall f, In f display_columns -> ncols d <= sel f ->
      history (show_column_mapping_dialog now (fun f => Some (sel f)) st)
      = history st).
Proof.
  intros Hd Hrect Hrows.
  destruct (show_completes_rect (fun f => Some (sel f)) d Hrect) as [Hall Hnone].
  assert (Hyes : (forall f, In f display_columns -> sel f < ncols d) ->
                 show_completes (fun f => Some (sel f)) d = true).
  { intros Hin. apply Hall.
    intros f i Hf E. inversion E; subst i. apply (Hin f Hf). }
  assert (Hno : forall f, In f display_columns -> ncols d <= sel f ->
                show_completes (fun f => Some (sel f)) d = false).
  { intros f Hf Hout. exact (Hnone f (sel f) Hf eq_refl Hout Hrows). }
  clear Hall Hnone. unfold show_column_mapping_dialog. rewrite Hd.
  destruct (show_completes (fun f => Some (sel f)) d) eqn:Ec.
  - split; [reflexivity|]. split; [reflexivity|]. split; [reflexivity|].
    intros f Hf Hout. specialize (Hno f Hf Hout). congruence.
  - split; [reflexivity|]. split; [reflexivity|]. split; [|reflexivity].
    intros Hin. specialize (Hyes Hin). congruence.
Qed.

End Dialog.

(** The dialog sets the column of the Code to 30 on the sheet of two goods:
    the mapping is installed and no entry is logged. *)
Lemma show_column_mapping_dialog_installs_witness :
  column_mapping
    (@show_column_mapping_dialog reference_builtins 120
       (fun f => Some (match f with
                       | Name => 0 | Purchase => 1 | Profit => 4
                       | Price => 5 | Code => 30 | Article => 6
                       end))
       (load_file two_goods (init_app NoFile))) Code = Some 30
  /\ history
       (@show_column_mapping_dialog reference_builtins 120
          (fun f => Some (match f with
                          | Name => 0 | Purchase => 1 | Profit => 4
                          | Price => 5 | Code => 30 | Article => 6
                          end))
          (load_file two_goods (init_app NoFile))) = [].
Proof.
  destruct (@show_column_mapping_dialog_installs reference_builtins 120
              (fun f => match f with
                        | Name => 0 | Purchase => 1 | Profit => 4
                        | Price => 5 | Code => 30 | Article => 6
                        end)
              (load_file two_goods (init_app NoFile)) two_goods eq_refl)
    as (Hm & _ & _ & Hout).
  - repeat constructor.
  - discriminate.
  - split.
    + rewrite Hm. reflexivity.
    + apply (Hout Code); [simpl; tauto | simpl; lia].
Defined.

(** ** The date in a file name *)

(** X16: what stands before the date in a file name does not matter, as
    long as it holds no digit: the date of the name is the date of the rest.
    (The prefix is taken from the code points below U+0660, where the
    decimal digits are the ten ASCII ones.) *)
Theorem extract_date_ignores_prefix (now_year : nat) (pre s : pystr) :
  Forall (fun c => (c < 1632)%N /\ is_digit c = false) pre ->
  extract_date_from_filename now_year (pre ++ s)
  = extract_date_from_filename now_year s.
Proof.
  intros Hpre. unfold extract_date_from_filename.
  rewrite (re_search_skip pre s); [reflexivity|].
  apply forallb_forall. intros c Hc.
  rewrite Forall_forall in Hpre. destruct (Hpre c Hc) as [_ ->]. reflexivity.
Qed.

(** "Облік 01.03.2024.xlsx" has the date of "01.03.2024.xlsx". *)
Lemma extract_date_ignores_prefix_witness :
  extract_date_from_filename 2025 (u "Облік " ++ u "01.03.2024.xlsx")
  = extract_date_from_filename 2025 (u "01.03.2024.xlsx").
Proof.
  apply (extract_date_ignores_prefix 2025 (u "Облік ") (u "01.03.2024.xlsx")).
  repeat constructor.
Defined.

(** ** The history panel *)

Lemma lstrip_all_spaces (s : pystr) : forallb is_space s = true -> lstrip s = [].
Proof.
  induction s as [|c s IH]; [reflexivity|]. cbn [forallb lstrip].
  intros Hs. apply andb_true_iff in Hs. destruct Hs as [-> Hs]. exact (IH Hs).
Qed.

Lemma lstrip_app (a b : pystr) :
  lstrip (a ++ b) = if forallb is_space a then lstrip b else lstrip a ++ b.
Proof.
  induction a as [|c a IH]; [reflexivity|]. cbn [app lstrip forallb].
  destruct (is_space c); [exact IH | reflexivity].
Qed.

Lemma forallb_rev {A : Type} (f : A -> bool) (l : list A) :
  forallb f (rev l) = forallb f l.
Proof.
  induction l as [|x l IH]; [reflexivity|]. cbn [rev forallb].
  rewrite forallb_app, IH. cbn [forallb]. rewrite andb_true_r. apply andb_comm.
Qed.

Lemma rstrip_app (a b : pystr) :
  rstrip (a ++ b) = if forallb is_space b then rstrip a else a ++ rstrip b.
Proof.
  unfold rstrip. rewrite rev_app_distr, lstrip_app, forallb_rev.
  destruct (forallb is_space b); [reflexivity|].
  rewrite rev_app_distr, rev_involutive. reflexivity.
Qed.

Lemma lstrip_fixed (s : pystr) :
  lstrip s = s -> s <> [] -> forallb is_space s = false.
Proof.
  intros Hs Hne. destruct (forallb is_space s) eqn:E; [|reflexivity].
  rewrite (lstrip_all_spaces s E) in Hs. congruence.
Qed.

Lemma rstrip_fixed (s : pystr) :
  rstrip s = s -> s <> [] -> forallb is_space s = false.
Proof.
  intros Hs Hne. destruct (forallb is_space s) eqn:E; [|reflexivity].
  unfold rstrip in Hs. rewrite lstrip_all_spaces in Hs by (rewrite forallb_rev; exact E).
  cbn in Hs. congruence.
Qed.

Lemma lstrip_head (s : pystr) :
  lstrip s = [] \/ exists c r, lstrip s = c :: r /\ is_space c = false.
Proof.
  induction s as [|c s IH]; [left; reflexivity|]. cbn [lstrip].
  destruct (is_space c) eqn:E; [exact IH|]. right. exists c, s. auto.
Qed.

Lemma lstrip_lstrip (s : pystr) : lstrip (lstrip s) = lstrip s.
Proof.
  destruct (lstrip_head s) as [-> | (c & r & -> & Hc)]; [reflexivity|].
  cbn [lstrip]. rewrite Hc. reflexivity.
Qed.

Lemma rstrip_rstrip (s : pystr) : rstrip (rstrip s) = rstrip s.
Proof. unfold rstrip. rewrite rev_involutive, lstrip_lstrip. reflexivity. Qed.

(** What [strip] gives has no space at either end. *)
Lemma strip_trimmed (s : pystr) :
  lstrip (strip s) = strip s /\ rstrip (strip s) = strip s.
Proof.
  unfold strip. split; [|apply rstrip_rstrip].
  destruct (lstrip_head s) as [-> | (c & r & -> & Hc)]; [reflexivity|].
  change (c :: r) with ([c] ++ r). rewrite rstrip_app.
  destruct (forallb is_space r).
  - unfold rstrip. cbn. rewrite Hc. cbn. rewrite Hc. reflexivity.
  - cbn [app lstrip]. rewrite Hc. reflexivity.
Qed.

Lemma strip_strip (s : pystr) : strip (strip s) = strip s.
Proof.
  destruct (strip_trimmed s) as [Hl Hr]. unfold strip at 1. rewrite Hl. exact Hr.
Qed.

Lemma strip_cons_space (c : N) (s : pystr) :
  is_space c = true -> strip (c :: s) = strip s.
Proof. intros Hc. unfold strip. cbn [lstrip]. rewrite Hc. reflexivity. Qed.

Lemma strip_snoc_space (c : N) (s : pystr) :
  is_space c = true -> strip (s ++ [c]) = strip s.
Proof.
  intros Hc. unfold strip. rewrite lstrip_app.
  destruct (forallb is_space s) eqn:E.
  - cbn [lstrip]. rewrite Hc, (lstrip_all_spaces s E). reflexivity.
  - rewrite rstrip_app. cbn [forallb]. rewrite Hc. reflexivity.
Qed.

(** A text with no space at its ends is left as it is. *)
Lemma strip_between (x m y : pystr) :
  lstrip x = x -> x <> [] -> rstrip y = y -> y <> [] ->
  strip (x ++ m ++ y) = x ++ m ++ y.
Proof.
  intros Hx Hxne Hy Hyne. unfold strip.
  rewrite lstrip_app, (lstrip_fixed x Hx Hxne), Hx.
  rewrite app_assoc, rstrip_app, (rstrip_fixed y Hy Hyne), Hy. reflexivity.
Qed.

Lemma lstrip_incl (s : pystr) (x : N) : In x (lstrip s) -> In x s.
Proof.
  induction s as [|c s IH]; [tauto|]. cbn [lstrip].
  destruct (is_space c); [intros Hx; right; exact (IH Hx) | tauto].
Qed.

Lemma strip_incl (s : pystr) (x : N) : In x (strip s) -> In x s.
Proof.
  unfold strip, rstrip. intros Hx. apply in_rev in Hx.
  apply lstrip_incl in Hx. apply in_rev in Hx. apply lstrip_incl in Hx. exact Hx.
Qed.

Lemma plain_strip (s : pystr) : plain s -> plain (strip s).
Proof.
  intros [H1 H2]. split; intros Hx; apply strip_incl in Hx; tauto.
Qed.

Lemma split_char_notin (c : N) (a : pystr) :
  ~ In c a -> split_char c a = [a].
Proof.
  induction a as [|x a IH]; [reflexivity|]. intros Hc. cbn [split_char].
  destruct (N.eqb_spec x c) as [-> | Hne]; [exfalso; apply Hc; left; reflexivity|].
  rewrite IH; [reflexivity|]. intros Hin. apply Hc. right. exact Hin.
Qed.

Lemma split_char_app (c : N) (a r : pystr) :
  ~ In c a -> split_char c (a ++ c :: r) = a :: split_char c r.
Proof.
  induction a as [|x a IH]; intros Hc; cbn [app split_char].
  - rewrite N.eqb_refl. reflexivity.
  - destruct (N.eqb_spec x c) as [-> | Hne]; [exfalso; apply Hc; left; reflexivity|].
    rewrite IH; [reflexivity|]. intros Hin. apply Hc. right. exact Hin.
Qed.

Lemma contains_char (c : N) (s : pystr) :
  contains [c] s = true <-> In c s.
Proof.
  rewrite contains_spec. split.
  - intros (pre & post & ->). apply in_or_app. right. left. reflexivity.
  - intros Hin. apply in_split in Hin. destruct Hin as (pre & post & ->).
    exists pre, post. reflexivity.
Qed.

Lemma contains_char_false (c : N) (s : pystr) :
  ~ In c s -> contains [c] s = false.
Proof.
  intros Hc. destruct (contains [c] s) eqn:E; [|reflexivity].
  apply contains_char in E. contradiction.
Qed.

Lemma replace_absent (c : N) (new s : pystr) :
  ~ In c s -> replace [c] new s = s.
Proof.
  unfold replace. induction s as [|x s IH]; [reflexivity|]. intros Hc.
  cbn [replace_from startswith].
  destruct (N.eqb_spec c x) as [-> | Hne]; [exfalso; apply Hc; left; reflexivity|].
  cbn [andb]. rewrite IH; [reflexivity|]. intros Hin. apply Hc. right. exact Hin.
Qed.

Lemma after_first_skip (c : N) (s : pystr) :
  c <> 32%N -> after_first (u " - ") (c :: s) = after_first (u " - ") s.
Proof.
  intros Hc. change (u " - ") with [32%N; 45%N; 32%N].
  cbn [after_first startswith].
  destruct (N.eqb_spec 32 c) as [E | _]; [congruence | reflexivity].
Qed.

Lemma after_first_here (r : pystr) : after_first (u " - ") (u " - " ++ r) = Some r.
Proof.
  change (u " - ") with [32%N; 45%N; 32%N]. destruct r; reflexivity.
Qed.

(** The time part is two digits, a colon and two digits. *)
Lemma time_part_shape (t : Z) :
  exists d1 d2 d3 d4,
    time_part t = [d1; d2; 58%N; d3; d4]
    /\ Forall (fun d => is_digit d = true) [d1; d2; d3; d4].
Proof.
  unfold time_part, two_digits. change (u ":") with [58%N]. cbn [app].
  pose proof (Z.mod_pos_bound (t / 3600) 24 ltac:(lia)) as Hh.
  pose proof (Z.mod_pos_bound (t / 60) 60 ltac:(lia)) as Hm.
  assert (Hd : forall n, (0 <= n < 100)%Z ->
                 is_digit (48 + Z.to_N (n / 10)) = true
                 /\ is_digit (48 + Z.to_N (n mod 10)) = true).
  { intros n Hn. unfold is_digit.
    pose proof (Z.mod_pos_bound n 10 ltac:(lia)).
    assert (0 <= n / 10 < 10)%Z
      by (split; [apply Z.div_pos; lia | apply Z.div_lt_upper_bound; lia]).
    split; apply andb_true_iff; split; apply N.leb_le; lia. }
  destruct (Hd ((t / 3600) mod 24)%Z ltac:(lia)) as [H1 H2].
  destruct (Hd ((t / 60) mod 60)%Z ltac:(lia)) as [H3 H4].
  eexists _, _, _, _. split; [reflexivity|]. repeat constructor; assumption.
Qed.

Lemma digit_facts (d : N) :
  is_digit d = true ->
  is_space d = false /\ d <> 32%N /\ d <> 10132%N /\ d <> 8233%N.
Proof.
  unfold is_digit. rewrite andb_true_iff, !N.leb_le. intros [H1 H2].
  split; [|lia].
  unfold is_space.
  repeat match goal with
         | |- context [(?a <=? ?b)%N] => destruct (N.leb_spec a b); try lia
         | |- context [(?a =? ?b)%N] => destruct (N.eqb_spec a b); try lia
         end; reflexivity.
Qed.

(** The line of an entry starts with its time part, whose characters are
    neither spaces nor marks. *)
Lemma time_part_facts (t : Z) (r : pystr) :
  lstrip (time_part t) = time_part t /\ time_part t <> []
  /\ plain (time_part t)
  /\ after_first (u " - ") (time_part t ++ u " - " ++ r) = Some r.
Proof.
  destruct (time_part_shape t) as (d1 & d2 & d3 & d4 & -> & Hd).
  inversion Hd as [|? ? H1 Hd1]; subst. inversion Hd1 as [|? ? H2 Hd2]; subst.
  inversion Hd2 as [|? ? H3 Hd3]; subst. inversion Hd3 as [|? ? H4 _]; subst.
  destruct (digit_facts d1 H1) as (S1 & A1 & B1 & C1).
  destruct (digit_facts d2 H2) as (S2 & A2 & B2 & C2).
  destruct (digit_facts d3 H3) as (S3 & A3 & B3 & C3).
  destruct (digit_facts d4 H4) as (S4 & A4 & B4 & C4).
  split; [cbn [lstrip]; rewrite S1; reflexivity|].
  split; [discriminate|]. split.
  - split; intros Hin; cbn [In] in Hin;
      repeat (destruct Hin as [Hin | Hin]; [try congruence; try discriminate|]);
      try exact Hin.
  - cbn [app]. rewrite !after_first_skip by (congruence || discriminate).
    apply after_first_here.
Qed.

Lemma plain_dash : plain (u " - ").
Proof.
  change (u " - ") with [32%N; 45%N; 32%N].
  split; intros Hin; repeat (destruct Hin as [Hin | Hin]; [discriminate Hin|]);
    exact Hin.
Qed.

Lemma plain_app (x y : pystr) : plain (x ++ y) <-> plain x /\ plain y.
Proof.
  unfold plain. rewrite !in_app_iff. tauto.
Qed.

Lemma plain_arrow_free (s : pystr) : plain s -> ~ In 10132%N s.
Proof. intros [H1 _]. exact H1. Qed.

(** The pieces of a text of four parts with arrows between them. *)
Lemma segments_of_arrows (q a b c : pystr) :
  ~ In 10132%N q -> ~ In 10132%N a -> ~ In 10132%N b -> ~ In 10132%N c ->
  split_char 10132 (q ++ arrow ++ a ++ arrow ++ b ++ arrow ++ c)
  = [q ++ [32%N]; 32%N :: a ++ [32%N]; 32%N :: b ++ [32%N]; 32%N :: c]
  /\ map strip (split_char 10132 (q ++ arrow ++ a ++ arrow ++ b ++ arrow ++ c))
     = [strip q; strip a; strip b; strip c].
Proof.
  intros Hq Ha Hb Hc.
  assert (Hnot : forall x, ~ In 10132%N x -> ~ In 10132%N (32%N :: x ++ [32%N])).
  { intros x Hx [E | Hin]; [discriminate|].
    apply in_app_or in Hin. destruct Hin as [Hin | [E | []]];
      [contradiction | discriminate]. }
  assert (Hfirst : ~ In 10132%N (q ++ [32%N])).
  { intros Hin. apply in_app_or in Hin.
    destruct Hin as [Hin | [E | []]]; [contradiction | discriminate]. }
  assert (Hlast : ~ In 10132%N (32%N :: c)).
  { intros [E | Hin]; [discriminate | contradiction]. }
  assert (E : split_char 10132 (q ++ arrow ++ a ++ arrow ++ b ++ arrow ++ c)
              = [q ++ [32%N]; 32%N :: a ++ [32%N]; 32%N :: b ++ [32%N]; 32%N :: c]).
  { change arrow with [32%N; 10132%N; 32%N].
    replace (q ++ [32%N; 10132%N; 32%N] ++ a ++ [32%N; 10132%N; 32%N]
               ++ b ++ [32%N; 10132%N; 32%N] ++ c)
      with ((q ++ [32%N]) ++ 10132%N ::
            (32%N :: a ++ [32%N]) ++ 10132%N ::
            (32%N :: b ++ [32%N]) ++ 10132%N :: 32%N :: c)
      by (cbn [app]; rewrite <- !app_assoc; reflexivity).
    rewrite (split_char_app 10132 _ _ Hfirst).
    rewrite (split_char_app 10132 _ _ (Hnot a Ha)).
    rewrite (split_char_app 10132 _ _ (Hnot b Hb)).
    rewrite (split_char_notin 10132 _ Hlast). reflexivity. }
  split; [exact E|]. rewrite E. cbn [map].
  rewrite (strip_snoc_space 32 q eq_refl).
  rewrite !(strip_cons_space 32 _ eq_refl).
  rewrite (strip_snoc_space 32 a eq_refl), (strip_snoc_space 32 b eq_refl).
  reflexivity.
Qed.

(** The line of an entry of one part. *)
Lemma history_line_plain (t : Z) (q : pystr) :
  ~ In 10132%N q ->
  history_line {| stamp := t; message := q |} = time_part t ++ u " - " ++ q.
Proof.
  intros Hq. unfold history_line. cbn [message stamp].
  change (u "➔") with [10132%N]. rewrite (contains_char_false _ _ Hq).
  reflexivity.
Qed.

(** The line of an entry that a search has logged for one row. *)
Lemma history_line_search (t : Z) (q a b c : pystr) :
  ~ In 10132%N q -> ~ In 10132%N a -> ~ In 10132%N b -> ~ In 10132%N c ->
  history_line (search_entry t q a b c)
  = time_part t ++ u " - " ++ strip q ++ arrow ++ strip a ++ arrow
      ++ strip b ++ arrow ++ strip c.
Proof.
  intros Hq Ha Hb Hc. unfold history_line, search_entry. cbn [message stamp].
  change (u "➔") with [10132%N].
  replace (contains [10132%N] (q ++ arrow ++ a ++ arrow ++ b ++ arrow ++ c))
    with true.
  - rewrite (proj2 (segments_of_arrows q a b c Hq Ha Hb Hc)). reflexivity.
  - symmetry. apply contains_char. apply in_or_app. right.
    change arrow with [32%N; 10132%N; 32%N]. right. left. reflexivity.
Qed.

Section HistoryPanel.
Variable t : Z.
Variables text a b c : pystr.
Hypothesis text_plain : plain text.
Hypothesis a_plain : plain a.
Hypothesis b_plain : plain b.
Hypothesis c_plain : plain c.
Hypothesis query_given : strip text <> [].

Lemma query_facts :
  plain (strip text) /\ strip (strip text) = strip text
  /\ lstrip (strip text) = strip text /\ rstrip (strip text) = strip text.
Proof.
  split; [apply plain_strip; exact text_plain|].
  split; [apply strip_strip|]. apply strip_trimmed.
Qed.

Lemma first_segment_facts :
  plain (time_part t ++ u " - " ++ strip text)
  /\ strip (time_part t ++ u " - " ++ strip text)
     = time_part t ++ u " - " ++ strip text
  /\ after_first (u " - ") (time_part t ++ u " - " ++ strip text)
     = Some (strip text).
Proof.
  destruct query_facts as (Hp & _ & _ & Hr).
  destruct (time_part_facts t (strip text)) as (Tl & Tne & Tp & Ta).
  split; [|split; [|exact Ta]].
  - apply plain_app. split; [exact Tp|]. apply plain_app.
    split; [exact plain_dash | exact Hp].
  - apply strip_between; assumption.
Qed.

(** The line of the entry of one part, as the click reads it. *)
Lemma plain_line_read :
  strip (replace [8233%N] (u " ")
           (history_line {| stamp := t; message := strip text |}))
  = time_part t ++ u " - " ++ strip text.
Proof.
  destruct query_facts as (Hp & _).
  destruct first_segment_facts as (Fp & Fs & _).
  rewrite (history_line_plain t _ (plain_arrow_free _ Hp)).
  rewrite (replace_absent 8233 _ _ (proj2 Fp)). exact Fs.
Qed.

Lemma search_line_one_paragraph :
  ~ In 8233%N (time_part t ++ u " - " ++ strip text ++ arrow ++ strip a ++ arrow
                 ++ strip b ++ arrow ++ strip c).
Proof.
  destruct query_facts as (Hp & _).
  destruct (time_part_facts t (strip text)) as (_ & _ & Tp & _).
  pose proof (plain_strip a a_plain) as Ha.
  pose proof (plain_strip b b_plain) as Hb.
  pose proof (plain_strip c c_plain) as Hc.
  assert (Harrow : ~ In 8233%N arrow).
  { change arrow with [32%N; 10132%N; 32%N]. intros Hin.
    repeat (destruct Hin as [Hin | Hin]; [discriminate Hin|]). exact Hin. }
  rewrite !in_app_iff.
  pose proof (proj2 plain_dash). pose proof (proj2 Tp). pose proof (proj2 Hp).
  pose proof (proj2 Ha). pose proof (proj2 Hb). pose proof (proj2 Hc). tauto.
Qed.

(** The line of the entry of a search, as the click reads it, and its
    segments. *)
Lemma search_line_read :
  strip c <> [] ->
  strip (replace [8233%N] (u " ")
           (history_line (search_entry t (strip text) a b c)))
  = (time_part t ++ u " - " ++ strip text) ++ arrow ++ strip a ++ arrow
      ++ strip b ++ arrow ++ strip c
  /\ map strip
       (split_char 10132
          ((time_part t ++ u " - " ++ strip text) ++ arrow ++ strip a ++ arrow
             ++ strip b ++ arrow ++ strip c))
     = [time_part t ++ u " - " ++ strip text; strip a; strip b; strip c].
Proof.
  intros Hc.
  destruct query_facts as (Hp & Hs & _).
  destruct first_segment_facts as (Fp & Fs & _).
  destruct (time_part_facts t (strip text)) as (Tl & Tne & _ & _).
  pose proof (plain_arrow_free _ (plain_strip a a_plain)) as Ha.
  pose proof (plain_arrow_free _ (plain_strip b b_plain)) as Hb.
  pose proof (plain_arrow_free _ (plain_strip c c_plain)) as Hcc.
  split.
  - rewrite (history_line_search t (strip text) a b c
               (plain_arrow_free _ Hp) (plain_arrow_free _ a_plain)
               (plain_arrow_free _ b_plain) (plain_arrow_free _ c_plain)).
    rewrite Hs.
    rewrite (replace_absent 8233 _ _ search_line_one_paragraph).
    replace (time_part t ++ u " - " ++ strip text ++ arrow ++ strip a ++ arrow
               ++ strip b ++ arrow ++ strip c)
      with (time_part t
              ++ (u " - " ++ strip text ++ arrow ++ strip a ++ arrow
                    ++ strip b ++ arrow)
              ++ strip c)
      by (rewrite <- !app_assoc; reflexivity).
    rewrite (strip_between (time_part t) _ (strip c) Tl Tne
               (proj2 (strip_trimmed c)) Hc).
    rewrite <- !app_assoc. reflexivity.
  - rewrite (proj2 (segments_of_arrows _ _ _ _ (plain_arrow_free _ Fp) Ha Hb Hcc)).
    rewrite Fs, !strip_strip. reflexivity.
Qed.

(** X17: a click on a line of the history.  On the line of an entry of one
    part (a query, or a report) the click copies that part, without the
    time.  On the line of a search that gave one row, the click copies the
    query when the word under the cursor occurs in the first segment (the
    time and the query), and the last segment (the name or the code)
    otherwise, wherever the click was. *)
Theorem history_click_copies (under_cursor : pystr) :
  strip c <> [] ->
  copy_from_history_click
    (history_line {| stamp := t; message := strip text |}) under_cursor
  = Some (strip text)
  /\ copy_from_history_click
       (history_line (search_entry t (strip text) a b c)) under_cursor
     = Some (if negb (pystr_eqb (strip under_cursor) [])
                && contains (strip under_cursor)
                            (time_part t ++ u " - " ++ strip text)
             then strip text else strip c).
Proof.
  intros Hc.
  destruct query_facts as (Hp & Hs & _).
  destruct first_segment_facts as (Fp & Fs & Fa).
  destruct (time_part_facts t (strip text)) as (_ & Tne & _ & _).
  unfold copy_from_history_click. split.
  - rewrite plain_line_read.
    rewrite (split_char_notin 10132 _ (plain_arrow_free _ Fp)).
    cbn [map hd List.length Nat.ltb Nat.leb]. rewrite Fs, Fa, Hs.
    destruct (time_part t ++ u " - " ++ strip text) eqn:E; [|reflexivity].
    apply app_eq_nil in E. tauto.
  - destruct (search_line_read Hc) as [-> ->].
    cbn [hd List.length Nat.ltb Nat.leb last]. rewrite Fa, Hs, strip_strip.
    destruct ((time_part t ++ u " - " ++ strip text) ++ arrow ++ strip a
                ++ arrow ++ strip b ++ arrow ++ strip c) eqn:E; [|reflexivity].
    apply app_eq_nil in E. destruct E as [E _].
    apply app_eq_nil in E. tauto.
Qed.

(** X18: the copy of a selected line.  When a whole line of the history is
    selected, [copy_from_history_selection] copies the first part of its
    entry: the query, for the entries that a search has logged. *)
Theorem history_selection_copies_query :
  copy_from_history_selection
    (history_line {| stamp := t; message := strip text |})
  = Some (strip text)
  /\ copy_from_history_selection
       (history_line (search_entry t (strip text) a b c))
     = Some (strip text).
Proof.
  destruct query_facts as (Hp & Hs & _).
  destruct (time_part_facts t (strip text)) as (_ & Tne & _ & Ta).
  unfold copy_from_history_selection. split.
  - rewrite (history_line_plain t _ (plain_arrow_free _ Hp)), Ta.
    change (u "➔") with [10132%N].
    rewrite (contains_char_false _ _ (plain_arrow_free _ Hp)).
    destruct (time_part t ++ u " - " ++ strip text) eqn:E; [|reflexivity].
    apply app_eq_nil in E. tauto.
  - rewrite (history_line_search t (strip text) a b c
               (plain_arrow_free _ Hp) (plain_arrow_free _ a_plain)
               (plain_arrow_free _ b_plain) (plain_arrow_free _ c_plain)).
    rewrite Hs.
    destruct (time_part_facts t (strip text ++ arrow ++ strip a ++ arrow
                                   ++ strip b ++ arrow ++ strip c))
      as (_ & _ & _ & ->).
    change (u "➔") with [10132%N].
    replace (contains [10132%N] (strip text ++ arrow ++ strip a ++ arrow
                                   ++ strip b ++ arrow ++ strip c)) with true
      by (symmetry; apply contains_char; apply in_or_app; right;
          change arrow with [32%N; 10132%N; 32%N]; right; left; reflexivity).
    rewrite (proj1 (segments_of_arrows _ _ _ _ (plain_arrow_free _ Hp)
                      (plain_arrow_free _ (plain_strip a a_plain))
                      (plain_arrow_free _ (plain_strip b b_plain))
                      (plain_arrow_free _ (plain_strip c c_plain)))).
    cbn [hd]. rewrite (strip_snoc_space 32 _ eq_refl), Hs.
    destruct (time_part t ++ u " - " ++ strip text ++ arrow ++ strip a ++ arrow
                ++ strip b ++ arrow ++ strip c) eqn:E; [|reflexivity].
    apply app_eq_nil in E. tauto.
Qed.

End HistoryPanel.

Lemma plain_check (s : pystr) :
  forallb (fun x => negb (x =? 10132)%N && negb (x =? 8233)%N) s = true ->
  plain s.
Proof.
  rewrite forallb_forall. intros Hall.
  split; intros Hin; specialize (Hall _ Hin); cbn in Hall; discriminate.
Qed.

(** The entry "wid ➔ 30 ➔ 100 ➔ Widget" of 12:34: a click on "Widget"
    copies the name, a click on "wid" copies the query. *)
Lemma history_click_copies_witness :
  copy_from_history_click
    (history_line (search_entry 45296 (u "wid") (u "30") (u "100") (u "Widget")))
    (u "Widget") = Some (u "Widget")
  /\ copy_from_history_click
       (history_line (search_entry 45296 (u "wid") (u "30") (u "100") (u "Widget")))
       (u "wid") = Some (u "wid").
Proof.
  split.
  - apply (history_click_copies 45296 (u " wid ") (u "30") (u "100") (u "Widget")
             (plain_check (u " wid ") eq_refl) (plain_check (u "30") eq_refl)
             (plain_check (u "100") eq_refl) (plain_check (u "Widget") eq_refl)
             ltac:(vm_compute; discriminate) (u "Widget")
             ltac:(vm_compute; discriminate)).
  - apply (history_click_copies 45296 (u " wid ") (u "30") (u "100") (u "Widget")
             (plain_check (u " wid ") eq_refl) (plain_check (u "30") eq_refl)
             (plain_check (u "100") eq_refl) (plain_check (u "Widget") eq_refl)
             ltac:(vm_compute; discriminate) (u "wid")
             ltac:(vm_compute; discriminate)).
Defined.

(** The same line, selected as a whole. *)
Lemma history_selection_copies_query_witness :
  copy_from_history_selection
    (history_line (search_entry 45296 (u "wid") (u "30") (u "100") (u "Widget")))
  = Some (u "wid").
Proof.
  apply (history_selection_copies_query 45296 (u " wid ") (u "30") (u "100")
           (u "Widget")
           (plain_check (u " wid ") eq_refl) (plain_check (u "30") eq_refl)
           (plain_check (u "100") eq_refl) (plain_check (u "Widget") eq_refl)).
Defined.

(** ** Files without a date *)





